(** * System.Globalization.Native: pal_localeStringData.c

    A shallow embedding of the locale-string shim
    [src/coreclr/src/corefx/System.Globalization.Native/pal_localeStringData.c]
    and the properties its specification states about it.

    The shim forwards every query to the ICU library.  The library is not
    part of the program: it is a record of functions ([Icu]) the development
    is parametric in, and every call to it is recorded in a call log so that
    the order of the calls and the release of handles can be stated.  The
    helpers the file takes from [pal_locale.h] are a second record ([Pal]). *)

From Stdlib Require Import ZArith List String Ascii Bool Lia.
Import ListNotations.
Open Scope Z_scope.

(** ** Status codes (ICU [utypes.h]) *)

Definition UErrorCode := Z.
Definition UChar := Z.

Definition U_ZERO_ERROR : UErrorCode := 0.
Definition U_ILLEGAL_ARGUMENT_ERROR : UErrorCode := 1.
Definition U_MEMORY_ALLOCATION_ERROR : UErrorCode := 7.
Definition U_BUFFER_OVERFLOW_ERROR : UErrorCode := 15.
Definition U_UNSUPPORTED_ERROR : UErrorCode := 16.
Definition U_STRING_NOT_TERMINATED_WARNING : UErrorCode := -124.
Definition U_USING_DEFAULT_WARNING : UErrorCode := -127.

(** [#define U_SUCCESS(x) ((x)<=U_ZERO_ERROR)] and
    [#define U_FAILURE(x) ((x)>U_ZERO_ERROR)]. *)
Definition U_SUCCESS (x : UErrorCode) : bool := x <=? U_ZERO_ERROR.
Definition U_FAILURE (x : UErrorCode) : bool := U_ZERO_ERROR <? x.

(** Modelled from the spec: [UErrorCodeToBool] is declared in [pal_errors.h],
    which is not among the sources.  The specification says the status is
    "converted to a boolean success flag", and the comment above both PAL
    functions says "Returns 1 for success, 0 otherwise". *)
Definition UErrorCodeToBool (code : UErrorCode) : Z :=
  if U_SUCCESS code then 1 else 0.

(** ** Constants of the library headers the file uses *)

(** [UNumberFormatSymbol] ([unum.h]). *)
Definition UNUM_DECIMAL_SEPARATOR_SYMBOL : Z := 0.
Definition UNUM_GROUPING_SEPARATOR_SYMBOL : Z := 1.
Definition UNUM_PERCENT_SYMBOL : Z := 3.
Definition UNUM_ZERO_DIGIT_SYMBOL : Z := 4.
Definition UNUM_MINUS_SIGN_SYMBOL : Z := 6.
Definition UNUM_PLUS_SIGN_SYMBOL : Z := 7.
Definition UNUM_CURRENCY_SYMBOL : Z := 8.
Definition UNUM_INTL_CURRENCY_SYMBOL : Z := 9.
Definition UNUM_MONETARY_SEPARATOR_SYMBOL : Z := 10.
Definition UNUM_PERMILL_SYMBOL : Z := 12.
Definition UNUM_INFINITY_SYMBOL : Z := 14.
Definition UNUM_NAN_SYMBOL : Z := 15.
Definition UNUM_MONETARY_GROUPING_SEPARATOR_SYMBOL : Z := 17.
Definition UNUM_ONE_DIGIT_SYMBOL : Z := 18.
Definition UNUM_NINE_DIGIT_SYMBOL : Z := 26.

(** [UNumberFormatStyle], [UDateFormatStyle], [UDateFormatSymbolType],
    [UCurrNameStyle] and the locale constants of [uloc.h]. *)
Definition UNUM_DECIMAL : Z := 1.
Definition UDAT_MEDIUM : Z := 2.
Definition UDAT_SHORT : Z := 3.
Definition UDAT_DEFAULT : Z := UDAT_MEDIUM.
Definition UDAT_NONE : Z := -1.
Definition UDAT_AM_PMS : Z := 5.
Definition UCURR_LONG_NAME : Z := 1.
Definition ULOC_ENGLISH : string := "en".
Definition ULOC_US : string := "en_US".
Definition ULOC_FULLNAME_CAPACITY : Z := 157.

(** [LocaleStringData] ([pal_localeStringData.h], not among the sources, so
    the numeric values of the enumerators are not used).  A C enum can hold
    any integer: [UnlistedLocaleStringData n] stands for a value that is
    none of the enumerators. *)
Inductive LocaleStringData : Type :=
| LocalizedDisplayName
| EnglishDisplayName
| NativeDisplayName
| LocalizedLanguageName
| EnglishLanguageName
| NativeLanguageName
| EnglishCountryName
| NativeCountryName
| ListSeparator
| DecimalSeparator
| ThousandSeparator
| Digits
| MonetarySymbol
| CurrencyEnglishName
| CurrencyNativeName
| Iso4217MonetarySymbol
| MonetaryDecimalSeparator
| MonetaryThousandSeparator
| AMDesignator
| PMDesignator
| PositiveSign
| NegativeSign
| Iso639LanguageTwoLetterName
| Iso639LanguageThreeLetterName
| Iso3166CountryName
| Iso3166CountryName2
| NaNSymbol
| PositiveInfinitySymbol
| ParentName
| PercentSymbol
| PerMilleSymbol
| UnlistedLocaleStringData (n : Z).

(** ** Machine integers and C strings *)

(** [int32_t] arithmetic, with the wrap-around written out. *)
Definition int32_wrap (z : Z) : Z := (z + 2 ^ 31) mod 2 ^ 32 - 2 ^ 31.
Definition int32_add (a b : Z) : Z := int32_wrap (a + b).
Definition int32_sub (a b : Z) : Z := int32_wrap (a - b).

Definition NUL : ascii := Ascii.zero.

(** The C string a [char] buffer holds: the characters before the first NUL. *)
Fixpoint cstring (buf : list ascii) : string :=
  match buf with
  | [] => EmptyString
  | c :: rest => if Ascii.eqb c NUL then EmptyString else String c (cstring rest)
  end.

(** A [char] string as UChars, one unit for each character. *)
Definition widen (s : string) : list UChar :=
  map (fun c => Z.of_nat (nat_of_ascii c)) (list_ascii_of_string s).

(** The UChar string a [UChar] buffer holds, read the same way. *)
Fixpoint u_cstring (buf : list UChar) : list UChar :=
  match buf with
  | [] => []
  | c :: rest => if c =? 0 then [] else c :: u_cstring rest
  end.

Definition u_strlen (s : list UChar) : Z := Z.of_nat (List.length (u_cstring s)).

(** [u_strncpy(dst, src, n)] ([ustring.h]): copies until [n] units are copied
    or the terminating NUL has been copied; the result is the run of units
    stored at [dst].  The source string ends with an implicit NUL. *)
Fixpoint u_strncpy (src : list UChar) (n : nat) : list UChar :=
  match n with
  | O => []
  | S n' =>
      match src with
      | [] => [0]
      | c :: rest => if c =? 0 then [0] else c :: u_strncpy rest n'
      end
  end.

(** ** Memory: writing a run of cells into a buffer

    [store off data buf] overwrites [buf] from index [off] on with [data].
    The buffer keeps its length: what would fall outside it is dropped (in C
    such a write is undefined behaviour). *)
Fixpoint store {A : Type} (off : nat) (data buf : list A) : list A :=
  match buf with
  | [] => []
  | b :: buf' =>
      match off with
      | S off' => b :: store off' data buf'
      | O => match data with
             | [] => buf
             | d :: data' => d :: store O data' buf'
             end
      end
  end.

(** A pointer into the output buffer is an offset from its start; a write
    through a pointer before the buffer is dropped as well. *)
Definition store_at {A : Type} (p : Z) (data buf : list A) : list A :=
  if p <? 0 then buf else store (Z.to_nat p) data buf.

Definition window {A : Type} (p : Z) (buf : list A) : list A :=
  if p <? 0 then buf else skipn (Z.to_nat p) buf.

(** ** The external library and the helpers of the PAL *)

(** The ICU functions the file calls.  A function with a [UErrorCode*]
    parameter takes the status it finds there and returns the status it
    leaves; a function that fills a destination buffer of a given capacity
    returns the units it stores there.  Handles are pointer values.  The
    arguments are those of the C call, in its order, without the ones the
    file always passes as [NULL] or [0]:
    - [icu_unum_open style locale status]: formatter and status;
    - [icu_unum_getSymbol fmt symbol size status];
    - [icu_udat_open timeStyle dateStyle locale status]: formatter and status;
    - [icu_udat_getSymbols fmt type symbolIndex resultLength status];
    - [icu_udat_toPattern fmt localized resultLength status];
    - [icu_uloc_getDisplayName locale displayLocale destCapacity status], and
      the same for the language and the country;
    - [icu_uloc_getLanguage locale languageCapacity status], and the same for
      the country: the characters stored, the length returned, the status;
    - [icu_uloc_getISO3Language locale], [icu_uloc_getISO3Country locale]: the
      C string returned;
    - [icu_uloc_getParent locale parentCapacity status];
    - [icu_ucurr_forLocale locale buffCapacity status];
    - [icu_ucurr_getName currency locale nameStyle status]: the name pointed
      to, the length left in [*len], the status. *)
Record Icu : Type := {
  icu_unum_open : Z -> string -> UErrorCode -> Z * UErrorCode;
  icu_unum_getSymbol : Z -> Z -> Z -> UErrorCode -> list UChar * UErrorCode;
  icu_udat_open : Z -> Z -> string -> UErrorCode -> Z * UErrorCode;
  icu_udat_getSymbols : Z -> Z -> Z -> Z -> UErrorCode -> list UChar * UErrorCode;
  icu_udat_toPattern : Z -> bool -> Z -> UErrorCode -> list UChar * UErrorCode;
  icu_uloc_getDisplayName : string -> string -> Z -> UErrorCode -> list UChar * UErrorCode;
  icu_uloc_getDisplayLanguage : string -> string -> Z -> UErrorCode -> list UChar * UErrorCode;
  icu_uloc_getDisplayCountry : string -> string -> Z -> UErrorCode -> list UChar * UErrorCode;
  icu_uloc_getLanguage : string -> Z -> UErrorCode -> list ascii * Z * UErrorCode;
  icu_uloc_getCountry : string -> Z -> UErrorCode -> list ascii * Z * UErrorCode;
  icu_uloc_getISO3Language : string -> string;
  icu_uloc_getISO3Country : string -> string;
  icu_uloc_getParent : string -> Z -> UErrorCode -> list ascii * UErrorCode;
  icu_ucurr_forLocale : string -> Z -> UErrorCode -> list UChar * UErrorCode;
  icu_ucurr_getName : list UChar -> string -> Z -> UErrorCode -> list UChar * Z * UErrorCode
}.

(** The helpers of [pal_locale.h] (their definitions are in [pal_locale.c],
    not among the sources) and the allocator.
    - [pal_GetLocale name capacity canonicalize status]: the C string left in
      the [locale] buffer and the status;
    - [pal_u_charsToUChars_safe str valueLength]: the units stored at [value]
      and the status returned;
    - [pal_FixupLocaleName window valueLength]: the contents of the buffer
      from [value] on after the call, given its contents before;
    - [calloc_succeeds n]: whether [calloc(n, 1)] returns a buffer. *)
Record Pal : Type := {
  pal_GetLocale : list UChar -> Z -> bool -> UErrorCode -> string * UErrorCode;
  pal_DetectDefaultLocaleName : string;
  pal_u_charsToUChars_safe : string -> Z -> list UChar * UErrorCode;
  pal_FixupLocaleName : list UChar -> Z -> list UChar;
  calloc_succeeds : Z -> bool
}.

(** ** The program state and the call log *)

Inductive Call : Type :=
| Call_GetLocale (localeName : list UChar)
| Call_DetectDefaultLocaleName
| Call_uloc_getDisplayName (locale displayLocale : string) (dest capacity : Z)
| Call_uloc_getDisplayLanguage (locale displayLocale : string) (dest capacity : Z)
| Call_uloc_getDisplayCountry (locale displayLocale : string) (dest capacity : Z)
| Call_unum_open (style : Z) (locale : string) (fmt : Z)
| Call_unum_getSymbol (fmt symbol dest capacity : Z)
| Call_unum_close (fmt : Z)
| Call_udat_open (timeStyle dateStyle : Z) (locale : string) (fmt : Z)
| Call_udat_getSymbols (fmt type index dest capacity : Z)
| Call_udat_toPattern (fmt : Z) (localized : bool) (dest capacity : Z)
| Call_udat_close (fmt : Z)
| Call_uloc_getLanguage (locale : string) (capacity : Z)
| Call_uloc_getCountry (locale : string) (capacity : Z)
| Call_uloc_getISO3Language (locale : string)
| Call_uloc_getISO3Country (locale : string)
| Call_uloc_getParent (locale : string) (capacity : Z)
| Call_ucurr_forLocale (locale : string) (capacity : Z)
| Call_ucurr_getName (currency : list UChar) (locale : string) (nameStyle : Z)
| Call_u_strncpy (dest n : Z)
| Call_u_charsToUChars_safe (str : string) (dest capacity : Z)
| Call_FixupLocaleName (dest capacity : Z)
| Call_calloc (n : Z) (ok : bool)
| Call_free.

(** [out] is the memory of the caller's output buffer; [calls] is every call
    made so far out of the file, oldest first. *)
Record World : Type := mkWorld {
  out : list UChar;
  calls : list Call
}.

(** A small state monad over [World]. *)
Definition M (A : Type) : Type := World -> A * World.

Definition ret {A : Type} (a : A) : M A := fun w => (a, w).

Definition bind {A B : Type} (m : M A) (k : A -> M B) : M B :=
  fun w => let (a, w') := m w in k a w'.

Declare Scope pal_scope.
Delimit Scope pal_scope with pal.
Notation "x <- c1 ;; c2" := (bind c1 (fun x => c2))
  (at level 61, c1 at next level, right associativity) : pal_scope.
Notation "' pat <- c1 ;; c2" := (bind c1 (fun x => match x with pat => c2 end))
  (at level 61, pat pattern, c1 at next level, right associativity) : pal_scope.
Notation "c1 ;; c2" := (bind c1 (fun _ => c2))
  (at level 61, right associativity) : pal_scope.
Open Scope pal_scope.

Definition record (c : Call) : M unit :=
  fun w => (tt, mkWorld (out w) (calls w ++ [c])).

Definition poke (p : Z) (data : list UChar) : M unit :=
  fun w => (tt, mkWorld (store_at p data (out w)) (calls w)).

Definition peek (p : Z) : M (list UChar) :=
  fun w => (window p (out w), w).

(** A computation is [framed] when it reads nothing of the call log: run
    after any history [h], it returns what it returns on the empty log, and
    leaves the same buffer, with its own calls appended to [h]. *)
Definition framed {A : Type} (m : M A) : Prop :=
  forall b h,
    m (mkWorld b h) =
    (fst (m (mkWorld b [])),
     mkWorld (out (snd (m (mkWorld b [])))) (h ++ calls (snd (m (mkWorld b []))))).

(** ** The shim *)

Section Shim.

Variable icu : Icu.
Variable pal : Pal.

(** *** Calls out of the file

    Each one appends its record to the log, stores what the callee stores
    into the output buffer, and returns what the callee returns. *)

Definition GetLocale (localeName : list UChar) (localeLength : Z)
           (canonicalize : bool) (err : UErrorCode) : M (string * UErrorCode) :=
  record (Call_GetLocale localeName) ;;
  ret (pal_GetLocale pal localeName localeLength canonicalize err).

Definition DetectDefaultLocaleName : M string :=
  record Call_DetectDefaultLocaleName ;;
  ret (pal_DetectDefaultLocaleName pal).

Definition uloc_getDisplayName (locale displayLocale : string)
           (dest destCapacity : Z) (status : UErrorCode) : M UErrorCode :=
  let r := icu_uloc_getDisplayName icu locale displayLocale destCapacity status in
  record (Call_uloc_getDisplayName locale displayLocale dest destCapacity) ;;
  poke dest (fst r) ;;
  ret (snd r).

Definition uloc_getDisplayLanguage (locale displayLocale : string)
           (dest destCapacity : Z) (status : UErrorCode) : M UErrorCode :=
  let r := icu_uloc_getDisplayLanguage icu locale displayLocale destCapacity status in
  record (Call_uloc_getDisplayLanguage locale displayLocale dest destCapacity) ;;
  poke dest (fst r) ;;
  ret (snd r).

Definition uloc_getDisplayCountry (locale displayLocale : string)
           (dest destCapacity : Z) (status : UErrorCode) : M UErrorCode :=
  let r := icu_uloc_getDisplayCountry icu locale displayLocale destCapacity status in
  record (Call_uloc_getDisplayCountry locale displayLocale dest destCapacity) ;;
  poke dest (fst r) ;;
  ret (snd r).

Definition unum_open (style : Z) (locale : string) (status : UErrorCode)
  : M (Z * UErrorCode) :=
  let r := icu_unum_open icu style locale status in
  record (Call_unum_open style locale (fst r)) ;;
  ret r.

Definition unum_getSymbol (fmt symbol buffer size : Z) (status : UErrorCode)
  : M UErrorCode :=
  let r := icu_unum_getSymbol icu fmt symbol size status in
  record (Call_unum_getSymbol fmt symbol buffer size) ;;
  poke buffer (fst r) ;;
  ret (snd r).

Definition unum_close (fmt : Z) : M unit := record (Call_unum_close fmt).

Definition udat_open (timeStyle dateStyle : Z) (locale : string)
           (status : UErrorCode) : M (Z * UErrorCode) :=
  let r := icu_udat_open icu timeStyle dateStyle locale status in
  record (Call_udat_open timeStyle dateStyle locale (fst r)) ;;
  ret r.

Definition udat_getSymbols (fmt type symbolIndex result resultLength : Z)
           (status : UErrorCode) : M UErrorCode :=
  let r := icu_udat_getSymbols icu fmt type symbolIndex resultLength status in
  record (Call_udat_getSymbols fmt type symbolIndex result resultLength) ;;
  poke result (fst r) ;;
  ret (snd r).

Definition udat_toPattern (fmt : Z) (localized : bool) (result resultLength : Z)
           (status : UErrorCode) : M UErrorCode :=
  let r := icu_udat_toPattern icu fmt localized resultLength status in
  record (Call_udat_toPattern fmt localized result resultLength) ;;
  poke result (fst r) ;;
  ret (snd r).

Definition udat_close (fmt : Z) : M unit := record (Call_udat_close fmt).

Definition uloc_getLanguage (locale : string) (languageCapacity : Z)
           (err : UErrorCode) : M (list ascii * Z * UErrorCode) :=
  record (Call_uloc_getLanguage locale languageCapacity) ;;
  ret (icu_uloc_getLanguage icu locale languageCapacity err).

Definition uloc_getCountry (locale : string) (countryCapacity : Z)
           (err : UErrorCode) : M (list ascii * Z * UErrorCode) :=
  record (Call_uloc_getCountry locale countryCapacity) ;;
  ret (icu_uloc_getCountry icu locale countryCapacity err).

Definition uloc_getISO3Language (locale : string) : M string :=
  record (Call_uloc_getISO3Language locale) ;;
  ret (icu_uloc_getISO3Language icu locale).

Definition uloc_getISO3Country (locale : string) : M string :=
  record (Call_uloc_getISO3Country locale) ;;
  ret (icu_uloc_getISO3Country icu locale).

Definition uloc_getParent (locale : string) (parentCapacity : Z)
           (err : UErrorCode) : M (list ascii * UErrorCode) :=
  record (Call_uloc_getParent locale parentCapacity) ;;
  ret (icu_uloc_getParent icu locale parentCapacity err).

Definition ucurr_forLocale (locale : string) (buffCapacity : Z)
           (ec : UErrorCode) : M (list UChar * UErrorCode) :=
  record (Call_ucurr_forLocale locale buffCapacity) ;;
  ret (icu_ucurr_forLocale icu locale buffCapacity ec).

Definition ucurr_getName (currency : list UChar) (locale : string)
           (nameStyle : Z) (ec : UErrorCode) : M (list UChar * Z * UErrorCode) :=
  record (Call_ucurr_getName currency locale nameStyle) ;;
  ret (icu_ucurr_getName icu currency locale nameStyle ec).

Definition u_strncpy_to (dst : Z) (src : list UChar) (n : Z) : M unit :=
  record (Call_u_strncpy dst n) ;;
  poke dst (u_strncpy src (Z.to_nat n)).

Definition u_charsToUChars_safe (str : string) (value valueLength : Z)
  : M UErrorCode :=
  let r := pal_u_charsToUChars_safe pal str valueLength in
  record (Call_u_charsToUChars_safe str value valueLength) ;;
  poke value (fst r) ;;
  ret (snd r).

Definition FixupLocaleName (value valueLength : Z) : M unit :=
  record (Call_FixupLocaleName value valueLength) ;;
  before <- peek value ;;
  poke value (pal_FixupLocaleName pal before valueLength).

(** [calloc(n, sizeof(char))]: a zeroed buffer, or [NULL].  [n] is the
    [int32_t] the file passes; what its conversion to [size_t] asks for is
    the allocator's business ([calloc_succeeds]). *)
Definition calloc (n : Z) : M (option (list ascii)) :=
  let ok := calloc_succeeds pal n in
  record (Call_calloc n ok) ;;
  ret (if ok then Some (repeat NUL (Z.to_nat n)) else None).

Definition free : M unit := record Call_free.

(** *** The functions of the file *)

(** Obtains the value of a DecimalFormatSymbols. *)
Definition GetLocaleInfoDecimalFormatSymbol (locale : string) (symbol : Z)
           (value valueLength : Z) : M UErrorCode :=
  let status := U_ZERO_ERROR in
  '(pFormat, status) <- unum_open UNUM_DECIMAL locale status ;;
  if U_FAILURE status then ret status
  else
    status <- unum_getSymbol pFormat symbol value valueLength status ;;
    unum_close pFormat ;;
    ret status.

(** Obtains the value of a Digit DecimalFormatSymbols. *)
Definition GetDigitSymbol (locale : string) (previousStatus : UErrorCode)
           (symbol digit : Z) (value valueLength : Z) : M UErrorCode :=
  if U_FAILURE previousStatus then ret previousStatus
  else GetLocaleInfoDecimalFormatSymbol locale symbol
         (value + digit) (int32_sub valueLength digit).

(** Obtains the value of the AM or PM string for a locale. *)
Definition GetLocaleInfoAmPm (locale : string) (am : bool)
           (value valueLength : Z) : M UErrorCode :=
  let status := U_ZERO_ERROR in
  '(pFormat, status) <- udat_open UDAT_DEFAULT UDAT_DEFAULT locale status ;;
  if U_FAILURE status then ret status
  else
    status <- udat_getSymbols pFormat UDAT_AM_PMS (if am then 0 else 1)
                value valueLength status ;;
    udat_close pFormat ;;
    ret status.

(** Gets the language name for a locale (via uloc_getLanguage) and converts
    the result to UChars. *)
Definition GetLocaleIso639LanguageTwoLetterName (locale : string)
           (value valueLength : Z) : M UErrorCode :=
  let status := U_ZERO_ERROR in
  '(_, n, _) <- uloc_getLanguage locale 0 status ;;
  let length := int32_add n 1 in
  buf <- calloc length ;;
  match buf with
  | None => ret U_MEMORY_ALLOCATION_ERROR
  | Some buf =>
      let status := U_ZERO_ERROR in
      '(stored, _, status) <- uloc_getLanguage locale length status ;;
      let buf := store 0 stored buf in
      status <- (if U_SUCCESS status
                 then u_charsToUChars_safe (cstring buf) value valueLength
                 else ret status) ;;
      free ;;
      ret status
  end.

(** Gets the language name for a locale (via uloc_getISO3Language) and
    converts the result to UChars. *)
Definition GetLocaleIso639LanguageThreeLetterName (locale : string)
           (value valueLength : Z) : M UErrorCode :=
  isoLanguage <- uloc_getISO3Language locale ;;
  match isoLanguage with
  | EmptyString => ret U_ILLEGAL_ARGUMENT_ERROR
  | String _ _ => u_charsToUChars_safe isoLanguage value valueLength
  end.

(** Gets the country name for a locale (via uloc_getCountry) and converts
    the result to UChars. *)
Definition GetLocaleIso3166CountryName (locale : string)
           (value valueLength : Z) : M UErrorCode :=
  let status := U_ZERO_ERROR in
  '(_, n, _) <- uloc_getCountry locale 0 status ;;
  let length := int32_add n 1 in
  buf <- calloc length ;;
  match buf with
  | None => ret U_MEMORY_ALLOCATION_ERROR
  | Some buf =>
      let status := U_ZERO_ERROR in
      '(stored, _, status) <- uloc_getCountry locale length status ;;
      let buf := store 0 stored buf in
      status <- (if U_SUCCESS status
                 then u_charsToUChars_safe (cstring buf) value valueLength
                 else ret status) ;;
      free ;;
      ret status
  end.

(** Gets the 3 letter country code for a locale (via uloc_getISO3Country)
    and converts the result to UChars. *)
Definition GetLocaleIso3166CountryCode (locale : string)
           (value valueLength : Z) : M UErrorCode :=
  pIsoCountryName <- uloc_getISO3Country locale ;;
  let len := int32_wrap (Z.of_nat (String.length pIsoCountryName)) in
  if len =? 0 then ret U_ILLEGAL_ARGUMENT_ERROR
  else u_charsToUChars_safe pIsoCountryName value valueLength.

(** Gets the locale currency English or native name and convert the result
    to UChars. *)
Definition GetLocaleCurrencyName (locale : string) (nativeName : bool)
           (value valueLength : Z) : M UErrorCode :=
  let status := U_ZERO_ERROR in
  '(currencyThreeLettersName, status) <- ucurr_forLocale locale 4 status ;;
  if negb (U_SUCCESS status) then ret status
  else
    '(pCurrencyLongName, len, status) <-
      ucurr_getName currencyThreeLettersName
                    (if nativeName then locale else ULOC_US)
                    UCURR_LONG_NAME status ;;
    if negb (U_SUCCESS status) then ret status
    else if len >=? valueLength then ret U_BUFFER_OVERFLOW_ERROR
    else
      u_strncpy_to value pCurrencyLongName len ;;
      poke (value + len) [0] ;;
      ret status.

(** The loop of the [Digits] case:
    [for (symbol = UNUM_ONE_DIGIT_SYMBOL; symbol <= UNUM_NINE_DIGIT_SYMBOL; symbol++)].
    [fuel] bounds the number of iterations; [Digits_fuel] is enough for the
    loop to leave through its test ([Digits_loop_in_order]). *)
Fixpoint Digits_loop (fuel : nat) (locale : string) (symbol : Z)
         (status : UErrorCode) (value valueLength : Z) : M UErrorCode :=
  match fuel with
  | O => ret status
  | S fuel' =>
      if symbol <=? UNUM_NINE_DIGIT_SYMBOL then
        let charIndex := int32_add (int32_sub symbol UNUM_ONE_DIGIT_SYMBOL) 1 in
        status <- GetDigitSymbol locale status symbol charIndex value valueLength ;;
        Digits_loop fuel' locale (int32_add symbol 1) status value valueLength
      else ret status
  end.

Definition Digits_fuel : nat := 10.

(** The [switch] of [GlobalizationNative_GetLocaleInfoString] (lines
    231-350): the value of [status] when control leaves it. *)
Definition GetLocaleInfoString_switch (locale : string)
           (localeStringData : LocaleStringData) (status : UErrorCode)
           (value valueLength : Z) : M UErrorCode :=
  match localeStringData with
  | LocalizedDisplayName =>
      d <- DetectDefaultLocaleName ;;
      uloc_getDisplayName locale d value valueLength status
  | EnglishDisplayName =>
      uloc_getDisplayName locale ULOC_ENGLISH value valueLength status
  | NativeDisplayName =>
      uloc_getDisplayName locale locale value valueLength status
  | LocalizedLanguageName =>
      d <- DetectDefaultLocaleName ;;
      uloc_getDisplayLanguage locale d value valueLength status
  | EnglishLanguageName =>
      uloc_getDisplayLanguage locale ULOC_ENGLISH value valueLength status
  | NativeLanguageName =>
      uloc_getDisplayLanguage locale locale value valueLength status
  | EnglishCountryName =>
      uloc_getDisplayCountry locale ULOC_ENGLISH value valueLength status
  | NativeCountryName =>
      uloc_getDisplayCountry locale locale value valueLength status
  | ListSeparator
  | ThousandSeparator =>
      GetLocaleInfoDecimalFormatSymbol locale UNUM_GROUPING_SEPARATOR_SYMBOL value valueLength
  | DecimalSeparator =>
      GetLocaleInfoDecimalFormatSymbol locale UNUM_DECIMAL_SEPARATOR_SYMBOL value valueLength
  | Digits =>
      status <- GetDigitSymbol locale status UNUM_ZERO_DIGIT_SYMBOL 0 value valueLength ;;
      Digits_loop Digits_fuel locale UNUM_ONE_DIGIT_SYMBOL status value valueLength
  | MonetarySymbol =>
      GetLocaleInfoDecimalFormatSymbol locale UNUM_CURRENCY_SYMBOL value valueLength
  | Iso4217MonetarySymbol =>
      GetLocaleInfoDecimalFormatSymbol locale UNUM_INTL_CURRENCY_SYMBOL value valueLength
  | CurrencyEnglishName =>
      GetLocaleCurrencyName locale false value valueLength
  | CurrencyNativeName =>
      GetLocaleCurrencyName locale true value valueLength
  | MonetaryDecimalSeparator =>
      GetLocaleInfoDecimalFormatSymbol locale UNUM_MONETARY_SEPARATOR_SYMBOL value valueLength
  | MonetaryThousandSeparator =>
      GetLocaleInfoDecimalFormatSymbol locale UNUM_MONETARY_GROUPING_SEPARATOR_SYMBOL value valueLength
  | AMDesignator =>
      GetLocaleInfoAmPm locale true value valueLength
  | PMDesignator =>
      GetLocaleInfoAmPm locale false value valueLength
  | PositiveSign =>
      GetLocaleInfoDecimalFormatSymbol locale UNUM_PLUS_SIGN_SYMBOL value valueLength
  | NegativeSign =>
      GetLocaleInfoDecimalFormatSymbol locale UNUM_MINUS_SIGN_SYMBOL value valueLength
  | Iso639LanguageTwoLetterName =>
      GetLocaleIso639LanguageTwoLetterName locale value valueLength
  | Iso639LanguageThreeLetterName =>
      GetLocaleIso639LanguageThreeLetterName locale value valueLength
  | Iso3166CountryName =>
      GetLocaleIso3166CountryName locale value valueLength
  | Iso3166CountryName2 =>
      GetLocaleIso3166CountryCode locale value valueLength
  | NaNSymbol =>
      GetLocaleInfoDecimalFormatSymbol locale UNUM_NAN_SYMBOL value valueLength
  | PositiveInfinitySymbol =>
      GetLocaleInfoDecimalFormatSymbol locale UNUM_INFINITY_SYMBOL value valueLength
  | ParentName =>
      '(localeNameTemp, status) <- uloc_getParent locale ULOC_FULLNAME_CAPACITY status ;;
      if U_SUCCESS status then
        status <- u_charsToUChars_safe (cstring localeNameTemp) value valueLength ;;
        if U_SUCCESS status then
          FixupLocaleName value valueLength ;;
          ret status
        else ret status
      else ret status
  | PercentSymbol =>
      GetLocaleInfoDecimalFormatSymbol locale UNUM_PERCENT_SYMBOL value valueLength
  | PerMilleSymbol =>
      GetLocaleInfoDecimalFormatSymbol locale UNUM_PERMILL_SYMBOL value valueLength
  | UnlistedLocaleStringData _ =>
      ret U_UNSUPPORTED_ERROR
  end.

(** PAL function GetLocaleInfoString: obtains string locale information.
    Returns 1 for success, 0 otherwise. *)
Definition GlobalizationNative_GetLocaleInfoString (localeName : list UChar)
           (localeStringData : LocaleStringData) (value valueLength : Z) : M Z :=
  let status := U_ZERO_ERROR in
  '(locale, status) <- GetLocale localeName ULOC_FULLNAME_CAPACITY false status ;;
  if U_FAILURE status then ret (UErrorCodeToBool U_ILLEGAL_ARGUMENT_ERROR)
  else
    status <- GetLocaleInfoString_switch locale localeStringData status
                value valueLength ;;
    ret (UErrorCodeToBool status).

(** PAL function GetLocaleTimeFormat: obtains time format information.
    Returns 1 for success, 0 otherwise. *)
Definition GlobalizationNative_GetLocaleTimeFormat (localeName : list UChar)
           (shortFormat : Z) (value valueLength : Z) : M Z :=
  let err := U_ZERO_ERROR in
  '(locale, err) <- GetLocale localeName ULOC_FULLNAME_CAPACITY false err ;;
  if U_FAILURE err then ret (UErrorCodeToBool U_ILLEGAL_ARGUMENT_ERROR)
  else
    let style := if negb (shortFormat =? 0) then UDAT_SHORT else UDAT_MEDIUM in
    '(pFormat, err) <- udat_open style UDAT_NONE locale err ;;
    if U_FAILURE err then ret (UErrorCodeToBool err)
    else
      err <- udat_toPattern pFormat false value valueLength err ;;
      udat_close pFormat ;;
      ret (UErrorCodeToBool err).

(** The Digits case as the specification words it: the ten digit symbols,
    the zero digit first and then [UNUM_ONE_DIGIT_SYMBOL] to
    [UNUM_NINE_DIGIT_SYMBOL], are queried in this order, digit [i] into
    offset [i] of the buffer with [valueLength - i] cells left; once a
    query has failed nothing more is queried or stored and the failing
    status is the result. *)
Definition digit_symbols : list Z :=
  UNUM_ZERO_DIGIT_SYMBOL
    :: map (fun k => UNUM_ONE_DIGIT_SYMBOL + Z.of_nat k) (seq 0 9).

Fixpoint Digits_in_order (locale : string) (symbols : list Z) (i : Z)
         (status : UErrorCode) (value valueLength : Z) : M UErrorCode :=
  match symbols with
  | [] => ret status
  | symbol :: rest =>
      if U_FAILURE status then ret status
      else
        status <- GetLocaleInfoDecimalFormatSymbol locale symbol
                    (value + i) (valueLength - i) ;;
        Digits_in_order locale rest (i + 1) status value valueLength
  end.

(** The status a call ends with: the value of [status] (of [err]) at the
    [return] statement that is reached. *)
Definition GetLocaleInfoString_final_status (localeName : list UChar)
           (localeStringData : LocaleStringData) (value valueLength : Z)
           (w : World) : UErrorCode :=
  let '(locale, status, w1) :=
    GetLocale localeName ULOC_FULLNAME_CAPACITY false U_ZERO_ERROR w in
  if U_FAILURE status then status
  else fst (GetLocaleInfoString_switch locale localeStringData status
              value valueLength w1).

Definition GetLocaleTimeFormat_final_status (localeName : list UChar)
           (shortFormat : Z) (value valueLength : Z) (w : World) : UErrorCode :=
  let '(locale, err, w1) :=
    GetLocale localeName ULOC_FULLNAME_CAPACITY false U_ZERO_ERROR w in
  if U_FAILURE err then err
  else
    let style := if negb (shortFormat =? 0) then UDAT_SHORT else UDAT_MEDIUM in
    let '(pFormat, err, w2) := udat_open style UDAT_NONE locale err w1 in
    if U_FAILURE err then err
    else fst (udat_toPattern pFormat false value valueLength err w2).

End Shim.

(** ** The library as the reference

    The specification compares what a call leaves in the output buffer with
    "what the underlying locale library returns for the equivalent query".
    [Query] names the queries, [query_of_field] is the table from field
    identifiers to queries, and [library_answer] is the buffer with the
    library's answer to a query stored at [value]. *)

Inductive Query : Type :=
| DisplayName (displayLocale : string)
| DisplayLanguage (displayLocale : string)
| DisplayCountry (displayLocale : string)
| NumberSymbol (symbol : Z)
| DigitSymbols
| AmPmString (index : Z)
| CurrencyLongName (nameLocale : string)
| LanguageCode
| Iso3LanguageCode
| CountryCode
| Iso3CountryCode
| ParentLocale.

Section Reference.

Variable icu : Icu.
Variable pal : Pal.

Definition query_of_field (locale : string) (f : LocaleStringData) : option Query :=
  match f with
  | LocalizedDisplayName => Some (DisplayName (pal_DetectDefaultLocaleName pal))
  | EnglishDisplayName => Some (DisplayName ULOC_ENGLISH)
  | NativeDisplayName => Some (DisplayName locale)
  | LocalizedLanguageName => Some (DisplayLanguage (pal_DetectDefaultLocaleName pal))
  | EnglishLanguageName => Some (DisplayLanguage ULOC_ENGLISH)
  | NativeLanguageName => Some (DisplayLanguage locale)
  | EnglishCountryName => Some (DisplayCountry ULOC_ENGLISH)
  | NativeCountryName => Some (DisplayCountry locale)
  | ListSeparator => Some (NumberSymbol UNUM_GROUPING_SEPARATOR_SYMBOL)
  | DecimalSeparator => Some (NumberSymbol UNUM_DECIMAL_SEPARATOR_SYMBOL)
  | ThousandSeparator => Some (NumberSymbol UNUM_GROUPING_SEPARATOR_SYMBOL)
  | Digits => Some DigitSymbols
  | MonetarySymbol => Some (NumberSymbol UNUM_CURRENCY_SYMBOL)
  | CurrencyEnglishName => Some (CurrencyLongName ULOC_US)
  | CurrencyNativeName => Some (CurrencyLongName locale)
  | Iso4217MonetarySymbol => Some (NumberSymbol UNUM_INTL_CURRENCY_SYMBOL)
  | MonetaryDecimalSeparator => Some (NumberSymbol UNUM_MONETARY_SEPARATOR_SYMBOL)
  | MonetaryThousandSeparator =>
      Some (NumberSymbol UNUM_MONETARY_GROUPING_SEPARATOR_SYMBOL)
  | AMDesignator => Some (AmPmString 0)
  | PMDesignator => Some (AmPmString 1)
  | PositiveSign => Some (NumberSymbol UNUM_PLUS_SIGN_SYMBOL)
  | NegativeSign => Some (NumberSymbol UNUM_MINUS_SIGN_SYMBOL)
  | Iso639LanguageTwoLetterName => Some LanguageCode
  | Iso639LanguageThreeLetterName => Some Iso3LanguageCode
  | Iso3166CountryName => Some CountryCode
  | Iso3166CountryName2 => Some Iso3CountryCode
  | NaNSymbol => Some (NumberSymbol UNUM_NAN_SYMBOL)
  | PositiveInfinitySymbol => Some (NumberSymbol UNUM_INFINITY_SYMBOL)
  | ParentName => Some ParentLocale
  | PercentSymbol => Some (NumberSymbol UNUM_PERCENT_SYMBOL)
  | PerMilleSymbol => Some (NumberSymbol UNUM_PERMILL_SYMBOL)
  | UnlistedLocaleStringData _ => None
  end.

(** The symbol of the decimal formatter of the locale, as the library
    stores it into [capacity] cells. *)
Definition symbol_answer (locale : string) (symbol capacity : Z) : list UChar :=
  let o := icu_unum_open icu UNUM_DECIMAL locale U_ZERO_ERROR in
  fst (icu_unum_getSymbol icu (fst o) symbol capacity (snd o)).

Definition am_pm_answer (locale : string) (index capacity : Z) : list UChar :=
  let o := icu_udat_open icu UDAT_DEFAULT UDAT_DEFAULT locale U_ZERO_ERROR in
  fst (icu_udat_getSymbols icu (fst o) UDAT_AM_PMS index capacity (snd o)).

(** What the stores of the [Digits] case leave in the buffer when every
    query succeeds: the units the library stores for digit [i] go to offset
    [i], each store over the tail of the one before.  This is the code's
    doing, not an answer of the library. *)
Fixpoint digit_stores (locale : string) (symbols : list Z) (i : Z)
         (value valueLength : Z) (b : list UChar) : list UChar :=
  match symbols with
  | [] => b
  | symbol :: rest =>
      digit_stores locale rest (i + 1) value valueLength
        (store_at (value + i) (symbol_answer locale symbol (valueLength - i)) b)
  end.

(** The library's answer for the digits: the strings it returns for the
    symbols, the one for digit [i] asked with [valueLength - i] cells, one
    after the other. *)
Fixpoint digit_strings (locale : string) (symbols : list Z) (i : Z)
         (valueLength : Z) : list UChar :=
  match symbols with
  | [] => []
  | symbol :: rest =>
      u_cstring (symbol_answer locale symbol (valueLength - i))
        ++ digit_strings locale rest (i + 1) valueLength
  end.

(** Every digit symbol the library returns is one unit long and is stored
    with its terminator. *)
Fixpoint one_unit_digits (locale : string) (symbols : list Z) (i : Z)
         (valueLength : Z) : Prop :=
  match symbols with
  | [] => True
  | symbol :: rest =>
      (exists d, d <> 0 /\ symbol_answer locale symbol (valueLength - i) = [d; 0]) /\
      one_unit_digits locale rest (i + 1) valueLength
  end.

(** The language and the country of the locale: the string the library
    stores into a zeroed buffer with one character more than the length it
    announces. *)
Definition language_code (locale : string) : string :=
  let n := int32_add (snd (fst (icu_uloc_getLanguage icu locale 0 U_ZERO_ERROR))) 1 in
  cstring (store 0 (fst (fst (icu_uloc_getLanguage icu locale n U_ZERO_ERROR)))
             (repeat NUL (Z.to_nat n))).

Definition country_code (locale : string) : string :=
  let n := int32_add (snd (fst (icu_uloc_getCountry icu locale 0 U_ZERO_ERROR))) 1 in
  cstring (store 0 (fst (fst (icu_uloc_getCountry icu locale n U_ZERO_ERROR)))
             (repeat NUL (Z.to_nat n))).

(** The long name of the currency of the locale, in the language of
    [nameLocale]. *)
Definition currency_long_name (locale nameLocale : string) : list UChar :=
  let c := icu_ucurr_forLocale icu locale 4 U_ZERO_ERROR in
  u_cstring (fst (fst (icu_ucurr_getName icu (fst c) nameLocale UCURR_LONG_NAME (snd c)))).

Definition parent_locale (locale : string) (status : UErrorCode) : string :=
  cstring (fst (icu_uloc_getParent icu locale ULOC_FULLNAME_CAPACITY status)).

Definition library_answer (locale : string) (q : Query) (status : UErrorCode)
           (value valueLength : Z) (b : list UChar) : list UChar :=
  match q with
  | DisplayName d =>
      store_at value (fst (icu_uloc_getDisplayName icu locale d valueLength status)) b
  | DisplayLanguage d =>
      store_at value (fst (icu_uloc_getDisplayLanguage icu locale d valueLength status)) b
  | DisplayCountry d =>
      store_at value (fst (icu_uloc_getDisplayCountry icu locale d valueLength status)) b
  | NumberSymbol symbol => store_at value (symbol_answer locale symbol valueLength) b
  | DigitSymbols =>
      store_at value (digit_strings locale digit_symbols 0 valueLength ++ [0]) b
  | AmPmString index => store_at value (am_pm_answer locale index valueLength) b
  | CurrencyLongName nameLocale =>
      store_at value (currency_long_name locale nameLocale ++ [0]) b
  | LanguageCode => store_at value (widen (language_code locale) ++ [0]) b
  | Iso3LanguageCode =>
      store_at value (widen (icu_uloc_getISO3Language icu locale) ++ [0]) b
  | CountryCode => store_at value (widen (country_code locale) ++ [0]) b
  | Iso3CountryCode =>
      store_at value (widen (icu_uloc_getISO3Country icu locale) ++ [0]) b
  | ParentLocale => store_at value (widen (parent_locale locale status) ++ [0]) b
  end.

(** What the file makes of the answer before it returns: the parent name
    goes through [FixupLocaleName]; every other answer is left as it is. *)
Definition returned_answer (locale : string) (q : Query) (status : UErrorCode)
           (value valueLength : Z) (b : list UChar) : list UChar :=
  let a := library_answer locale q status value valueLength b in
  match q with
  | ParentLocale =>
      store_at value (pal_FixupLocaleName pal (window value a) valueLength) a
  | _ => a
  end.

End Reference.

(** ** A small library model

    A concrete [Icu] and [Pal] over three locales, with the library's usual
    conventions: a function that finds a failure status on entry does
    nothing, and a string is stored with its terminator when it fits, without
    it (and with a warning) when only the string fits, and not at all (with
    [U_BUFFER_OVERFLOW_ERROR]) otherwise.  The properties below are proved for
    every library; this one supplies the concrete runs. *)
Module Demo.

Definition U_MISSING_RESOURCE_ERROR : UErrorCode := 2.

Definition ustr (s : string) : list UChar := widen s.

Fixpoint lookup (key : string) (table : list (string * string)) : option string :=
  match table with
  | [] => None
  | (k, v) :: rest => if String.eqb k key then Some v else lookup key rest
  end.

Definition extract (s : list UChar) (capacity : Z) (status : UErrorCode)
  : list UChar * UErrorCode :=
  if U_FAILURE status then ([], status)
  else if capacity <? 0 then ([], U_ILLEGAL_ARGUMENT_ERROR)
  else
    let n := Z.of_nat (List.length s) in
    if n <? capacity then (s ++ [0], status)
    else if n =? capacity then (s, U_STRING_NOT_TERMINATED_WARNING)
    else ([], U_BUFFER_OVERFLOW_ERROR).

Definition extract_chars (s : string) (capacity : Z) (status : UErrorCode)
  : list ascii * Z * UErrorCode :=
  let n := Z.of_nat (String.length s) in
  if U_FAILURE status then ([], 0, status)
  else if capacity <? 0 then ([], 0, U_ILLEGAL_ARGUMENT_ERROR)
  else if n <? capacity then (list_ascii_of_string s ++ [NUL], n, status)
  else if n =? capacity then (list_ascii_of_string s, n, U_STRING_NOT_TERMINATED_WARNING)
  else ([], n, U_BUFFER_OVERFLOW_ERROR).

Definition answer (key : string) (table : list (string * string))
           (capacity : Z) (status : UErrorCode) : list UChar * UErrorCode :=
  match lookup key table with
  | Some v => extract (ustr v) capacity status
  | None => ([], if U_FAILURE status then status else U_MISSING_RESOURCE_ERROR)
  end.

(** Formatter handles: one pointer value per locale. *)
Definition handles : list (string * Z) :=
  [("en_US", 100); ("fr_FR", 200); ("zh_Hans_CN", 300)]%string.

Fixpoint handle_of (locale : string) (table : list (string * Z)) : option Z :=
  match table with
  | [] => None
  | (k, h) :: rest => if String.eqb k locale then Some h else handle_of locale rest
  end.

Definition open (locale : string) (status : UErrorCode) : Z * UErrorCode :=
  if U_FAILURE status then (0, status)
  else match handle_of locale handles with
       | Some h => (h, status)
       | None => (0, U_MISSING_RESOURCE_ERROR)
       end.

Definition digit_of (symbol : Z) : option Z :=
  if symbol =? UNUM_ZERO_DIGIT_SYMBOL then Some 48
  else if (UNUM_ONE_DIGIT_SYMBOL <=? symbol) && (symbol <=? UNUM_NINE_DIGIT_SYMBOL)
       then Some (49 + (symbol - UNUM_ONE_DIGIT_SYMBOL))
       else None.

Definition symbol_text (fmt symbol : Z) : option (list UChar) :=
  match digit_of symbol with
  | Some d => Some [d]
  | None =>
      if symbol =? UNUM_DECIMAL_SEPARATOR_SYMBOL
      then Some (if fmt =? 200 then ustr "," else ustr ".")
      else if symbol =? UNUM_GROUPING_SEPARATOR_SYMBOL
      then Some (if fmt =? 200 then [8239] else ustr ",")
      else if symbol =? UNUM_PERCENT_SYMBOL then Some (ustr "%")
      else if symbol =? UNUM_MINUS_SIGN_SYMBOL then Some (ustr "-")
      else if symbol =? UNUM_PLUS_SIGN_SYMBOL then Some (ustr "+")
      else if symbol =? UNUM_INTL_CURRENCY_SYMBOL
      then Some (if fmt =? 200 then ustr "EUR" else if fmt =? 300 then ustr "CNY" else ustr "USD")
      else if symbol =? UNUM_NAN_SYMBOL then Some (ustr "NaN")
      else None
  end.

Definition getSymbol (fmt symbol capacity : Z) (status : UErrorCode)
  : list UChar * UErrorCode :=
  match symbol_text fmt symbol with
  | Some s => extract s capacity status
  | None => ([], if U_FAILURE status then status else U_ILLEGAL_ARGUMENT_ERROR)
  end.

Definition getAmPm (fmt type index capacity : Z) (status : UErrorCode)
  : list UChar * UErrorCode :=
  if (type =? UDAT_AM_PMS) && (index =? 0) then extract (ustr "AM") capacity status
  else if (type =? UDAT_AM_PMS) && (index =? 1) then extract (ustr "PM") capacity status
  else ([], if U_FAILURE status then status else U_ILLEGAL_ARGUMENT_ERROR).

Definition toPattern (fmt : Z) (localized : bool) (capacity : Z)
           (status : UErrorCode) : list UChar * UErrorCode :=
  extract (ustr (if fmt =? 200 then "HH:mm" else "h:mm a")) capacity status.

Definition displayNames : list (string * string) :=
  [("en_US/en", "English (United States)"); ("fr_FR/en", "French (France)");
   ("fr_FR/fr_FR", "fran" ++ "cais (France)"); ("en_US/en_US", "English (United States)")]%string.
Definition displayLanguages : list (string * string) :=
  [("en_US/en", "English"); ("fr_FR/en", "French"); ("en_US/en_US", "English")]%string.
Definition displayCountries : list (string * string) :=
  [("en_US/en", "United States"); ("fr_FR/en", "France"); ("en_US/en_US", "United States")]%string.
Definition languages : list (string * string) :=
  [("en_US", "en"); ("fr_FR", "fr"); ("zh_Hans_CN", "zh")]%string.
Definition countries : list (string * string) :=
  [("en_US", "US"); ("fr_FR", "FR"); ("zh_Hans_CN", "CN")]%string.
Definition iso3Languages : list (string * string) :=
  [("en_US", "eng"); ("fr_FR", "fra"); ("zh_Hans_CN", "zho")]%string.
Definition iso3Countries : list (string * string) :=
  [("en_US", "USA"); ("fr_FR", "FRA"); ("zh_Hans_CN", "CHN")]%string.
Definition parents : list (string * string) :=
  [("en_US", "en"); ("fr_FR", "fr"); ("zh_Hans_CN", "zh_Hans"); ("zh_Hans", "zh")]%string.
Definition currencies : list (string * string) :=
  [("en_US", "USD"); ("fr_FR", "EUR"); ("zh_Hans_CN", "CNY")]%string.
Definition currencyNames : list (string * list UChar * string) :=
  [("en_US", ustr "USD", "US Dollar"); ("en_US", ustr "EUR", "Euro");
   ("fr_FR", ustr "EUR", "euro"); ("en_US", ustr "CNY", "Chinese Yuan")]%string.

Definition text (key : string) (table : list (string * string)) : string :=
  match lookup key table with Some v => v | None => EmptyString end.

Fixpoint currencyName (locale : string) (currency : list UChar)
         (table : list (string * list UChar * string)) : option string :=
  match table with
  | [] => None
  | (l, c, v) :: rest =>
      if String.eqb l locale && (if list_eq_dec Z.eq_dec c (u_cstring currency) then true else false)
      then Some v else currencyName locale currency rest
  end.

Definition getName (currency : list UChar) (locale : string) (nameStyle : Z)
           (status : UErrorCode) : list UChar * Z * UErrorCode :=
  if U_FAILURE status then ([], 0, status)
  else match currencyName locale currency currencyNames with
       | Some v => (ustr v, Z.of_nat (String.length v), status)
       | None => (u_cstring currency, u_strlen currency, U_USING_DEFAULT_WARNING)
       end.

Definition icu : Icu := {|
  icu_unum_open := fun _ locale status => open locale status;
  icu_unum_getSymbol := getSymbol;
  icu_udat_open := fun _ _ locale status => open locale status;
  icu_udat_getSymbols := getAmPm;
  icu_udat_toPattern := toPattern;
  icu_uloc_getDisplayName := fun l d => answer (l ++ "/" ++ d) displayNames;
  icu_uloc_getDisplayLanguage := fun l d => answer (l ++ "/" ++ d) displayLanguages;
  icu_uloc_getDisplayCountry := fun l d => answer (l ++ "/" ++ d) displayCountries;
  icu_uloc_getLanguage := fun l => extract_chars (text l languages);
  icu_uloc_getCountry := fun l => extract_chars (text l countries);
  icu_uloc_getISO3Language := fun l => text l iso3Languages;
  icu_uloc_getISO3Country := fun l => text l iso3Countries;
  icu_uloc_getParent := fun l capacity status =>
    let r := extract_chars (text l parents) capacity status in (fst (fst r), snd r);
  icu_ucurr_forLocale := fun l => answer l currencies;
  icu_ucurr_getName := getName
|}.

(** The same library, except that [uloc_getLanguage] and [uloc_getCountry]
    run out of memory when they are given a buffer to fill. *)
Definition out_of_memory (capacity : Z) (status : UErrorCode)
  : list ascii * Z * UErrorCode :=
  ([], 0, if U_FAILURE status then status else U_MEMORY_ALLOCATION_ERROR).

Definition icu_exhausted : Icu := {|
  icu_unum_open := icu_unum_open icu;
  icu_unum_getSymbol := icu_unum_getSymbol icu;
  icu_udat_open := icu_udat_open icu;
  icu_udat_getSymbols := icu_udat_getSymbols icu;
  icu_udat_toPattern := icu_udat_toPattern icu;
  icu_uloc_getDisplayName := icu_uloc_getDisplayName icu;
  icu_uloc_getDisplayLanguage := icu_uloc_getDisplayLanguage icu;
  icu_uloc_getDisplayCountry := icu_uloc_getDisplayCountry icu;
  icu_uloc_getLanguage := fun l capacity status =>
    if 0 <? capacity then out_of_memory capacity status
    else icu_uloc_getLanguage icu l capacity status;
  icu_uloc_getCountry := fun l capacity status =>
    if 0 <? capacity then out_of_memory capacity status
    else icu_uloc_getCountry icu l capacity status;
  icu_uloc_getISO3Language := icu_uloc_getISO3Language icu;
  icu_uloc_getISO3Country := icu_uloc_getISO3Country icu;
  icu_uloc_getParent := icu_uloc_getParent icu;
  icu_ucurr_forLocale := icu_ucurr_forLocale icu;
  icu_ucurr_getName := icu_ucurr_getName icu
|}.

(** The PAL helpers: [GetLocale] narrows the name and writes [_] for [-],
    and rejects a name that does not fit; [u_charsToUChars_safe] widens a
    string that fits with its terminator; [FixupLocaleName] writes [-] for
    [_] up to the terminator. *)
Definition narrow (name : list UChar) : string :=
  string_of_list_ascii
    (map (fun u => if u =? 45 then "_"%char else ascii_of_nat (Z.to_nat u)) name).

Definition getLocale (name : list UChar) (capacity : Z) (canonicalize : bool)
           (status : UErrorCode) : string * UErrorCode :=
  if U_FAILURE status then (EmptyString, status)
  else if Z.of_nat (List.length name) >=? capacity
       then (EmptyString, U_ILLEGAL_ARGUMENT_ERROR)
       else (narrow name, status).

Definition charsToUChars_safe (str : string) (valueLength : Z)
  : list UChar * UErrorCode :=
  if Z.of_nat (String.length str) >=? valueLength
  then ([], U_BUFFER_OVERFLOW_ERROR)
  else (ustr str ++ [0], U_ZERO_ERROR).

Fixpoint fixup (buf : list UChar) (n : nat) : list UChar :=
  match n, buf with
  | S n', c :: rest =>
      if c =? 0 then buf else (if c =? 95 then 45 else c) :: fixup rest n'
  | _, _ => buf
  end.

Definition pal : Pal := {|
  pal_GetLocale := getLocale;
  pal_DetectDefaultLocaleName := "en_US";
  pal_u_charsToUChars_safe := charsToUChars_safe;
  pal_FixupLocaleName := fun buf valueLength => fixup buf (Z.to_nat valueLength);
  calloc_succeeds := fun n => (0 <? n) && (n <? 4096)
|}.

(** A PAL whose allocator always fails. *)
Definition pal_no_memory : Pal := {|
  pal_GetLocale := getLocale;
  pal_DetectDefaultLocaleName := "en_US";
  pal_u_charsToUChars_safe := charsToUChars_safe;
  pal_FixupLocaleName := fun buf valueLength => fixup buf (Z.to_nat valueLength);
  calloc_succeeds := fun _ => false
|}.

(** A fresh output buffer of [n] cells, each holding [0xFFFF], and no call
    made yet. *)
Definition fresh (n : nat) : World := mkWorld (repeat 65535 n) [].

End Demo.

(** ** Resources, read off the call log

    What the file holds at a point of the log: a number formatter, a date
    formatter or none, and whether the temporary buffer of [calloc] is
    allocated.  An open that leaves a failure status yields no formatter
    (every open of [GlobalizationNative_GetLocaleInfoString] starts from
    [U_ZERO_ERROR]); a [calloc] that returns [NULL] yields no buffer. *)

Inductive Formatter : Type :=
| NoFormatter
| NumberFormatter (fmt : Z)
| DateFormatter (fmt : Z).

Definition Held : Type := (Formatter * bool)%type.

Definition nothing_held : Held := (NoFormatter, false).

(** One call, from what is held before it to what is held after it; [None]
    when the call breaks the discipline: an open while a formatter is held,
    an extraction or a close on a handle that is not the one held, a second
    allocation, a [free] without a buffer. *)
Definition hold_step (icu : Icu) (held : option Held) (c : Call) : option Held :=
  match held with
  | None => None
  | Some (formatter, buffer) =>
      match c with
      | Call_unum_open style locale fmt =>
          match formatter with
          | NoFormatter =>
              if U_FAILURE (snd (icu_unum_open icu style locale U_ZERO_ERROR))
              then Some (NoFormatter, buffer)
              else Some (NumberFormatter fmt, buffer)
          | _ => None
          end
      | Call_unum_getSymbol fmt _ _ _ =>
          match formatter with
          | NumberFormatter h => if h =? fmt then Some (formatter, buffer) else None
          | _ => None
          end
      | Call_unum_close fmt =>
          match formatter with
          | NumberFormatter h => if h =? fmt then Some (NoFormatter, buffer) else None
          | _ => None
          end
      | Call_udat_open timeStyle dateStyle locale fmt =>
          match formatter with
          | NoFormatter =>
              if U_FAILURE (snd (icu_udat_open icu timeStyle dateStyle locale U_ZERO_ERROR))
              then Some (NoFormatter, buffer)
              else Some (DateFormatter fmt, buffer)
          | _ => None
          end
      | Call_udat_getSymbols fmt _ _ _ _
      | Call_udat_toPattern fmt _ _ _ =>
          match formatter with
          | DateFormatter h => if h =? fmt then Some (formatter, buffer) else None
          | _ => None
          end
      | Call_udat_close fmt =>
          match formatter with
          | DateFormatter h => if h =? fmt then Some (NoFormatter, buffer) else None
          | _ => None
          end
      | Call_calloc _ ok => if buffer then None else Some (formatter, ok)
      | Call_free => if buffer then Some (formatter, false) else None
      | _ => Some (formatter, buffer)
      end
  end.

Definition held_after (icu : Icu) (l : list Call) : option Held :=
  fold_left (hold_step icu) l (Some nothing_held).

(** [logs P m]: whatever the state, the calls [m] makes are appended to the
    log and satisfy [P]. *)
Definition logs (P : list Call -> Prop) {A : Type} (m : M A) : Prop :=
  forall w, exists l, calls (snd (m w)) = calls w ++ l /\ P l.

(** The fields whose case hands the status it finds to the library: the
    display names and the parent name.  Every other case starts its library
    calls from [U_ZERO_ERROR]. *)
Definition hands_status_on (f : LocaleStringData) : bool :=
  match f with
  | LocalizedDisplayName | EnglishDisplayName | NativeDisplayName
  | LocalizedLanguageName | EnglishLanguageName | NativeLanguageName
  | EnglishCountryName | NativeCountryName | ParentName => true
  | _ => false
  end.

(** The three calls of one digit query on formatter [fmt]. *)
Definition digit_query (locale : string) (fmt value valueLength : Z) (q : Z * Z)
  : list Call :=
  [Call_unum_open UNUM_DECIMAL locale fmt;
   Call_unum_getSymbol fmt (snd q) (value + fst q) (valueLength - fst q);
   Call_unum_close fmt].

(** The digit symbols with their offsets: [(0, zero digit); (1, one digit); ...]. *)
Definition digit_offsets : list (Z * Z) :=
  combine (map Z.of_nat (seq 0 10)) digit_symbols.


(** The calls of the digit queries for [symbols], the first at offset [i]. *)
Fixpoint digit_queries (locale : string) (fmt value valueLength : Z) (i : Z)
         (symbols : list Z) : list Call :=
  match symbols with
  | [] => []
  | symbol :: rest =>
      digit_query locale fmt value valueLength (i, symbol)
        ++ digit_queries locale fmt value valueLength (i + 1) rest
  end.

(** A run of calls after which nothing is held, none of them having broken
    the discipline. *)
Definition released (icu : Icu) (l : list Call) : Prop :=
  held_after icu l = Some nothing_held.

Definition is_FixupLocaleName (c : Call) : bool :=
  match c with
  | Call_FixupLocaleName _ _ => true
  | _ => false
  end.

(** The calls made since the log was [before]. *)
Definition calls_since (before : World) (after : World) : list Call :=
  skipn (List.length (calls before)) (calls after).


(** The same helpers with another default locale, and with another
    allocator. *)
Definition with_default_locale (pal : Pal) (d : string) : Pal := {|
  pal_GetLocale := pal_GetLocale pal;
  pal_DetectDefaultLocaleName := d;
  pal_u_charsToUChars_safe := pal_u_charsToUChars_safe pal;
  pal_FixupLocaleName := pal_FixupLocaleName pal;
  calloc_succeeds := calloc_succeeds pal
|}.

Definition with_allocator (pal : Pal) (a : Z -> bool) : Pal := {|
  pal_GetLocale := pal_GetLocale pal;
  pal_DetectDefaultLocaleName := pal_DetectDefaultLocaleName pal;
  pal_u_charsToUChars_safe := pal_u_charsToUChars_safe pal;
  pal_FixupLocaleName := pal_FixupLocaleName pal;
  calloc_succeeds := a
|}.

(** The fields whose case calls [DetectDefaultLocaleName], and those whose
    case calls [calloc]. *)
Definition asks_default_locale (f : LocaleStringData) : bool :=
  match f with
  | LocalizedDisplayName | LocalizedLanguageName => true
  | _ => false
  end.

Definition allocates (f : LocaleStringData) : bool :=
  match f with
  | Iso639LanguageTwoLetterName | Iso3166CountryName => true
  | _ => false
  end.


(** ** The status of the library and the statuses of the file

    "The final library status" of a query: the status the last library call
    made for it leaves, computed from the library alone.  [None] where no
    library call of the query carries a status ([uloc_getISO3Language] and
    [uloc_getISO3Country] have no status parameter). *)

Section LibraryStatus.

Variable icu : Icu.
Variable pal : Pal.

Definition symbol_library_status (locale : string) (symbol capacity : Z) : UErrorCode :=
  let o := icu_unum_open icu UNUM_DECIMAL locale U_ZERO_ERROR in
  if U_FAILURE (snd o) then snd o
  else snd (icu_unum_getSymbol icu (fst o) symbol capacity (snd o)).

Definition am_pm_library_status (locale : string) (index capacity : Z) : UErrorCode :=
  let o := icu_udat_open icu UDAT_DEFAULT UDAT_DEFAULT locale U_ZERO_ERROR in
  if U_FAILURE (snd o) then snd o
  else snd (icu_udat_getSymbols icu (fst o) UDAT_AM_PMS index capacity (snd o)).

(** The digit queries stop at the first one that fails; [last] is the status
    so far. *)
Fixpoint digits_library_status (locale : string) (symbols : list Z) (i : Z)
         (last : UErrorCode) (valueLength : Z) : UErrorCode :=
  match symbols with
  | [] => last
  | symbol :: rest =>
      if U_FAILURE last then last
      else digits_library_status locale rest (i + 1)
             (symbol_library_status locale symbol (valueLength - i)) valueLength
  end.

Definition currency_library_status (locale nameLocale : string) : UErrorCode :=
  let c := icu_ucurr_forLocale icu locale 4 U_ZERO_ERROR in
  if U_SUCCESS (snd c)
  then snd (icu_ucurr_getName icu (fst c) nameLocale UCURR_LONG_NAME (snd c))
  else snd c.

(** The second call of [uloc_getLanguage] is made only when the buffer for it
    was obtained. *)
Definition language_library_status (locale : string) : UErrorCode :=
  let first := icu_uloc_getLanguage icu locale 0 U_ZERO_ERROR in
  let n := int32_add (snd (fst first)) 1 in
  if calloc_succeeds pal n
  then snd (icu_uloc_getLanguage icu locale n U_ZERO_ERROR)
  else snd first.

Definition country_library_status (locale : string) : UErrorCode :=
  let first := icu_uloc_getCountry icu locale 0 U_ZERO_ERROR in
  let n := int32_add (snd (fst first)) 1 in
  if calloc_succeeds pal n
  then snd (icu_uloc_getCountry icu locale n U_ZERO_ERROR)
  else snd first.

Definition final_library_status (locale : string) (q : Query) (status : UErrorCode)
           (valueLength : Z) : option UErrorCode :=
  match q with
  | DisplayName d => Some (snd (icu_uloc_getDisplayName icu locale d valueLength status))
  | DisplayLanguage d =>
      Some (snd (icu_uloc_getDisplayLanguage icu locale d valueLength status))
  | DisplayCountry d =>
      Some (snd (icu_uloc_getDisplayCountry icu locale d valueLength status))
  | NumberSymbol symbol => Some (symbol_library_status locale symbol valueLength)
  | DigitSymbols => Some (digits_library_status locale digit_symbols 0 status valueLength)
  | AmPmString index => Some (am_pm_library_status locale index valueLength)
  | CurrencyLongName nameLocale => Some (currency_library_status locale nameLocale)
  | LanguageCode => Some (language_library_status locale)
  | CountryCode => Some (country_library_status locale)
  | ParentLocale => Some (snd (icu_uloc_getParent icu locale ULOC_FULLNAME_CAPACITY status))
  | Iso3LanguageCode | Iso3CountryCode => None
  end.

(** The status the file sets itself on the way of a query, if it does:
    - [U_BUFFER_OVERFLOW_ERROR] when the library has found the currency name
      and it does not fit (line 204);
    - [U_MEMORY_ALLOCATION_ERROR] when [calloc] fails (lines 88, 135);
    - [U_ILLEGAL_ARGUMENT_ERROR] when the ISO-3 code is empty (lines 115, 165);
    - what [u_charsToUChars_safe] returns, once the library call before it
      has succeeded (lines 97, 118, 144, 168, 333).
    [None] when the status of the library is what is returned. *)
Definition file_set_status (locale : string) (q : Query) (status : UErrorCode)
           (valueLength : Z) : option UErrorCode :=
  match q with
  | CurrencyLongName nameLocale =>
      let c := icu_ucurr_forLocale icu locale 4 U_ZERO_ERROR in
      let n := icu_ucurr_getName icu (fst c) nameLocale UCURR_LONG_NAME (snd c) in
      if U_SUCCESS (snd c) && U_SUCCESS (snd n) && (snd (fst n) >=? valueLength)
      then Some U_BUFFER_OVERFLOW_ERROR else None
  | LanguageCode =>
      let n := int32_add (snd (fst (icu_uloc_getLanguage icu locale 0 U_ZERO_ERROR))) 1 in
      if calloc_succeeds pal n
      then if U_SUCCESS (snd (icu_uloc_getLanguage icu locale n U_ZERO_ERROR))
           then Some (snd (pal_u_charsToUChars_safe pal (language_code icu locale) valueLength))
           else None
      else Some U_MEMORY_ALLOCATION_ERROR
  | CountryCode =>
      let n := int32_add (snd (fst (icu_uloc_getCountry icu locale 0 U_ZERO_ERROR))) 1 in
      if calloc_succeeds pal n
      then if U_SUCCESS (snd (icu_uloc_getCountry icu locale n U_ZERO_ERROR))
           then Some (snd (pal_u_charsToUChars_safe pal (country_code icu locale) valueLength))
           else None
      else Some U_MEMORY_ALLOCATION_ERROR
  | Iso3LanguageCode =>
      match icu_uloc_getISO3Language icu locale with
      | EmptyString => Some U_ILLEGAL_ARGUMENT_ERROR
      | String _ _ as code => Some (snd (pal_u_charsToUChars_safe pal code valueLength))
      end
  | Iso3CountryCode =>
      let code := icu_uloc_getISO3Country icu locale in
      if int32_wrap (Z.of_nat (String.length code)) =? 0
      then Some U_ILLEGAL_ARGUMENT_ERROR
      else Some (snd (pal_u_charsToUChars_safe pal code valueLength))
  | ParentLocale =>
      if U_SUCCESS (snd (icu_uloc_getParent icu locale ULOC_FULLNAME_CAPACITY status))
      then Some (snd (pal_u_charsToUChars_safe pal (parent_locale icu locale status)
                        valueLength))
      else None
  | _ => None
  end.

(** The status left by the library calls of the time format. *)
Definition time_format_library_status (locale : string) (shortFormat : Z)
           (status : UErrorCode) (valueLength : Z) : UErrorCode :=
  let style := if negb (shortFormat =? 0) then UDAT_SHORT else UDAT_MEDIUM in
  let o := icu_udat_open icu style UDAT_NONE locale status in
  if U_FAILURE (snd o) then snd o
  else snd (icu_udat_toPattern icu (fst o) false valueLength (snd o)).

End LibraryStatus.

(** ** Stores that do not depend on the buffer

    [apply_stores ws b]: the buffer [b] after the stores [ws], each a pointer
    and the units stored there, in their order.  A computation is [blind]
    when, from every state, it returns the same value, appends the same calls
    and makes the same stores: nothing it does depends on what the buffer
    holds or on the calls made before. *)
Definition apply_stores (ws : list (Z * list UChar)) (b : list UChar) : list UChar :=
  fold_left (fun acc s => store_at (fst s) (snd s) acc) ws b.

Definition blind {A : Type} (m : M A) : Prop :=
  exists a ws l,
    forall b h, m (mkWorld b h) = (a, mkWorld (apply_stores ws b) (h ++ l)).


(** [is_flag_of r status]: [r] is the success flag of [status]. *)
Definition is_flag_of (r : Z) (status : UErrorCode) : Prop :=
  (r = 1 <-> status <= U_ZERO_ERROR) /\ (r = 0 <-> status > U_ZERO_ERROR).

(** Two contracts for the helpers of the [ParentName] case.
    [FixupLocaleName] works on the string at [value]: the cells after the
    first NUL do not matter to it and are not changed by it, and the string
    keeps its length.  [u_charsToUChars_safe], when it succeeds, has stored a
    terminated string of at most [valueLength] units. *)
Definition FixupLocaleName_is_local (pal : Pal) : Prop :=
  forall s t n,
    In 0 s ->
    pal_FixupLocaleName pal (s ++ t) n = pal_FixupLocaleName pal s n ++ t /\
    List.length (pal_FixupLocaleName pal s n) = List.length s.

Definition conversion_is_terminated (pal : Pal) : Prop :=
  forall str n,
    U_SUCCESS (snd (pal_u_charsToUChars_safe pal str n)) = true ->
    In 0 (fst (pal_u_charsToUChars_safe pal str n)) /\
    Z.of_nat (List.length (fst (pal_u_charsToUChars_safe pal str n))) <= n.

(** A library whose digit symbols are two units long (the mathematical
    digits, a surrogate pair each); everything else as in [Demo.icu]. *)
Definition wide_digit (fmt symbol capacity : Z) (status : UErrorCode)
  : list UChar * UErrorCode :=
  match Demo.digit_of symbol with
  | Some d => Demo.extract [55349; 57294 + (d - 48)] capacity status
  | None => Demo.getSymbol fmt symbol capacity status
  end.

Definition icu_wide_digits : Icu := {|
  icu_unum_open := icu_unum_open Demo.icu;
  icu_unum_getSymbol := wide_digit;
  icu_udat_open := icu_udat_open Demo.icu;
  icu_udat_getSymbols := icu_udat_getSymbols Demo.icu;
  icu_udat_toPattern := icu_udat_toPattern Demo.icu;
  icu_uloc_getDisplayName := icu_uloc_getDisplayName Demo.icu;
  icu_uloc_getDisplayLanguage := icu_uloc_getDisplayLanguage Demo.icu;
  icu_uloc_getDisplayCountry := icu_uloc_getDisplayCountry Demo.icu;
  icu_uloc_getLanguage := icu_uloc_getLanguage Demo.icu;
  icu_uloc_getCountry := icu_uloc_getCountry Demo.icu;
  icu_uloc_getISO3Language := icu_uloc_getISO3Language Demo.icu;
  icu_uloc_getISO3Country := icu_uloc_getISO3Country Demo.icu;
  icu_uloc_getParent := icu_uloc_getParent Demo.icu;
  icu_ucurr_forLocale := icu_ucurr_forLocale Demo.icu;
  icu_ucurr_getName := icu_ucurr_getName Demo.icu
|}.


(** * Properties *)

Section Properties.

Variable icu : Icu.
Variable pal : Pal.

(** ** Status codes *)

Lemma U_FAILURE_not_SUCCESS (x : UErrorCode) : U_FAILURE x = negb (U_SUCCESS x).
Proof.
  unfold U_FAILURE, U_SUCCESS, U_ZERO_ERROR.
  destruct (Z.ltb_spec 0 x), (Z.leb_spec x 0); simpl; auto; lia.
Qed.

Lemma UErrorCodeToBool_1 (x : UErrorCode) :
  UErrorCodeToBool x = 1 <-> x <= U_ZERO_ERROR.
Proof.
  unfold UErrorCodeToBool, U_SUCCESS, U_ZERO_ERROR.
  destruct (Z.leb_spec x 0); split; intros; auto; try lia; discriminate.
Qed.

Lemma UErrorCodeToBool_0 (x : UErrorCode) :
  UErrorCodeToBool x = 0 <-> x > U_ZERO_ERROR.
Proof.
  unfold UErrorCodeToBool, U_SUCCESS, U_ZERO_ERROR.
  destruct (Z.leb_spec x 0); split; intros; auto; try lia; discriminate.
Qed.

Lemma U_FAILURE_gt (x : UErrorCode) : U_FAILURE x = true <-> x > U_ZERO_ERROR.
Proof.
  unfold U_FAILURE, U_ZERO_ERROR. destruct (Z.ltb_spec 0 x); split; intros; auto; try lia; discriminate.
Qed.

(** ** The frame property of the monad *)

Lemma framed_ret {A : Type} (a : A) : framed (ret a).
Proof. intros b h. unfold ret. simpl. now rewrite app_nil_r. Qed.

Lemma framed_bind {A B : Type} (m : M A) (k : A -> M B) :
  framed m -> (forall a, framed (k a)) -> framed (bind m k).
Proof.
  intros Hm Hk b h. unfold bind.
  rewrite (Hm b h).
  destruct (m (mkWorld b [])) as [a [b1 l1]]. simpl.
  rewrite (Hk a b1 (h ++ l1)), (Hk a b1 l1). simpl.
  now rewrite app_assoc.
Qed.

Lemma framed_record (c : Call) : framed (record c).
Proof. intros b h. reflexivity. Qed.

Lemma framed_poke (p : Z) (data : list UChar) : framed (poke p data).
Proof. intros b h. unfold poke. simpl. now rewrite app_nil_r. Qed.

Lemma framed_peek (p : Z) : framed (peek p).
Proof. intros b h. unfold peek. simpl. now rewrite app_nil_r. Qed.

Create HintDb framed.
#[local] Hint Resolve framed_ret framed_record framed_poke framed_peek : framed.

Ltac framed_step :=
  match goal with
  | |- framed (bind _ _) => apply framed_bind; [ | intros ? ]
  | |- framed (if ?c then _ else _) => destruct c
  | |- framed (match ?x with _ => _ end) => destruct x
  | |- framed _ => solve [ auto with framed ]
  end.

Ltac framed_tac := repeat framed_step.

Lemma framed_GetLocale n c k e : framed (GetLocale pal n c k e).
Proof. unfold GetLocale. framed_tac. Qed.

Lemma framed_GetLocaleInfoDecimalFormatSymbol locale symbol value valueLength :
  framed (GetLocaleInfoDecimalFormatSymbol icu locale symbol value valueLength).
Proof.
  unfold GetLocaleInfoDecimalFormatSymbol, unum_open, unum_getSymbol, unum_close.
  framed_tac.
Qed.
#[local] Hint Resolve framed_GetLocale framed_GetLocaleInfoDecimalFormatSymbol : framed.

Lemma framed_GetDigitSymbol locale previousStatus symbol digit value valueLength :
  framed (GetDigitSymbol icu locale previousStatus symbol digit value valueLength).
Proof. unfold GetDigitSymbol. framed_tac. Qed.
#[local] Hint Resolve framed_GetDigitSymbol : framed.

Lemma framed_Digits_loop fuel : forall locale symbol status value valueLength,
  framed (Digits_loop icu fuel locale symbol status value valueLength).
Proof.
  induction fuel as [|fuel IH]; intros; simpl; framed_tac.
Qed.
#[local] Hint Resolve framed_Digits_loop : framed.

Lemma framed_GetLocaleInfoAmPm locale am value valueLength :
  framed (GetLocaleInfoAmPm icu locale am value valueLength).
Proof.
  unfold GetLocaleInfoAmPm, udat_open, udat_getSymbols, udat_close. framed_tac.
Qed.

Lemma framed_u_charsToUChars_safe str value valueLength :
  framed (u_charsToUChars_safe pal str value valueLength).
Proof. unfold u_charsToUChars_safe. framed_tac. Qed.
#[local] Hint Resolve framed_GetLocaleInfoAmPm framed_u_charsToUChars_safe : framed.

Lemma framed_GetLocaleIso639LanguageTwoLetterName locale value valueLength :
  framed (GetLocaleIso639LanguageTwoLetterName icu pal locale value valueLength).
Proof.
  unfold GetLocaleIso639LanguageTwoLetterName, uloc_getLanguage, calloc, free.
  framed_tac.
Qed.

Lemma framed_GetLocaleIso639LanguageThreeLetterName locale value valueLength :
  framed (GetLocaleIso639LanguageThreeLetterName icu pal locale value valueLength).
Proof.
  unfold GetLocaleIso639LanguageThreeLetterName, uloc_getISO3Language. framed_tac.
Qed.

Lemma framed_GetLocaleIso3166CountryName locale value valueLength :
  framed (GetLocaleIso3166CountryName icu pal locale value valueLength).
Proof.
  unfold GetLocaleIso3166CountryName, uloc_getCountry, calloc, free. framed_tac.
Qed.

Lemma framed_GetLocaleIso3166CountryCode locale value valueLength :
  framed (GetLocaleIso3166CountryCode icu pal locale value valueLength).
Proof.
  unfold GetLocaleIso3166CountryCode, uloc_getISO3Country. framed_tac.
Qed.

Lemma framed_GetLocaleCurrencyName locale nativeName value valueLength :
  framed (GetLocaleCurrencyName icu locale nativeName value valueLength).
Proof.
  unfold GetLocaleCurrencyName, ucurr_forLocale, ucurr_getName, u_strncpy_to.
  framed_tac.
Qed.
#[local] Hint Resolve framed_GetLocaleIso639LanguageTwoLetterName
  framed_GetLocaleIso639LanguageThreeLetterName framed_GetLocaleIso3166CountryName
  framed_GetLocaleIso3166CountryCode framed_GetLocaleCurrencyName : framed.

Lemma framed_GetLocaleInfoString_switch locale f status value valueLength :
  framed (GetLocaleInfoString_switch icu pal locale f status value valueLength).
Proof.
  destruct f; unfold GetLocaleInfoString_switch; try solve [ auto with framed ];
    unfold DetectDefaultLocaleName, uloc_getDisplayName, uloc_getDisplayLanguage,
      uloc_getDisplayCountry, uloc_getParent, FixupLocaleName; framed_tac.
Qed.
#[local] Hint Resolve framed_GetLocaleInfoString_switch : framed.

Lemma framed_GetLocaleInfoString localeName f value valueLength :
  framed (GlobalizationNative_GetLocaleInfoString icu pal localeName f value valueLength).
Proof. unfold GlobalizationNative_GetLocaleInfoString. framed_tac. Qed.

Lemma framed_GetLocaleTimeFormat localeName shortFormat value valueLength :
  framed (GlobalizationNative_GetLocaleTimeFormat icu pal localeName shortFormat value valueLength).
Proof.
  unfold GlobalizationNative_GetLocaleTimeFormat, udat_open, udat_toPattern, udat_close.
  framed_tac.
Qed.

Lemma framed_calls {A : Type} (m : M A) :
  framed m -> forall w, exists l, calls (snd (m w)) = calls w ++ l.
Proof.
  intros Hm [b h]. rewrite (Hm b h). simpl. eauto.
Qed.

(** ** The two PAL functions, unfolded at their first statement *)

Lemma GetLocaleInfoString_unfold localeName f value valueLength w :
  GlobalizationNative_GetLocaleInfoString icu pal localeName f value valueLength w =
  let r := pal_GetLocale pal localeName ULOC_FULLNAME_CAPACITY false U_ZERO_ERROR in
  let w1 := mkWorld (out w) (calls w ++ [Call_GetLocale localeName]) in
  if U_FAILURE (snd r) then (0, w1)
  else
    let s := GetLocaleInfoString_switch icu pal (fst r) f (snd r) value valueLength w1 in
    (UErrorCodeToBool (fst s), snd s).
Proof.
  unfold GlobalizationNative_GetLocaleInfoString, GetLocale, bind, record, ret. simpl.
  destruct (pal_GetLocale pal localeName ULOC_FULLNAME_CAPACITY false U_ZERO_ERROR)
    as [locale status]. simpl.
  destruct (U_FAILURE status); [ reflexivity | ].
  destruct (GetLocaleInfoString_switch icu pal locale f status value valueLength _).
  reflexivity.
Qed.

Lemma GetLocaleInfoString_final_status_unfold localeName f value valueLength w :
  GetLocaleInfoString_final_status icu pal localeName f value valueLength w =
  let r := pal_GetLocale pal localeName ULOC_FULLNAME_CAPACITY false U_ZERO_ERROR in
  let w1 := mkWorld (out w) (calls w ++ [Call_GetLocale localeName]) in
  if U_FAILURE (snd r) then snd r
  else fst (GetLocaleInfoString_switch icu pal (fst r) f (snd r) value valueLength w1).
Proof.
  unfold GetLocaleInfoString_final_status, GetLocale, bind, record, ret. simpl.
  destruct (pal_GetLocale pal localeName ULOC_FULLNAME_CAPACITY false U_ZERO_ERROR)
    as [locale status]. reflexivity.
Qed.

Lemma GetLocaleTimeFormat_unfold localeName shortFormat value valueLength w :
  GlobalizationNative_GetLocaleTimeFormat icu pal localeName shortFormat value valueLength w =
  let r := pal_GetLocale pal localeName ULOC_FULLNAME_CAPACITY false U_ZERO_ERROR in
  let w1 := mkWorld (out w) (calls w ++ [Call_GetLocale localeName]) in
  if U_FAILURE (snd r) then (0, w1)
  else
    let style := if negb (shortFormat =? 0) then UDAT_SHORT else UDAT_MEDIUM in
    let o := icu_udat_open icu style UDAT_NONE (fst r) (snd r) in
    let w2 := mkWorld (out w)
                (calls w1 ++ [Call_udat_open style UDAT_NONE (fst r) (fst o)]) in
    if U_FAILURE (snd o) then (UErrorCodeToBool (snd o), w2)
    else
      let t := icu_udat_toPattern icu (fst o) false valueLength (snd o) in
      (UErrorCodeToBool (snd t),
       mkWorld (store_at value (fst t) (out w))
         (calls w2 ++ [Call_udat_toPattern (fst o) false value valueLength;
                       Call_udat_close (fst o)])).
Proof.
  unfold GlobalizationNative_GetLocaleTimeFormat, GetLocale, udat_open, udat_toPattern,
    udat_close, bind, record, poke, ret. simpl.
  destruct (pal_GetLocale pal localeName ULOC_FULLNAME_CAPACITY false U_ZERO_ERROR)
    as [locale status]. simpl.
  destruct (U_FAILURE status); [ reflexivity | ].
  destruct (icu_udat_open icu _ UDAT_NONE locale status) as [pFormat err]. simpl.
  destruct (U_FAILURE err); [ reflexivity | ].
  simpl. rewrite <- !app_assoc. reflexivity.
Qed.

Lemma GetLocaleTimeFormat_final_status_unfold localeName shortFormat value valueLength w :
  GetLocaleTimeFormat_final_status icu pal localeName shortFormat value valueLength w =
  let r := pal_GetLocale pal localeName ULOC_FULLNAME_CAPACITY false U_ZERO_ERROR in
  if U_FAILURE (snd r) then snd r
  else
    let style := if negb (shortFormat =? 0) then UDAT_SHORT else UDAT_MEDIUM in
    let o := icu_udat_open icu style UDAT_NONE (fst r) (snd r) in
    if U_FAILURE (snd o) then snd o
    else snd (icu_udat_toPattern icu (fst o) false valueLength (snd o)).
Proof.
  unfold GetLocaleTimeFormat_final_status, GetLocale, udat_open, udat_toPattern,
    bind, record, poke, ret. simpl.
  destruct (pal_GetLocale pal localeName ULOC_FULLNAME_CAPACITY false U_ZERO_ERROR)
    as [locale status]. simpl.
  destruct (U_FAILURE status); [ reflexivity | ].
  destruct (icu_udat_open icu _ UDAT_NONE locale status) as [pFormat err]. simpl.
  reflexivity.
Qed.

(** ** C2: a locale name that does not canonicalize *)

(** C2. Every call of [GlobalizationNative_GetLocaleInfoString] and of
    [GlobalizationNative_GetLocaleTimeFormat] begins with the call of
    [GetLocale] on the given name; and when [GetLocale] leaves a failure
    status the function returns 0 having made no other call and having
    left the output buffer as it was. *)
Theorem GetLocale_failure_returns_at_once :
  forall localeName f shortFormat value valueLength w,
    (exists rest rest',
        calls (snd (GlobalizationNative_GetLocaleInfoString icu pal localeName f
                      value valueLength w))
        = calls w ++ Call_GetLocale localeName :: rest /\
        calls (snd (GlobalizationNative_GetLocaleTimeFormat icu pal localeName
                      shortFormat value valueLength w))
        = calls w ++ Call_GetLocale localeName :: rest') /\
    (U_FAILURE (snd (pal_GetLocale pal localeName ULOC_FULLNAME_CAPACITY false
                       U_ZERO_ERROR)) = true ->
     GlobalizationNative_GetLocaleInfoString icu pal localeName f value valueLength w
     = (0, mkWorld (out w) (calls w ++ [Call_GetLocale localeName])) /\
     GlobalizationNative_GetLocaleTimeFormat icu pal localeName shortFormat
       value valueLength w
     = (0, mkWorld (out w) (calls w ++ [Call_GetLocale localeName]))).
Proof.
  intros localeName f shortFormat value valueLength w.
  rewrite GetLocaleInfoString_unfold, GetLocaleTimeFormat_unfold. cbv zeta.
  split.
  - destruct (U_FAILURE (snd (pal_GetLocale pal localeName ULOC_FULLNAME_CAPACITY
                                false U_ZERO_ERROR))).
    + exists [], []. split; reflexivity.
    + destruct (framed_calls _
                  (framed_GetLocaleInfoString_switch
                     (fst (pal_GetLocale pal localeName ULOC_FULLNAME_CAPACITY false
                             U_ZERO_ERROR)) f
                     (snd (pal_GetLocale pal localeName ULOC_FULLNAME_CAPACITY false
                             U_ZERO_ERROR)) value valueLength)
                  (mkWorld (out w) (calls w ++ [Call_GetLocale localeName])))
        as [l Hl].
      exists l. simpl snd. rewrite Hl. simpl calls.
      destruct (U_FAILURE (snd (icu_udat_open icu _ _ _ _))); simpl;
        eexists; rewrite <- !app_assoc; simpl; split; reflexivity.
  - intros Hfail. rewrite Hfail. split; reflexivity.
Qed.

(** ** C5: a field identifier that is not an enumerator *)

(** C5. When the locale name canonicalizes, a field identifier that is not
    one of the enumerators of [LocaleStringData] makes the status
    [U_UNSUPPORTED_ERROR]; the function returns 0, makes no call after
    [GetLocale], and leaves the output buffer as it was. *)
Theorem unlisted_field_is_unsupported :
  forall localeName n value valueLength w,
    U_FAILURE (snd (pal_GetLocale pal localeName ULOC_FULLNAME_CAPACITY false
                      U_ZERO_ERROR)) = false ->
    GetLocaleInfoString_final_status icu pal localeName (UnlistedLocaleStringData n)
      value valueLength w = U_UNSUPPORTED_ERROR /\
    GlobalizationNative_GetLocaleInfoString icu pal localeName
      (UnlistedLocaleStringData n) value valueLength w
    = (0, mkWorld (out w) (calls w ++ [Call_GetLocale localeName])).
Proof.
  intros localeName n value valueLength w Hok.
  rewrite GetLocaleInfoString_unfold, GetLocaleInfoString_final_status_unfold.
  cbv zeta. rewrite Hok. split; reflexivity.
Qed.

(** ** C9: the list separator is the grouping separator *)

(** C9. For every locale name and output buffer, the call with the
    [ListSeparator] field returns the same value and leaves the same
    buffer (and makes the same calls) as the call with the
    [ThousandSeparator] field: the case of either field is the query of
    [UNUM_GROUPING_SEPARATOR_SYMBOL]. *)
Theorem ListSeparator_is_ThousandSeparator :
  forall localeName value valueLength w,
    GlobalizationNative_GetLocaleInfoString icu pal localeName ListSeparator
      value valueLength w
    = GlobalizationNative_GetLocaleInfoString icu pal localeName ThousandSeparator
        value valueLength w /\
    (forall locale status w',
        GetLocaleInfoString_switch icu pal locale ListSeparator status value valueLength w'
        = GetLocaleInfoDecimalFormatSymbol icu locale UNUM_GROUPING_SEPARATOR_SYMBOL
            value valueLength w' /\
        GetLocaleInfoString_switch icu pal locale ThousandSeparator status value
          valueLength w'
        = GetLocaleInfoDecimalFormatSymbol icu locale UNUM_GROUPING_SEPARATOR_SYMBOL
            value valueLength w').
Proof.
  intros localeName value valueLength w. split.
  - rewrite !GetLocaleInfoString_unfold. reflexivity.
  - intros locale status w'. split; reflexivity.
Qed.

(** ** C4: a formatter that was opened is closed *)

(** C4. Each of the three functions that open a formatter
    ([GetLocaleInfoDecimalFormatSymbol] with [unum_open], [GetLocaleInfoAmPm]
    and [GlobalizationNative_GetLocaleTimeFormat] with [udat_open]) makes,
    whenever the open leaves a success status, exactly three calls on the
    formatter: the open, one extraction, and the close of the handle the
    open returned, in this order, whatever status the extraction leaves. *)
Theorem opened_formatter_is_closed :
  (forall locale symbol value valueLength w,
      let o := icu_unum_open icu UNUM_DECIMAL locale U_ZERO_ERROR in
      U_FAILURE (snd o) = false ->
      calls (snd (GetLocaleInfoDecimalFormatSymbol icu locale symbol value valueLength w))
      = calls w ++ [Call_unum_open UNUM_DECIMAL locale (fst o);
                    Call_unum_getSymbol (fst o) symbol value valueLength;
                    Call_unum_close (fst o)]) /\
  (forall locale am value valueLength w,
      let o := icu_udat_open icu UDAT_DEFAULT UDAT_DEFAULT locale U_ZERO_ERROR in
      U_FAILURE (snd o) = false ->
      calls (snd (GetLocaleInfoAmPm icu locale am value valueLength w))
      = calls w ++ [Call_udat_open UDAT_DEFAULT UDAT_DEFAULT locale (fst o);
                    Call_udat_getSymbols (fst o) UDAT_AM_PMS (if am then 0 else 1)
                      value valueLength;
                    Call_udat_close (fst o)]) /\
  (forall localeName shortFormat value valueLength w,
      let r := pal_GetLocale pal localeName ULOC_FULLNAME_CAPACITY false U_ZERO_ERROR in
      let style := if negb (shortFormat =? 0) then UDAT_SHORT else UDAT_MEDIUM in
      let o := icu_udat_open icu style UDAT_NONE (fst r) (snd r) in
      U_FAILURE (snd r) = false ->
      U_FAILURE (snd o) = false ->
      calls (snd (GlobalizationNative_GetLocaleTimeFormat icu pal localeName shortFormat
                    value valueLength w))
      = calls w ++ [Call_GetLocale localeName;
                    Call_udat_open style UDAT_NONE (fst r) (fst o);
                    Call_udat_toPattern (fst o) false value valueLength;
                    Call_udat_close (fst o)]).
Proof.
  split; [ | split ].
  - intros locale symbol value valueLength w o Hopen.
    unfold GetLocaleInfoDecimalFormatSymbol, unum_open, unum_getSymbol, unum_close,
      bind, record, poke, ret. simpl.
    fold o. destruct o as [pFormat status]. simpl in *. rewrite Hopen. simpl.
    rewrite <- !app_assoc. reflexivity.
  - intros locale am value valueLength w o Hopen.
    unfold GetLocaleInfoAmPm, udat_open, udat_getSymbols, udat_close,
      bind, record, poke, ret. simpl.
    fold o. destruct o as [pFormat status]. simpl in *. rewrite Hopen. simpl.
    rewrite <- !app_assoc. reflexivity.
  - intros localeName shortFormat value valueLength w r style o Hloc Hopen.
    rewrite GetLocaleTimeFormat_unfold. cbv zeta.
    fold r. rewrite Hloc. fold style. fold o. rewrite Hopen. simpl.
    rewrite <- !app_assoc. reflexivity.
Qed.

(** ** Stores into a buffer *)

Lemma store_length {A : Type} (buf : list A) :
  forall off data, List.length (store off data buf) = List.length buf.
Proof.
  induction buf as [|b buf IH]; intros off data; simpl; [ reflexivity | ].
  destruct off; [ destruct data | ]; simpl; auto.
Qed.

Lemma store_nothing {A : Type} (buf : list A) : forall off, store off [] buf = buf.
Proof.
  induction buf as [|b buf IH]; intros off; simpl; [ reflexivity | ].
  destruct off; [ reflexivity | ]. now rewrite IH.
Qed.

Lemma store_app {A : Type} (buf : list A) :
  forall off a b,
    store off (a ++ b) buf = store (off + List.length a) b (store off a buf).
Proof.
  induction buf as [|x buf IH]; intros off a b; [ reflexivity | ].
  destruct off as [|off].
  - destruct a as [|d a]; [ reflexivity | ].
    simpl. f_equal. apply (IH O).
  - simpl. f_equal. apply IH.
Qed.

(** A store that fits replaces exactly the cells it covers. *)
Lemma store_in_bounds {A : Type} (buf : list A) :
  forall off data,
    (off + List.length data <= List.length buf)%nat ->
    store off data buf = firstn off buf ++ data ++ skipn (off + List.length data) buf.
Proof.
  induction buf as [|x buf IH]; intros off data H.
  - destruct off, data; simpl in *; try lia; reflexivity.
  - destruct off as [|off].
    + destruct data as [|d data]; [ reflexivity | ].
      simpl. f_equal. rewrite (IH O data) by (simpl in *; lia). reflexivity.
    + simpl. f_equal. apply IH. simpl in H. lia.
Qed.

Lemma u_strncpy_whole (s : list UChar) :
  u_strncpy s (List.length (u_cstring s)) = u_cstring s.
Proof.
  induction s as [|c s IH]; simpl; [ reflexivity | ].
  destruct (c =? 0); simpl; [ reflexivity | ]. now rewrite IH.
Qed.

(** ** C7: the currency name and the room for it *)

Lemma GetLocaleCurrencyName_unfold locale (nativeName : bool) value valueLength w :
  GetLocaleCurrencyName icu locale nativeName value valueLength w =
  let c := icu_ucurr_forLocale icu locale 4 U_ZERO_ERROR in
  let nameLocale := if nativeName then locale else ULOC_US in
  let w1 := mkWorld (out w) (calls w ++ [Call_ucurr_forLocale locale 4]) in
  if negb (U_SUCCESS (snd c)) then (snd c, w1)
  else
    let n := icu_ucurr_getName icu (fst c) nameLocale UCURR_LONG_NAME (snd c) in
    let w2 := mkWorld (out w)
                (calls w1 ++ [Call_ucurr_getName (fst c) nameLocale UCURR_LONG_NAME]) in
    if negb (U_SUCCESS (snd n)) then (snd n, w2)
    else if snd (fst n) >=? valueLength then (U_BUFFER_OVERFLOW_ERROR, w2)
    else
      (snd n,
       mkWorld (store_at (value + snd (fst n)) [0]
                  (store_at value (u_strncpy (fst (fst n)) (Z.to_nat (snd (fst n))))
                     (out w)))
         (calls w2 ++ [Call_u_strncpy value (snd (fst n))])).
Proof.
  unfold GetLocaleCurrencyName, ucurr_forLocale, ucurr_getName, u_strncpy_to,
    bind, record, poke, ret. simpl.
  destruct (icu_ucurr_forLocale icu locale 4 U_ZERO_ERROR) as [cur sc]. simpl.
  destruct (U_SUCCESS sc); simpl; [ | reflexivity ].
  destruct (icu_ucurr_getName icu cur _ UCURR_LONG_NAME sc) as [[nm ln] sn]. simpl.
  destruct (U_SUCCESS sn); simpl; [ | reflexivity ].
  destruct (ln >=? valueLength); reflexivity.
Qed.

Lemma currency_name_stored (name : list UChar) (len value : Z) (b : list UChar) :
  u_strlen name = len -> 0 <= value ->
  store_at (value + len) [0] (store_at value (u_strncpy name (Z.to_nat len)) b)
  = store_at value (u_cstring name ++ [0]) b.
Proof.
  intros Hlen Hvalue.
  assert (Hnat : List.length (u_cstring name) = Z.to_nat len).
  { rewrite <- Hlen. unfold u_strlen. now rewrite Nat2Z.id. }
  assert (Hlen0 : 0 <= len) by (rewrite <- Hlen; unfold u_strlen; lia).
  unfold store_at.
  destruct (Z.ltb_spec value 0); [ lia | ].
  destruct (Z.ltb_spec (value + len) 0); [ lia | ].
  rewrite store_app, <- Hnat, u_strncpy_whole.
  rewrite Hnat, <- Z2Nat.inj_add by lia. reflexivity.
Qed.

(** C7. When the library finds the currency of the locale and its long
    name, of length [len], [GetLocaleCurrencyName] returns
    [U_BUFFER_OVERFLOW_ERROR] (and so the PAL function returns 0) exactly
    when [len >= valueLength]; otherwise it returns the library's (success)
    status and has stored the [len] units of the name followed by a NUL at
    [value]: when the buffer has [valueLength] cells from [value] on, these
    [len + 1] cells are the only ones that change. *)
Theorem GetLocaleCurrencyName_overflow_iff :
  forall locale (nativeName : bool) value valueLength w,
    let c := icu_ucurr_forLocale icu locale 4 U_ZERO_ERROR in
    let n := icu_ucurr_getName icu (fst c) (if nativeName then locale else ULOC_US)
               UCURR_LONG_NAME (snd c) in
    let name := fst (fst n) in
    let len := snd (fst n) in
    let r := GetLocaleCurrencyName icu locale nativeName value valueLength w in
    U_SUCCESS (snd c) = true ->
    U_SUCCESS (snd n) = true ->
    u_strlen name = len ->
    0 <= value ->
    (fst r = U_BUFFER_OVERFLOW_ERROR <-> len >= valueLength) /\
    (UErrorCodeToBool (fst r) = 0 <-> len >= valueLength) /\
    (len < valueLength ->
     fst r = snd n /\
     List.length (u_cstring name) = Z.to_nat len /\
     out (snd r) = store_at value (u_cstring name ++ [0]) (out w) /\
     (value + valueLength <= Z.of_nat (List.length (out w)) ->
      out (snd r)
      = firstn (Z.to_nat value) (out w) ++ u_cstring name
          ++ 0 :: skipn (Z.to_nat (value + len + 1)) (out w))).
Proof.
  intros locale nativeName value valueLength w c n name len r Hc Hn Hlen Hvalue.
  subst r. rewrite GetLocaleCurrencyName_unfold. cbv zeta.
  fold c. rewrite Hc. simpl negb. cbv iota. fold n. rewrite Hn. simpl negb. cbv iota.
  fold len. fold name.
  assert (Hsn : snd n <= 0).
  { unfold U_SUCCESS, U_ZERO_ERROR in Hn. now apply Z.leb_le in Hn. }
  destruct (Z.geb_spec len valueLength) as [Hge | Hlt]; simpl.
  - split; [ | split ].
    + split; intros; [ lia | reflexivity ].
    + split; intros; [ lia | reflexivity ].
    + intros; lia.
  - split; [ | split ].
    + split; intros H; [ | lia ]. unfold U_BUFFER_OVERFLOW_ERROR in H. lia.
    + split; intros H; [ | lia ]. apply UErrorCodeToBool_0 in H.
      unfold U_ZERO_ERROR in H. lia.
    + intros _.
      assert (Hnat : List.length (u_cstring name) = Z.to_nat len).
      { rewrite <- Hlen. unfold u_strlen. now rewrite Nat2Z.id. }
      assert (Hlen0 : 0 <= len) by (rewrite <- Hlen; unfold u_strlen; lia).
      split; [ reflexivity | ]. split; [ exact Hnat | ].
      rewrite currency_name_stored by assumption.
      split; [ reflexivity | ].
      intros Hroom. unfold store_at.
      destruct (Z.ltb_spec value 0); [ lia | ].
      rewrite store_in_bounds by (rewrite length_app; simpl; lia).
      rewrite <- app_assoc, length_app, Hnat. simpl.
      replace (Z.to_nat value + (Z.to_nat len + 1))%nat with (Z.to_nat (value + len + 1))
        by lia.
      reflexivity.
Qed.

(** ** C8: the temporary buffer of the two ISO name functions *)

(** C8 (amended). [GetLocaleIso639LanguageTwoLetterName] and
    [GetLocaleIso3166CountryName] return [U_MEMORY_ALLOCATION_ERROR]
    whenever the allocation of the temporary buffer fails, and then make no
    further call.  When the allocation succeeds they return the status the
    second library call leaves if it is a failure, and the status of
    [u_charsToUChars_safe] otherwise (a memory failure only if that callee
    reports one), and their last call releases the buffer. *)
Theorem temporary_buffer_status_and_release :
  forall locale value valueLength w,
    (let length := int32_add (snd (fst (icu_uloc_getLanguage icu locale 0 U_ZERO_ERROR))) 1 in
     let g := icu_uloc_getLanguage icu locale length U_ZERO_ERROR in
     let str := cstring (store 0 (fst (fst g)) (repeat NUL (Z.to_nat length))) in
     let r := GetLocaleIso639LanguageTwoLetterName icu pal locale value valueLength w in
     (calloc_succeeds pal length = false ->
      r = (U_MEMORY_ALLOCATION_ERROR,
           mkWorld (out w)
             (calls w ++ [Call_uloc_getLanguage locale 0; Call_calloc length false]))) /\
     (calloc_succeeds pal length = true ->
      fst r = (if U_SUCCESS (snd g)
               then snd (pal_u_charsToUChars_safe pal str valueLength)
               else snd g) /\
      calls (snd r)
      = calls w ++ [Call_uloc_getLanguage locale 0; Call_calloc length true;
                    Call_uloc_getLanguage locale length]
          ++ (if U_SUCCESS (snd g)
              then [Call_u_charsToUChars_safe str value valueLength] else [])
          ++ [Call_free])) /\
    (let length := int32_add (snd (fst (icu_uloc_getCountry icu locale 0 U_ZERO_ERROR))) 1 in
     let g := icu_uloc_getCountry icu locale length U_ZERO_ERROR in
     let str := cstring (store 0 (fst (fst g)) (repeat NUL (Z.to_nat length))) in
     let r := GetLocaleIso3166CountryName icu pal locale value valueLength w in
     (calloc_succeeds pal length = false ->
      r = (U_MEMORY_ALLOCATION_ERROR,
           mkWorld (out w)
             (calls w ++ [Call_uloc_getCountry locale 0; Call_calloc length false]))) /\
     (calloc_succeeds pal length = true ->
      fst r = (if U_SUCCESS (snd g)
               then snd (pal_u_charsToUChars_safe pal str valueLength)
               else snd g) /\
      calls (snd r)
      = calls w ++ [Call_uloc_getCountry locale 0; Call_calloc length true;
                    Call_uloc_getCountry locale length]
          ++ (if U_SUCCESS (snd g)
              then [Call_u_charsToUChars_safe str value valueLength] else [])
          ++ [Call_free])).
Proof.
  intros locale value valueLength w. split.
  - cbv zeta.
    unfold GetLocaleIso639LanguageTwoLetterName, uloc_getLanguage, calloc, free,
      u_charsToUChars_safe, bind, record, poke, ret. simpl.
    destruct (icu_uloc_getLanguage icu locale 0 U_ZERO_ERROR) as [[s0 n0] e0]. simpl.
    split; intros Hcalloc; rewrite Hcalloc; simpl.
    + rewrite <- !app_assoc. reflexivity.
    + destruct (icu_uloc_getLanguage icu locale (int32_add n0 1) U_ZERO_ERROR)
        as [[s1 n1] e1]. simpl.
      destruct (U_SUCCESS e1); simpl; rewrite <- !app_assoc; split; reflexivity.
  - cbv zeta.
    unfold GetLocaleIso3166CountryName, uloc_getCountry, calloc, free,
      u_charsToUChars_safe, bind, record, poke, ret. simpl.
    destruct (icu_uloc_getCountry icu locale 0 U_ZERO_ERROR) as [[s0 n0] e0]. simpl.
    split; intros Hcalloc; rewrite Hcalloc; simpl.
    + rewrite <- !app_assoc. reflexivity.
    + destruct (icu_uloc_getCountry icu locale (int32_add n0 1) U_ZERO_ERROR)
        as [[s1 n1] e1]. simpl.
      destruct (U_SUCCESS e1); simpl; rewrite <- !app_assoc; split; reflexivity.
Qed.

(** ** C10: the ten digit symbols *)

Example digit_symbols_listed :
  digit_symbols = [UNUM_ZERO_DIGIT_SYMBOL; UNUM_ONE_DIGIT_SYMBOL; 19; 20; 21; 22; 23; 24; 25;
                   UNUM_NINE_DIGIT_SYMBOL].
Proof. reflexivity. Qed.

Lemma int32_wrap_small (z : Z) : - 2 ^ 31 <= z < 2 ^ 31 -> int32_wrap z = z.
Proof.
  intros Hz. unfold int32_wrap. rewrite Z.mod_small; lia.
Qed.

Lemma U_FAILURE_SUCCESS_false (x : UErrorCode) :
  U_FAILURE x = true -> U_SUCCESS x = false.
Proof. rewrite U_FAILURE_not_SUCCESS. now destruct (U_SUCCESS x). Qed.

Lemma GetDigitSymbol_failure locale previousStatus symbol digit value valueLength w :
  U_FAILURE previousStatus = true ->
  GetDigitSymbol icu locale previousStatus symbol digit value valueLength w
  = (previousStatus, w).
Proof. intros H. unfold GetDigitSymbol. now rewrite H. Qed.

Lemma Digits_in_order_failure locale symbols i status value valueLength w :
  U_FAILURE status = true ->
  Digits_in_order icu locale symbols i status value valueLength w = (status, w).
Proof. intros H. destruct symbols; simpl; [ | rewrite H ]; reflexivity. Qed.

(** The loop from symbol [UNUM_ONE_DIGIT_SYMBOL + k] on, with fuel for the
    iterations that remain, is the in-order query of the remaining symbols;
    in particular more fuel changes nothing: the loop ends by its test. *)
Lemma Digits_loop_in_order locale value valueLength :
  - 2 ^ 31 + 9 <= valueLength < 2 ^ 31 ->
  forall m k fuel status w,
    (k + m = 9)%nat -> (m <= fuel)%nat ->
    Digits_loop icu fuel locale (UNUM_ONE_DIGIT_SYMBOL + Z.of_nat k) status
      value valueLength w
    = Digits_in_order icu locale
        (map (fun j => UNUM_ONE_DIGIT_SYMBOL + Z.of_nat j) (seq k m))
        (Z.of_nat k + 1) status value valueLength w.
Proof.
  intros Hrange. unfold UNUM_ONE_DIGIT_SYMBOL.
  induction m as [|m IH]; intros k fuel status w Hk Hfuel.
  - cbn [seq map Digits_in_order].
    destruct fuel as [|fuel]; cbn [Digits_loop]; [ reflexivity | ].
    unfold UNUM_NINE_DIGIT_SYMBOL.
    destruct (Z.leb_spec (18 + Z.of_nat k) 26); [ lia | reflexivity ].
  - destruct fuel as [|fuel]; [ lia | ].
    cbn [Digits_loop seq map Digits_in_order].
    unfold UNUM_NINE_DIGIT_SYMBOL, UNUM_ONE_DIGIT_SYMBOL.
    destruct (Z.leb_spec (18 + Z.of_nat k) 26); [ | lia ].
    unfold int32_add, int32_sub.
    rewrite (int32_wrap_small (18 + Z.of_nat k - 18)) by lia.
    rewrite (int32_wrap_small (18 + Z.of_nat k - 18 + 1)) by lia.
    rewrite (int32_wrap_small (18 + Z.of_nat k + 1)) by lia.
    replace (18 + Z.of_nat k - 18 + 1) with (Z.of_nat k + 1) by lia.
    replace (18 + Z.of_nat k + 1) with (18 + Z.of_nat (S k)) by lia.
    replace (Z.of_nat k + 1 + 1) with (Z.of_nat (S k) + 1) by lia.
    unfold bind at 1.
    destruct (U_FAILURE status) eqn:Hst.
    + rewrite GetDigitSymbol_failure by assumption.
      rewrite IH by lia. apply Digits_in_order_failure; assumption.
    + unfold GetDigitSymbol. rewrite Hst. unfold int32_sub.
      rewrite (int32_wrap_small (valueLength - (Z.of_nat k + 1))) by lia.
      unfold bind.
      destruct (GetLocaleInfoDecimalFormatSymbol icu locale (18 + Z.of_nat k)
                  (value + (Z.of_nat k + 1)) (valueLength - (Z.of_nat k + 1)) w)
        as [status' w'].
      apply IH; lia.
Qed.

Lemma GetLocaleInfoString_switch_Digits locale status value valueLength w :
  - 2 ^ 31 + 9 <= valueLength < 2 ^ 31 ->
  GetLocaleInfoString_switch icu pal locale Digits status value valueLength w
  = Digits_in_order icu locale digit_symbols 0 status value valueLength w.
Proof.
  intros Hrange.
  unfold GetLocaleInfoString_switch, digit_symbols, Digits_fuel.
  cbn [Digits_in_order]. unfold bind at 1.
  destruct (U_FAILURE status) eqn:Hst.
  - rewrite GetDigitSymbol_failure by assumption.
    etransitivity;
      [ exact (Digits_loop_in_order locale value valueLength Hrange 9 0 10 status w
                 eq_refl ltac:(lia)) | ].
    apply Digits_in_order_failure; assumption.
  - unfold GetDigitSymbol. rewrite Hst. unfold int32_sub.
    rewrite (int32_wrap_small (valueLength - 0)) by lia.
    unfold bind.
    destruct (GetLocaleInfoDecimalFormatSymbol icu locale UNUM_ZERO_DIGIT_SYMBOL
                (value + 0) (valueLength - 0) w) as [status' w'].
    exact (Digits_loop_in_order locale value valueLength Hrange 9 0 10 status' w'
             eq_refl ltac:(lia)).
Qed.

(** C10. A call of [GetDigitSymbol] that is handed a failure status returns
    it and does nothing else: no library call, no store.  And the [Digits]
    case of the switch is the in-order query of the ten digit symbols
    ([Digits_in_order]: digit [i] at offset [i] with [valueLength - i] cells,
    nothing after the first failure), for every [valueLength] from which 9
    can be subtracted in an [int32_t]. *)
Theorem Digits_queried_in_order :
  (forall locale previousStatus symbol digit value valueLength w,
      U_FAILURE previousStatus = true ->
      GetDigitSymbol icu locale previousStatus symbol digit value valueLength w
      = (previousStatus, w)) /\
  (forall locale status value valueLength w,
      - 2 ^ 31 + 9 <= valueLength < 2 ^ 31 ->
      GetLocaleInfoString_switch icu pal locale Digits status value valueLength w
      = Digits_in_order icu locale digit_symbols 0 status value valueLength w).
Proof.
  split.
  - intros. now apply GetDigitSymbol_failure.
  - intros. now apply GetLocaleInfoString_switch_Digits.
Qed.

(** ** C3: the buffer holds the library's answer *)

Lemma uloc_getDisplayName_out locale d value valueLength status w :
  out (snd (uloc_getDisplayName icu locale d value valueLength status w))
  = store_at value (fst (icu_uloc_getDisplayName icu locale d valueLength status)) (out w).
Proof. reflexivity. Qed.

Lemma uloc_getDisplayLanguage_out locale d value valueLength status w :
  out (snd (uloc_getDisplayLanguage icu locale d value valueLength status w))
  = store_at value (fst (icu_uloc_getDisplayLanguage icu locale d valueLength status))
      (out w).
Proof. reflexivity. Qed.

Lemma uloc_getDisplayCountry_out locale d value valueLength status w :
  out (snd (uloc_getDisplayCountry icu locale d value valueLength status w))
  = store_at value (fst (icu_uloc_getDisplayCountry icu locale d valueLength status))
      (out w).
Proof. reflexivity. Qed.

Lemma GetLocaleInfoDecimalFormatSymbol_success locale symbol value valueLength w :
  U_SUCCESS (fst (GetLocaleInfoDecimalFormatSymbol icu locale symbol value valueLength w))
  = true ->
  out (snd (GetLocaleInfoDecimalFormatSymbol icu locale symbol value valueLength w))
  = store_at value (symbol_answer icu locale symbol valueLength) (out w).
Proof.
  unfold GetLocaleInfoDecimalFormatSymbol, symbol_answer, unum_open, unum_getSymbol,
    unum_close, bind, record, poke, ret. simpl.
  destruct (icu_unum_open icu UNUM_DECIMAL locale U_ZERO_ERROR) as [pFormat status].
  simpl. destruct (U_FAILURE status) eqn:Hst; simpl; [ | reflexivity ].
  intros Hs. apply U_FAILURE_SUCCESS_false in Hst. congruence.
Qed.

Lemma GetLocaleInfoAmPm_success locale am value valueLength w :
  U_SUCCESS (fst (GetLocaleInfoAmPm icu locale am value valueLength w)) = true ->
  out (snd (GetLocaleInfoAmPm icu locale am value valueLength w))
  = store_at value (am_pm_answer icu locale (if am then 0 else 1) valueLength) (out w).
Proof.
  unfold GetLocaleInfoAmPm, am_pm_answer, udat_open, udat_getSymbols, udat_close,
    bind, record, poke, ret. simpl.
  destruct (icu_udat_open icu UDAT_DEFAULT UDAT_DEFAULT locale U_ZERO_ERROR)
    as [pFormat status].
  simpl. destruct (U_FAILURE status) eqn:Hst; simpl; [ | reflexivity ].
  intros Hs. apply U_FAILURE_SUCCESS_false in Hst. congruence.
Qed.

Lemma Digits_in_order_success locale value valueLength :
  forall symbols i status w,
    U_SUCCESS (fst (Digits_in_order icu locale symbols i status value valueLength w))
    = true ->
    out (snd (Digits_in_order icu locale symbols i status value valueLength w))
    = digit_stores icu locale symbols i value valueLength (out w).
Proof.
  induction symbols as [|symbol rest IH]; intros i status w Hs; [ reflexivity | ].
  cbn [Digits_in_order digit_stores] in *.
  destruct (U_FAILURE status) eqn:Hst.
  - apply U_FAILURE_SUCCESS_false in Hst. simpl in Hs. congruence.
  - unfold bind in *.
    pose proof (GetLocaleInfoDecimalFormatSymbol_success locale symbol (value + i)
                  (valueLength - i) w) as Hone.
    destruct (GetLocaleInfoDecimalFormatSymbol icu locale symbol (value + i)
                (valueLength - i) w) as [status' w'].
    simpl in Hone.
    destruct (U_FAILURE status') eqn:Hst'.
    + rewrite Digits_in_order_failure in Hs by assumption.
      apply U_FAILURE_SUCCESS_false in Hst'. simpl in Hs. congruence.
    + rewrite IH by assumption. rewrite Hone; [ reflexivity | ].
      rewrite U_FAILURE_not_SUCCESS in Hst'. now destruct (U_SUCCESS status').
Qed.

(** A store over a shorter store at the same place leaves no trace of it. *)
Lemma store_over {A : Type} (buf : list A) :
  forall off a x,
    (List.length a <= List.length x)%nat ->
    store off x (store off a buf) = store off x buf.
Proof.
  induction buf as [|y buf IH]; intros off a x Hlen; [ reflexivity | ].
  destruct off as [|off].
  - destruct a as [|a0 a]; [ reflexivity | ].
    destruct x as [|x0 x]; [ simpl in Hlen; lia | ].
    simpl. f_equal. apply (IH O). simpl in Hlen. lia.
  - simpl. f_equal. apply IH. exact Hlen.
Qed.

(** When every digit symbol is one unit long and is stored with its
    terminator, the stores of the [Digits] case leave the symbols one after
    the other, with one terminator after the last. *)
Lemma digit_stores_one_unit locale value valueLength :
  forall symbols i b,
    symbols <> [] ->
    0 <= value + i ->
    one_unit_digits icu locale symbols i valueLength ->
    digit_stores icu locale symbols i value valueLength b
    = store_at (value + i) (digit_strings icu locale symbols i valueLength ++ [0]) b.
Proof.
  induction symbols as [|symbol rest IH]; intros i b Hne Hpos Hone; [ congruence | ].
  destruct Hone as [[d [Hd Hans]] Hrest].
  cbn [digit_stores digit_strings]. rewrite Hans.
  assert (Hstr : u_cstring [d; 0] = [d]).
  { simpl. destruct (Z.eqb_spec d 0); [ contradiction | reflexivity ]. }
  rewrite Hstr.
  destruct rest as [|symbol' rest'].
  - reflexivity.
  - rewrite IH by (try discriminate; try lia; assumption).
    unfold store_at.
    destruct (Z.ltb_spec (value + i) 0); [ lia | ].
    destruct (Z.ltb_spec (value + (i + 1)) 0); [ lia | ].
    replace (Z.to_nat (value + (i + 1))) with (Z.to_nat (value + i) + 1)%nat by lia.
    set (p := Z.to_nat (value + i)).
    set (X := digit_strings icu locale (symbol' :: rest') (i + 1) valueLength ++ [0]).
    assert (E1 : store p [d; 0] b = store (p + 1) [0] (store p [d] b))
      by exact (store_app b p [d] [0]).
    assert (E2 : store p ([d] ++ X) b = store (p + 1) X (store p [d] b))
      by exact (store_app b p [d] X).
    rewrite <- app_assoc. fold X.
    transitivity (store (p + 1) X (store p [d] b)); [ | symmetry; exact E2 ].
    transitivity (store (p + 1) X (store (p + 1) [0] (store p [d] b))).
    + f_equal. exact E1.
    + apply store_over. subst X. rewrite length_app. simpl. lia.
Qed.

Section Answers.

(** What the two contracts the comparison rests on say:
    [u_charsToUChars_safe], when it succeeds, has stored the string
    widened, with its terminator; and the length [ucurr_getName] hands
    back with a name is the length of that name. *)
Hypothesis chars_widened :
  forall str valueLength,
    U_SUCCESS (snd (pal_u_charsToUChars_safe pal str valueLength)) = true ->
    fst (pal_u_charsToUChars_safe pal str valueLength) = widen str ++ [0].

Hypothesis currency_name_length :
  forall currency locale status,
    U_SUCCESS (snd (icu_ucurr_getName icu currency locale UCURR_LONG_NAME status)) = true ->
    u_strlen (fst (fst (icu_ucurr_getName icu currency locale UCURR_LONG_NAME status)))
    = snd (fst (icu_ucurr_getName icu currency locale UCURR_LONG_NAME status)).

Lemma u_charsToUChars_safe_success str value valueLength w :
  U_SUCCESS (fst (u_charsToUChars_safe pal str value valueLength w)) = true ->
  out (snd (u_charsToUChars_safe pal str value valueLength w))
  = store_at value (widen str ++ [0]) (out w).
Proof.
  unfold u_charsToUChars_safe, bind, record, poke, ret. simpl.
  intros Hs. now rewrite chars_widened.
Qed.

Lemma GetLocaleCurrencyName_success locale (nativeName : bool) value valueLength w :
  0 <= value ->
  U_SUCCESS (fst (GetLocaleCurrencyName icu locale nativeName value valueLength w))
  = true ->
  out (snd (GetLocaleCurrencyName icu locale nativeName value valueLength w))
  = store_at value
      (currency_long_name icu locale (if nativeName then locale else ULOC_US) ++ [0])
      (out w).
Proof.
  intros Hvalue. rewrite GetLocaleCurrencyName_unfold. cbv zeta.
  unfold currency_long_name.
  destruct (U_SUCCESS (snd (icu_ucurr_forLocale icu locale 4 U_ZERO_ERROR))) eqn:Hc;
    simpl negb; cbv iota; [ | simpl; congruence ].
  destruct (U_SUCCESS (snd (icu_ucurr_getName icu _ _ UCURR_LONG_NAME _))) eqn:Hn;
    simpl negb; cbv iota; [ | simpl; congruence ].
  destruct (_ >=? valueLength); simpl; [ discriminate | ].
  intros _. apply currency_name_stored; [ | assumption ].
  now apply currency_name_length.
Qed.

Lemma GetLocaleIso639LanguageTwoLetterName_success locale value valueLength w :
  U_SUCCESS (fst (GetLocaleIso639LanguageTwoLetterName icu pal locale value valueLength w))
  = true ->
  out (snd (GetLocaleIso639LanguageTwoLetterName icu pal locale value valueLength w))
  = store_at value (widen (language_code icu locale) ++ [0]) (out w).
Proof.
  unfold GetLocaleIso639LanguageTwoLetterName, language_code, uloc_getLanguage, calloc,
    free, u_charsToUChars_safe, bind, record, poke, ret. simpl.
  destruct (icu_uloc_getLanguage icu locale 0 U_ZERO_ERROR) as [[s0 n0] e0]. simpl.
  destruct (calloc_succeeds pal (int32_add n0 1)); simpl; [ | discriminate ].
  destruct (icu_uloc_getLanguage icu locale (int32_add n0 1) U_ZERO_ERROR)
    as [[s1 n1] e1]. simpl.
  destruct (U_SUCCESS e1) eqn:He1; simpl; [ | congruence ].
  intros Hs. now rewrite chars_widened.
Qed.

Lemma GetLocaleIso3166CountryName_success locale value valueLength w :
  U_SUCCESS (fst (GetLocaleIso3166CountryName icu pal locale value valueLength w))
  = true ->
  out (snd (GetLocaleIso3166CountryName icu pal locale value valueLength w))
  = store_at value (widen (country_code icu locale) ++ [0]) (out w).
Proof.
  unfold GetLocaleIso3166CountryName, country_code, uloc_getCountry, calloc,
    free, u_charsToUChars_safe, bind, record, poke, ret. simpl.
  destruct (icu_uloc_getCountry icu locale 0 U_ZERO_ERROR) as [[s0 n0] e0]. simpl.
  destruct (calloc_succeeds pal (int32_add n0 1)); simpl; [ | discriminate ].
  destruct (icu_uloc_getCountry icu locale (int32_add n0 1) U_ZERO_ERROR)
    as [[s1 n1] e1]. simpl.
  destruct (U_SUCCESS e1) eqn:He1; simpl; [ | congruence ].
  intros Hs. now rewrite chars_widened.
Qed.

Lemma GetLocaleIso639LanguageThreeLetterName_success locale value valueLength w :
  U_SUCCESS (fst (GetLocaleIso639LanguageThreeLetterName icu pal locale value
                    valueLength w)) = true ->
  out (snd (GetLocaleIso639LanguageThreeLetterName icu pal locale value valueLength w))
  = store_at value (widen (icu_uloc_getISO3Language icu locale) ++ [0]) (out w).
Proof.
  unfold GetLocaleIso639LanguageThreeLetterName, uloc_getISO3Language,
    u_charsToUChars_safe, bind, record, poke, ret. simpl.
  destruct (icu_uloc_getISO3Language icu locale) as [|c rest]; simpl;
    [ discriminate | ].
  intros Hs. now rewrite chars_widened.
Qed.

Lemma GetLocaleIso3166CountryCode_success locale value valueLength w :
  U_SUCCESS (fst (GetLocaleIso3166CountryCode icu pal locale value valueLength w))
  = true ->
  out (snd (GetLocaleIso3166CountryCode icu pal locale value valueLength w))
  = store_at value (widen (icu_uloc_getISO3Country icu locale) ++ [0]) (out w).
Proof.
  unfold GetLocaleIso3166CountryCode, uloc_getISO3Country,
    u_charsToUChars_safe, bind, record, poke, ret. simpl.
  destruct (int32_wrap _ =? 0); simpl; [ discriminate | ].
  intros Hs. now rewrite chars_widened.
Qed.

Lemma ParentName_success locale status value valueLength w :
  U_SUCCESS (fst (GetLocaleInfoString_switch icu pal locale ParentName status value
                    valueLength w)) = true ->
  out (snd (GetLocaleInfoString_switch icu pal locale ParentName status value
              valueLength w))
  = returned_answer icu pal locale ParentLocale status value valueLength (out w).
Proof.
  unfold GetLocaleInfoString_switch, returned_answer, library_answer, parent_locale,
    uloc_getParent, FixupLocaleName, u_charsToUChars_safe, bind, record, poke, peek, ret.
  simpl.
  destruct (icu_uloc_getParent icu locale ULOC_FULLNAME_CAPACITY status) as [tmp e].
  simpl. destruct (U_SUCCESS e) eqn:He; simpl; [ | congruence ].
  destruct (U_SUCCESS (snd (pal_u_charsToUChars_safe pal (cstring tmp) valueLength)))
    eqn:Hconv; simpl; [ | congruence ].
  intros _. now rewrite chars_widened.
Qed.

(** C3 (amended). Under the two contracts above, for a buffer pointer
    inside the buffer and a [valueLength] from which 9 can be subtracted
    in an [int32_t]: whenever a call for a supported field returns 1, the
    output buffer is the buffer it was given with the library's answer to
    the field's query stored at [value]; except that for [ParentName] the
    library's parent name is there as [FixupLocaleName] has rewritten
    it.  For [Digits] the answer is the ten digit symbols the library
    returns, one after the other, and this is stated only for a library whose
    digit symbols are one unit long, each stored with its terminator. *)
Theorem buffer_holds_library_answer :
  forall localeName f q value valueLength w,
    let g := pal_GetLocale pal localeName ULOC_FULLNAME_CAPACITY false U_ZERO_ERROR in
    let r := GlobalizationNative_GetLocaleInfoString icu pal localeName f
               value valueLength w in
    0 <= value ->
    - 2 ^ 31 + 9 <= valueLength < 2 ^ 31 ->
    query_of_field pal (fst g) f = Some q ->
    (q = DigitSymbols -> one_unit_digits icu (fst g) digit_symbols 0 valueLength) ->
    fst r = 1 ->
    out (snd r) = returned_answer icu pal (fst g) q (snd g) value valueLength (out w).
Proof.
  intros localeName f q value valueLength w g r Hvalue Hrange Hq Hdigits Hr.
  subst r. rewrite GetLocaleInfoString_unfold in *. cbv zeta in *. fold g in Hr |- *.
  destruct (U_FAILURE (snd g)); [ discriminate Hr | ].
  simpl fst in Hr. simpl snd.
  assert (Hs : U_SUCCESS
                 (fst (GetLocaleInfoString_switch icu pal (fst g) f (snd g) value
                         valueLength
                         (mkWorld (out w) (calls w ++ [Call_GetLocale localeName]))))
               = true).
  { unfold UErrorCodeToBool in Hr. now destruct (U_SUCCESS _). }
  clear Hr.
  destruct f; simpl in Hq; inversion Hq; subst q; clear Hq;
    try exact (ParentName_success _ _ _ _ _ Hs);
    unfold returned_answer, library_answer;
    try reflexivity;
    try (cbn [GetLocaleInfoString_switch] in Hs |- *;
         first
           [ exact (GetLocaleInfoDecimalFormatSymbol_success _ _ _ _ _ Hs)
           | exact (GetLocaleInfoAmPm_success _ _ _ _ _ Hs)
           | exact (GetLocaleCurrencyName_success _ _ _ _ _ Hvalue Hs)
           | exact (GetLocaleIso639LanguageTwoLetterName_success _ _ _ _ Hs)
           | exact (GetLocaleIso639LanguageThreeLetterName_success _ _ _ _ Hs)
           | exact (GetLocaleIso3166CountryName_success _ _ _ _ Hs)
           | exact (GetLocaleIso3166CountryCode_success _ _ _ _ Hs) ]).
  rewrite GetLocaleInfoString_switch_Digits in * by assumption.
  etransitivity; [ exact (Digits_in_order_success _ _ _ _ _ _ _ Hs) | ].
  simpl out.
  rewrite digit_stores_one_unit by (try discriminate; try lia; auto).
  now rewrite Z.add_0_r.
Qed.

End Answers.

(** * Further properties of the file *)

Lemma U_SUCCESS_FAILURE_false (x : UErrorCode) :
  U_SUCCESS x = true -> U_FAILURE x = false.
Proof. intros H. rewrite U_FAILURE_not_SUCCESS, H. reflexivity. Qed.

Lemma U_FAILURE_false_SUCCESS (x : UErrorCode) :
  U_FAILURE x = false -> U_SUCCESS x = true.
Proof. rewrite U_FAILURE_not_SUCCESS. now destruct (U_SUCCESS x). Qed.

Lemma calls_since_app (w : World) (b : list UChar) (l : list Call) :
  calls_since w (mkWorld b (calls w ++ l)) = l.
Proof.
  unfold calls_since. simpl. rewrite skipn_app, skipn_all, Nat.sub_diag. reflexivity.
Qed.

(** ** X1: an open that fails *)

(** X1. When the open of the formatter leaves a failure status,
    [GetLocaleInfoDecimalFormatSymbol] and [GetLocaleInfoAmPm] return that
    status and [GlobalizationNative_GetLocaleTimeFormat] returns 0; the open
    is the last call (no extraction, no close of the handle that was not
    obtained) and the output buffer is as it was. *)
Theorem failed_open_is_the_last_call :
  (forall locale symbol value valueLength w,
      let o := icu_unum_open icu UNUM_DECIMAL locale U_ZERO_ERROR in
      U_FAILURE (snd o) = true ->
      GetLocaleInfoDecimalFormatSymbol icu locale symbol value valueLength w
      = (snd o, mkWorld (out w) (calls w ++ [Call_unum_open UNUM_DECIMAL locale (fst o)]))) /\
  (forall locale (am : bool) value valueLength w,
      let o := icu_udat_open icu UDAT_DEFAULT UDAT_DEFAULT locale U_ZERO_ERROR in
      U_FAILURE (snd o) = true ->
      GetLocaleInfoAmPm icu locale am value valueLength w
      = (snd o,
         mkWorld (out w)
           (calls w ++ [Call_udat_open UDAT_DEFAULT UDAT_DEFAULT locale (fst o)]))) /\
  (forall localeName shortFormat value valueLength w,
      let g := pal_GetLocale pal localeName ULOC_FULLNAME_CAPACITY false U_ZERO_ERROR in
      let style := if negb (shortFormat =? 0) then UDAT_SHORT else UDAT_MEDIUM in
      let o := icu_udat_open icu style UDAT_NONE (fst g) (snd g) in
      U_FAILURE (snd g) = false ->
      U_FAILURE (snd o) = true ->
      GlobalizationNative_GetLocaleTimeFormat icu pal localeName shortFormat value
        valueLength w
      = (0, mkWorld (out w)
              (calls w ++ [Call_GetLocale localeName;
                           Call_udat_open style UDAT_NONE (fst g) (fst o)]))).
Proof.
  split; [ | split ].
  - intros locale symbol value valueLength w o Hopen.
    unfold GetLocaleInfoDecimalFormatSymbol, unum_open, bind, record, ret. simpl.
    fold o. destruct o as [pFormat status]. simpl in *. now rewrite Hopen.
  - intros locale am value valueLength w o Hopen.
    unfold GetLocaleInfoAmPm, udat_open, bind, record, ret. simpl.
    fold o. destruct o as [pFormat status]. simpl in *. now rewrite Hopen.
  - intros localeName shortFormat value valueLength w g style o Hloc Hopen.
    rewrite GetLocaleTimeFormat_unfold. cbv zeta.
    fold g. rewrite Hloc. fold style. fold o. rewrite Hopen.
    apply U_FAILURE_gt in Hopen. apply UErrorCodeToBool_0 in Hopen. rewrite Hopen.
    simpl. rewrite <- app_assoc. reflexivity.
Qed.

(** ** X2: an empty ISO-3 code *)

Lemma int32_wrap_nonzero (z : Z) : 0 < z < 2 ^ 32 -> int32_wrap z <> 0.
Proof.
  intros Hz. unfold int32_wrap.
  destruct (Z.lt_ge_cases z (2 ^ 31)) as [Hlow | Hhigh].
  - rewrite Z.mod_small by lia. lia.
  - replace (z + 2 ^ 31) with (z - 2 ^ 31 + 1 * 2 ^ 32) by lia.
    rewrite Z.mod_add by lia. rewrite Z.mod_small by lia. lia.
Qed.

(** X2. [GetLocaleIso639LanguageThreeLetterName] and
    [GetLocaleIso3166CountryCode] reject an empty code: when the library
    returns the empty string for the locale they return
    [U_ILLEGAL_ARGUMENT_ERROR] without calling [u_charsToUChars_safe] and
    without touching the buffer.  A code that is not empty (and, for the
    country code, whose length fits 32 bits) is handed to
    [u_charsToUChars_safe], whose store and status are the result. *)
Theorem empty_iso3_code_is_rejected :
  forall locale value valueLength w,
    (let s := icu_uloc_getISO3Language icu locale in
     let conv := pal_u_charsToUChars_safe pal s valueLength in
     let r := GetLocaleIso639LanguageThreeLetterName icu pal locale value valueLength w in
     (s = EmptyString ->
      r = (U_ILLEGAL_ARGUMENT_ERROR,
           mkWorld (out w) (calls w ++ [Call_uloc_getISO3Language locale]))) /\
     (s <> EmptyString ->
      r = (snd conv,
           mkWorld (store_at value (fst conv) (out w))
             (calls w ++ [Call_uloc_getISO3Language locale;
                          Call_u_charsToUChars_safe s value valueLength])))) /\
    (let s := icu_uloc_getISO3Country icu locale in
     let conv := pal_u_charsToUChars_safe pal s valueLength in
     let r := GetLocaleIso3166CountryCode icu pal locale value valueLength w in
     (s = EmptyString ->
      r = (U_ILLEGAL_ARGUMENT_ERROR,
           mkWorld (out w) (calls w ++ [Call_uloc_getISO3Country locale]))) /\
     (s <> EmptyString ->
      Z.of_nat (String.length s) < 2 ^ 32 ->
      r = (snd conv,
           mkWorld (store_at value (fst conv) (out w))
             (calls w ++ [Call_uloc_getISO3Country locale;
                          Call_u_charsToUChars_safe s value valueLength])))).
Proof.
  intros locale value valueLength w. split; cbv zeta.
  - unfold GetLocaleIso639LanguageThreeLetterName, uloc_getISO3Language,
      u_charsToUChars_safe, bind, record, poke, ret. simpl.
    destruct (icu_uloc_getISO3Language icu locale) as [|c rest]; split; intros H;
      try congruence; try reflexivity.
    simpl. rewrite <- app_assoc. reflexivity.
  - unfold GetLocaleIso3166CountryCode, uloc_getISO3Country,
      u_charsToUChars_safe, bind, record, poke, ret. simpl.
    split.
    + intros H. rewrite H. reflexivity.
    + intros Hne Hlen.
      destruct (Z.eqb_spec (int32_wrap (Z.of_nat
                  (String.length (icu_uloc_getISO3Country icu locale)))) 0) as [H0 | _].
      * exfalso. revert H0. apply int32_wrap_nonzero.
        destruct (icu_uloc_getISO3Country icu locale); [ congruence | ].
        simpl String.length in *. lia.
      * simpl. rewrite <- app_assoc. reflexivity.
Qed.

(** ** X3: the currency name is stored whole or not at all *)

(** X3. Whenever [GetLocaleCurrencyName] returns a failure status the output
    buffer is as it was.  When [ucurr_forLocale] does not succeed its status
    is returned and [ucurr_getName] is not called; when [ucurr_getName] does
    not succeed its status is returned.  The name is asked in the language
    of the locale itself for the native name and of [ULOC_US] otherwise. *)
Theorem GetLocaleCurrencyName_all_or_nothing :
  forall locale (nativeName : bool) value valueLength w,
    let c := icu_ucurr_forLocale icu locale 4 U_ZERO_ERROR in
    let nameLocale := if nativeName then locale else ULOC_US in
    let n := icu_ucurr_getName icu (fst c) nameLocale UCURR_LONG_NAME (snd c) in
    let r := GetLocaleCurrencyName icu locale nativeName value valueLength w in
    (U_FAILURE (fst r) = true -> out (snd r) = out w) /\
    (U_SUCCESS (snd c) = false ->
     r = (snd c, mkWorld (out w) (calls w ++ [Call_ucurr_forLocale locale 4]))) /\
    (U_SUCCESS (snd c) = true ->
     U_SUCCESS (snd n) = false ->
     r = (snd n,
          mkWorld (out w)
            (calls w ++ [Call_ucurr_forLocale locale 4;
                         Call_ucurr_getName (fst c) nameLocale UCURR_LONG_NAME]))).
Proof.
  intros locale nativeName value valueLength w c nameLocale n r.
  subst r. rewrite GetLocaleCurrencyName_unfold. cbv zeta.
  fold c. fold nameLocale. fold n.
  destruct (U_SUCCESS (snd c)) eqn:Hc; simpl negb; cbv iota.
  - destruct (U_SUCCESS (snd n)) eqn:Hn; simpl negb; cbv iota.
    + split; [ | split; intros; congruence ].
      destruct (snd (fst n) >=? valueLength); simpl; [ reflexivity | ].
      intros Hf. apply U_SUCCESS_FAILURE_false in Hn. congruence.
    + split; [ reflexivity | ]. split; [ congruence | ].
      intros _ _. simpl. rewrite <- app_assoc. reflexivity.
  - split; [ reflexivity | ]. split; [ reflexivity | congruence ].
Qed.

(** ** X4: the parent name is fixed up only when it was stored *)

(** X4. In the [ParentName] case the status is the one [uloc_getParent]
    leaves when that is a failure, and the one [u_charsToUChars_safe] returns
    otherwise; [u_charsToUChars_safe] is called only after a parent query
    that succeeded, and [FixupLocaleName] is called exactly when the case
    ends with a success status.  When the parent query fails the buffer is as
    it was. *)
Theorem ParentName_fixup_only_on_success :
  forall locale status value valueLength w,
    let p := icu_uloc_getParent icu locale ULOC_FULLNAME_CAPACITY status in
    let str := cstring (fst p) in
    let conv := pal_u_charsToUChars_safe pal str valueLength in
    let r := GetLocaleInfoString_switch icu pal locale ParentName status value
               valueLength w in
    fst r = (if U_SUCCESS (snd p) then snd conv else snd p) /\
    calls_since w (snd r)
    = Call_uloc_getParent locale ULOC_FULLNAME_CAPACITY
        :: (if U_SUCCESS (snd p)
            then Call_u_charsToUChars_safe str value valueLength
                   :: (if U_SUCCESS (snd conv)
                       then [Call_FixupLocaleName value valueLength] else [])
            else []) /\
    existsb is_FixupLocaleName (calls_since w (snd r)) = U_SUCCESS (fst r) /\
    (U_SUCCESS (snd p) = false -> out (snd r) = out w).
Proof.
  intros locale status value valueLength w. cbv zeta.
  unfold GetLocaleInfoString_switch, uloc_getParent, FixupLocaleName,
    u_charsToUChars_safe, bind, record, poke, peek, ret. simpl.
  destruct (icu_uloc_getParent icu locale ULOC_FULLNAME_CAPACITY status) as [tmp e].
  simpl. destruct (U_SUCCESS e) eqn:He; simpl.
  - destruct (U_SUCCESS (snd (pal_u_charsToUChars_safe pal (cstring tmp) valueLength)))
      eqn:Hconv; simpl; rewrite <- ?app_assoc, calls_since_app, ?Hconv;
      repeat split; try reflexivity; intros; congruence.
  - rewrite calls_since_app, He. repeat split; reflexivity.
Qed.

(** ** X5: the status [GetLocale] leaves goes no further than the display names *)

Lemma GetDigitSymbol_proceeds locale previousStatus symbol digit value valueLength w :
  U_FAILURE previousStatus = false ->
  GetDigitSymbol icu locale previousStatus symbol digit value valueLength w
  = GetLocaleInfoDecimalFormatSymbol icu locale symbol (value + digit)
      (int32_sub valueLength digit) w.
Proof. intros H. unfold GetDigitSymbol. now rewrite H. Qed.

(** X5. Except for the display names and the parent name, the case of a field
    does not depend on the status it is entered with, as long as that is not
    a failure: a warning [GetLocale] leaves is neither handed to the library
    nor returned. *)
Theorem success_status_on_entry_is_dropped :
  forall locale f s1 s2 value valueLength w,
    hands_status_on f = false ->
    U_FAILURE s1 = false ->
    U_FAILURE s2 = false ->
    GetLocaleInfoString_switch icu pal locale f s1 value valueLength w
    = GetLocaleInfoString_switch icu pal locale f s2 value valueLength w.
Proof.
  intros locale f s1 s2 value valueLength w Hf Hs1 Hs2.
  destruct f; try discriminate Hf; try reflexivity.
  unfold GetLocaleInfoString_switch, bind.
  rewrite !GetDigitSymbol_proceeds by assumption. reflexivity.
Qed.

(** ** X6: no formatter and no buffer outlives a call *)

Lemma logs_ret (P : list Call -> Prop) {A : Type} (a : A) : P [] -> logs P (ret a).
Proof. intros HP w. exists []. rewrite app_nil_r. split; [ reflexivity | exact HP ]. Qed.

Lemma logs_bind (P : list Call -> Prop) {A B : Type} (m : M A) (k : A -> M B) :
  (forall l1 l2, P l1 -> P l2 -> P (l1 ++ l2)) ->
  logs P m -> (forall a, logs P (k a)) -> logs P (bind m k).
Proof.
  intros Happ Hm Hk w. unfold bind.
  destruct (Hm w) as [l1 [E1 P1]]. destruct (m w) as [a w1]. simpl in E1.
  destruct (Hk a w1) as [l2 [E2 P2]].
  exists (l1 ++ l2). rewrite E2, E1, app_assoc. split; [ reflexivity | now apply Happ ].
Qed.

Lemma logs_record (P : list Call -> Prop) (c : Call) : P [c] -> logs P (record c).
Proof. intros HP w. exists [c]. split; [ reflexivity | exact HP ]. Qed.

Lemma logs_poke (P : list Call -> Prop) (p : Z) (data : list UChar) :
  P [] -> logs P (poke p data).
Proof. intros HP w. exists []. simpl. rewrite app_nil_r. split; [ reflexivity | exact HP ]. Qed.

Lemma logs_peek (P : list Call -> Prop) (p : Z) : P [] -> logs P (peek p).
Proof. intros HP w. exists []. simpl. rewrite app_nil_r. split; [ reflexivity | exact HP ]. Qed.

Lemma released_nil : released icu [].
Proof. reflexivity. Qed.

Lemma released_app (l1 l2 : list Call) :
  released icu l1 -> released icu l2 -> released icu (l1 ++ l2).
Proof.
  unfold released, held_after. intros H1 H2. now rewrite fold_left_app, H1.
Qed.

#[local] Hint Resolve released_nil released_app : framed.

Ltac released_step :=
  match goal with
  | |- logs _ (bind _ _) => apply logs_bind; [ exact released_app | | intros ? ]
  | |- logs _ (ret _) => apply logs_ret; exact released_nil
  | |- logs _ (poke _ _) => apply logs_poke; exact released_nil
  | |- logs _ (peek _) => apply logs_peek; exact released_nil
  | |- logs _ (record _) => apply logs_record; reflexivity
  | |- logs _ (if ?c then _ else _) => destruct c
  | |- logs _ (match ?x with _ => _ end) => destruct x
  | |- logs _ _ => solve [ auto with framed ]
  end.

Ltac released_tac := repeat released_step.

Lemma released_GetLocaleInfoDecimalFormatSymbol locale symbol value valueLength :
  logs (released icu)
    (GetLocaleInfoDecimalFormatSymbol icu locale symbol value valueLength).
Proof.
  intros w.
  unfold GetLocaleInfoDecimalFormatSymbol, unum_open, unum_getSymbol, unum_close,
    bind, record, poke, ret, released, held_after. simpl.
  destruct (icu_unum_open icu UNUM_DECIMAL locale U_ZERO_ERROR) as [pFormat status] eqn:E.
  simpl. destruct (U_FAILURE status) eqn:Hst; simpl.
  - eexists. split; [ reflexivity | ]. simpl. rewrite E. simpl. now rewrite Hst.
  - eexists. split; [ rewrite <- !app_assoc; reflexivity | ].
    simpl. rewrite E. simpl. rewrite Hst. simpl.
    rewrite Z.eqb_refl. simpl. rewrite Z.eqb_refl. reflexivity.
Qed.

Lemma released_GetLocaleInfoAmPm locale am value valueLength :
  logs (released icu) (GetLocaleInfoAmPm icu locale am value valueLength).
Proof.
  intros w.
  unfold GetLocaleInfoAmPm, udat_open, udat_getSymbols, udat_close,
    bind, record, poke, ret, released, held_after. simpl.
  destruct (icu_udat_open icu UDAT_DEFAULT UDAT_DEFAULT locale U_ZERO_ERROR)
    as [pFormat status] eqn:E.
  simpl. destruct (U_FAILURE status) eqn:Hst; simpl.
  - eexists. split; [ reflexivity | ]. simpl. rewrite E. simpl. now rewrite Hst.
  - eexists. split; [ rewrite <- !app_assoc; reflexivity | ].
    simpl. rewrite E. simpl. rewrite Hst. simpl.
    rewrite Z.eqb_refl. simpl. rewrite Z.eqb_refl. reflexivity.
Qed.

#[local] Hint Resolve released_GetLocaleInfoDecimalFormatSymbol released_GetLocaleInfoAmPm
  : framed.

Lemma released_GetDigitSymbol locale previousStatus symbol digit value valueLength :
  logs (released icu)
    (GetDigitSymbol icu locale previousStatus symbol digit value valueLength).
Proof. unfold GetDigitSymbol. released_tac. Qed.
#[local] Hint Resolve released_GetDigitSymbol : framed.

Lemma released_Digits_loop fuel : forall locale symbol status value valueLength,
  logs (released icu) (Digits_loop icu fuel locale symbol status value valueLength).
Proof. induction fuel as [|fuel IH]; intros; simpl; released_tac. Qed.
#[local] Hint Resolve released_Digits_loop : framed.

Lemma released_u_charsToUChars_safe str value valueLength :
  logs (released icu) (u_charsToUChars_safe pal str value valueLength).
Proof. unfold u_charsToUChars_safe. released_tac. Qed.
#[local] Hint Resolve released_u_charsToUChars_safe : framed.

Lemma released_GetLocaleIso639LanguageTwoLetterName locale value valueLength :
  logs (released icu)
    (GetLocaleIso639LanguageTwoLetterName icu pal locale value valueLength).
Proof.
  intros w.
  unfold GetLocaleIso639LanguageTwoLetterName, uloc_getLanguage, calloc, free,
    u_charsToUChars_safe, bind, record, poke, ret, released, held_after. simpl.
  destruct (icu_uloc_getLanguage icu locale 0 U_ZERO_ERROR) as [[s0 n0] e0]. simpl.
  destruct (calloc_succeeds pal (int32_add n0 1)); simpl.
  - destruct (icu_uloc_getLanguage icu locale (int32_add n0 1) U_ZERO_ERROR)
      as [[s1 n1] e1]. simpl.
    destruct (U_SUCCESS e1); simpl;
      (eexists; split; [ rewrite <- !app_assoc; reflexivity | reflexivity ]).
  - eexists; split; [ rewrite <- !app_assoc; reflexivity | reflexivity ].
Qed.

Lemma released_GetLocaleIso3166CountryName locale value valueLength :
  logs (released icu) (GetLocaleIso3166CountryName icu pal locale value valueLength).
Proof.
  intros w.
  unfold GetLocaleIso3166CountryName, uloc_getCountry, calloc, free,
    u_charsToUChars_safe, bind, record, poke, ret, released, held_after. simpl.
  destruct (icu_uloc_getCountry icu locale 0 U_ZERO_ERROR) as [[s0 n0] e0]. simpl.
  destruct (calloc_succeeds pal (int32_add n0 1)); simpl.
  - destruct (icu_uloc_getCountry icu locale (int32_add n0 1) U_ZERO_ERROR)
      as [[s1 n1] e1]. simpl.
    destruct (U_SUCCESS e1); simpl;
      (eexists; split; [ rewrite <- !app_assoc; reflexivity | reflexivity ]).
  - eexists; split; [ rewrite <- !app_assoc; reflexivity | reflexivity ].
Qed.

Lemma released_GetLocaleIso639LanguageThreeLetterName locale value valueLength :
  logs (released icu)
    (GetLocaleIso639LanguageThreeLetterName icu pal locale value valueLength).
Proof.
  unfold GetLocaleIso639LanguageThreeLetterName, uloc_getISO3Language. released_tac.
Qed.

Lemma released_GetLocaleIso3166CountryCode locale value valueLength :
  logs (released icu) (GetLocaleIso3166CountryCode icu pal locale value valueLength).
Proof. unfold GetLocaleIso3166CountryCode, uloc_getISO3Country. released_tac. Qed.

Lemma released_GetLocaleCurrencyName locale nativeName value valueLength :
  logs (released icu) (GetLocaleCurrencyName icu locale nativeName value valueLength).
Proof.
  unfold GetLocaleCurrencyName, ucurr_forLocale, ucurr_getName, u_strncpy_to.
  released_tac.
Qed.

#[local] Hint Resolve released_GetLocaleIso639LanguageTwoLetterName
  released_GetLocaleIso3166CountryName released_GetLocaleIso639LanguageThreeLetterName
  released_GetLocaleIso3166CountryCode released_GetLocaleCurrencyName : framed.

Lemma released_GetLocaleInfoString_switch locale f status value valueLength :
  logs (released icu)
    (GetLocaleInfoString_switch icu pal locale f status value valueLength).
Proof.
  destruct f; unfold GetLocaleInfoString_switch; try solve [ auto with framed ];
    unfold DetectDefaultLocaleName, uloc_getDisplayName, uloc_getDisplayLanguage,
      uloc_getDisplayCountry, uloc_getParent, FixupLocaleName; released_tac.
Qed.
#[local] Hint Resolve released_GetLocaleInfoString_switch : framed.

(** X6. Whatever the library answers and whichever field is asked for, the
    calls [GlobalizationNative_GetLocaleInfoString] makes keep the discipline
    of [hold_step] and leave nothing held: a formatter is opened only when
    none is held, extractions and the close go to the handle that is held,
    the temporary buffer is allocated once and freed once, and after the last
    call every formatter that was opened with success is closed and the
    buffer, if it was obtained, is freed.  This holds on every path, the ten
    queries of the [Digits] case included. *)
Theorem nothing_held_after_GetLocaleInfoString :
  forall localeName f value valueLength w,
    let r := GlobalizationNative_GetLocaleInfoString icu pal localeName f
               value valueLength w in
    exists l, calls (snd r) = calls w ++ l /\ held_after icu l = Some nothing_held.
Proof.
  intros localeName f value valueLength. cbv zeta.
  change (logs (released icu)
            (GlobalizationNative_GetLocaleInfoString icu pal localeName f value valueLength)).
  unfold GlobalizationNative_GetLocaleInfoString, GetLocale. released_tac.
Qed.

(** ** X7: the calls of a [Digits] query that succeeds *)

Lemma GetLocaleInfoDecimalFormatSymbol_success_calls locale symbol value valueLength w :
  U_SUCCESS (fst (GetLocaleInfoDecimalFormatSymbol icu locale symbol value valueLength w))
  = true ->
  calls (snd (GetLocaleInfoDecimalFormatSymbol icu locale symbol value valueLength w))
  = calls w
      ++ [Call_unum_open UNUM_DECIMAL locale
            (fst (icu_unum_open icu UNUM_DECIMAL locale U_ZERO_ERROR));
          Call_unum_getSymbol (fst (icu_unum_open icu UNUM_DECIMAL locale U_ZERO_ERROR))
            symbol value valueLength;
          Call_unum_close (fst (icu_unum_open icu UNUM_DECIMAL locale U_ZERO_ERROR))].
Proof.
  unfold GetLocaleInfoDecimalFormatSymbol, unum_open, unum_getSymbol, unum_close,
    bind, record, poke, ret. simpl.
  destruct (icu_unum_open icu UNUM_DECIMAL locale U_ZERO_ERROR) as [pFormat status].
  simpl. destruct (U_FAILURE status) eqn:Hst; simpl.
  - intros Hs. apply U_FAILURE_SUCCESS_false in Hst. congruence.
  - intros _. rewrite <- !app_assoc. reflexivity.
Qed.

Lemma Digits_in_order_success_calls locale value valueLength :
  forall symbols i status w,
    U_SUCCESS (fst (Digits_in_order icu locale symbols i status value valueLength w))
    = true ->
    calls (snd (Digits_in_order icu locale symbols i status value valueLength w))
    = calls w
        ++ digit_queries locale (fst (icu_unum_open icu UNUM_DECIMAL locale U_ZERO_ERROR))
             value valueLength i symbols.
Proof.
  induction symbols as [|symbol rest IH]; intros i status w Hs.
  - simpl. now rewrite app_nil_r.
  - cbn [Digits_in_order digit_queries] in *.
    destruct (U_FAILURE status) eqn:Hst.
    + apply U_FAILURE_SUCCESS_false in Hst. simpl in Hs. congruence.
    + unfold bind in *.
      pose proof (GetLocaleInfoDecimalFormatSymbol_success_calls locale symbol (value + i)
                    (valueLength - i) w) as Hone.
      destruct (GetLocaleInfoDecimalFormatSymbol icu locale symbol (value + i)
                  (valueLength - i) w) as [status' w'].
      simpl in Hone.
      destruct (U_FAILURE status') eqn:Hst'.
      * rewrite Digits_in_order_failure in Hs by assumption.
        apply U_FAILURE_SUCCESS_false in Hst'. simpl in Hs. congruence.
      * rewrite IH by assumption.
        rewrite Hone by (now apply U_FAILURE_false_SUCCESS).
        unfold digit_query. simpl fst. simpl snd.
        rewrite <- app_assoc. reflexivity.
Qed.

(** X7. A [Digits] case that ends with a success status has made exactly ten
    queries, in the order of the digits: for each digit [i] from 0 to 9 a
    formatter of the locale is opened, the symbol of the digit is asked into
    offset [i] with [valueLength - i] cells, and the formatter is closed
    before the next one is opened. *)
Theorem Digits_success_makes_ten_queries :
  forall locale status value valueLength w,
    let r := GetLocaleInfoString_switch icu pal locale Digits status value valueLength w in
    let fmt := fst (icu_unum_open icu UNUM_DECIMAL locale U_ZERO_ERROR) in
    - 2 ^ 31 + 9 <= valueLength < 2 ^ 31 ->
    U_SUCCESS (fst r) = true ->
    calls (snd r)
    = calls w ++ flat_map (digit_query locale fmt value valueLength) digit_offsets /\
    List.length (flat_map (digit_query locale fmt value valueLength) digit_offsets) = 30%nat.
Proof.
  intros locale status value valueLength w r fmt Hrange Hs. subst r.
  rewrite GetLocaleInfoString_switch_Digits in * by assumption.
  split; [ | reflexivity ].
  rewrite Digits_in_order_success_calls by assumption.
  reflexivity.
Qed.

(** ** X9: the time pattern *)

(** X9. When [GlobalizationNative_GetLocaleTimeFormat] returns 1 the buffer
    is the buffer it was given with the pattern stored at [value] that the
    library gives, not localized, for the formatter of the canonical locale
    with no date part and the short time style when [shortFormat] is not 0,
    the medium one when it is.  When the name does not canonicalize or the
    open fails, the buffer is as it was.  The call depends on [shortFormat]
    only through its being 0 or not. *)
Theorem GetLocaleTimeFormat_pattern :
  forall localeName shortFormat value valueLength w,
    let g := pal_GetLocale pal localeName ULOC_FULLNAME_CAPACITY false U_ZERO_ERROR in
    let style := if shortFormat =? 0 then UDAT_MEDIUM else UDAT_SHORT in
    let o := icu_udat_open icu style UDAT_NONE (fst g) (snd g) in
    let t := icu_udat_toPattern icu (fst o) false valueLength (snd o) in
    let r := GlobalizationNative_GetLocaleTimeFormat icu pal localeName shortFormat
               value valueLength w in
    (fst r = 1 -> out (snd r) = store_at value (fst t) (out w)) /\
    (U_FAILURE (snd g) = true \/ U_FAILURE (snd o) = true ->
     fst r = 0 /\ out (snd r) = out w) /\
    (forall shortFormat',
        (shortFormat = 0 <-> shortFormat' = 0) ->
        GlobalizationNative_GetLocaleTimeFormat icu pal localeName shortFormat'
          value valueLength w = r).
Proof.
  intros localeName shortFormat value valueLength w g style o t r.
  assert (Hstyle : (if negb (shortFormat =? 0) then UDAT_SHORT else UDAT_MEDIUM) = style).
  { subst style. now destruct (shortFormat =? 0). }
  subst r. rewrite GetLocaleTimeFormat_unfold. cbv zeta. fold g. rewrite Hstyle.
  fold o. fold t.
  split; [ | split ].
  - destruct (U_FAILURE (snd g)); [ discriminate | ].
    destruct (U_FAILURE (snd o)) eqn:Ho; simpl; [ | reflexivity ].
    intros H1. apply UErrorCodeToBool_1 in H1. apply U_FAILURE_gt in Ho. lia.
  - intros [Hg | Ho].
    + rewrite Hg. split; reflexivity.
    + destruct (U_FAILURE (snd g)); [ split; reflexivity | ].
      rewrite Ho. simpl. split; [ | reflexivity ].
      apply UErrorCodeToBool_0. now apply U_FAILURE_gt.
  - intros shortFormat' Hsame.
    rewrite GetLocaleTimeFormat_unfold. cbv zeta. fold g.
    replace (if negb (shortFormat' =? 0) then UDAT_SHORT else UDAT_MEDIUM) with style.
    + reflexivity.
    + subst style.
      destruct (Z.eqb_spec shortFormat 0), (Z.eqb_spec shortFormat' 0);
        try reflexivity; exfalso; tauto.
Qed.

(** ** X10: what a field does not depend on *)

(** X10. Only the fields [LocalizedDisplayName] and [LocalizedLanguageName]
    depend on the default locale of the process, and only the fields
    [Iso639LanguageTwoLetterName] and [Iso3166CountryName] depend on the
    allocator: for every other field the call returns the same value, leaves
    the same buffer and makes the same calls whatever
    [DetectDefaultLocaleName] would return, respectively whether [calloc]
    would succeed.  [GlobalizationNative_GetLocaleTimeFormat] depends on
    neither. *)
Theorem default_locale_and_allocator_matter_for_two_fields_each :
  forall localeName f shortFormat value valueLength w d a,
    (asks_default_locale f = false ->
     GlobalizationNative_GetLocaleInfoString icu (with_default_locale pal d) localeName f
       value valueLength w
     = GlobalizationNative_GetLocaleInfoString icu pal localeName f value valueLength w) /\
    (allocates f = false ->
     GlobalizationNative_GetLocaleInfoString icu (with_allocator pal a) localeName f
       value valueLength w
     = GlobalizationNative_GetLocaleInfoString icu pal localeName f value valueLength w) /\
    GlobalizationNative_GetLocaleTimeFormat icu
      (with_allocator (with_default_locale pal d) a) localeName shortFormat
      value valueLength w
    = GlobalizationNative_GetLocaleTimeFormat icu pal localeName shortFormat
        value valueLength w.
Proof.
  intros localeName f shortFormat value valueLength w d a.
  split; [ | split ].
  - intros Hf. destruct f; try discriminate Hf; reflexivity.
  - intros Hf. destruct f; try discriminate Hf; reflexivity.
  - reflexivity.
Qed.

(** * The status of a call and the status of the library *)

Lemma is_flag_of_UErrorCodeToBool (status : UErrorCode) :
  is_flag_of (UErrorCodeToBool status) status.
Proof. split; [ apply UErrorCodeToBool_1 | apply UErrorCodeToBool_0 ]. Qed.

Lemma symbol_status locale symbol value valueLength w :
  fst (GetLocaleInfoDecimalFormatSymbol icu locale symbol value valueLength w)
  = symbol_library_status icu locale symbol valueLength.
Proof.
  unfold GetLocaleInfoDecimalFormatSymbol, symbol_library_status, unum_open,
    unum_getSymbol, unum_close, bind, record, poke, ret. simpl.
  destruct (icu_unum_open icu UNUM_DECIMAL locale U_ZERO_ERROR) as [pFormat status].
  simpl. destruct (U_FAILURE status); reflexivity.
Qed.

Lemma am_pm_status locale am value valueLength w :
  fst (GetLocaleInfoAmPm icu locale am value valueLength w)
  = am_pm_library_status icu locale (if am then 0 else 1) valueLength.
Proof.
  unfold GetLocaleInfoAmPm, am_pm_library_status, udat_open, udat_getSymbols, udat_close,
    bind, record, poke, ret. simpl.
  destruct (icu_udat_open icu UDAT_DEFAULT UDAT_DEFAULT locale U_ZERO_ERROR)
    as [pFormat status].
  simpl. destruct (U_FAILURE status); reflexivity.
Qed.

Lemma digits_status locale value valueLength :
  forall symbols i status w,
    fst (Digits_in_order icu locale symbols i status value valueLength w)
    = digits_library_status icu locale symbols i status valueLength.
Proof.
  induction symbols as [|symbol rest IH]; intros i status w; [ reflexivity | ].
  cbn [Digits_in_order digits_library_status].
  destruct (U_FAILURE status); [ reflexivity | ].
  unfold bind.
  pose proof (symbol_status locale symbol (value + i) (valueLength - i) w) as Hone.
  destruct (GetLocaleInfoDecimalFormatSymbol icu locale symbol (value + i)
              (valueLength - i) w) as [status' w'].
  simpl in Hone. rewrite IH, Hone. reflexivity.
Qed.

Lemma currency_status locale (nativeName : bool) value valueLength w :
  let nameLocale := if nativeName then locale else ULOC_US in
  let s := fst (GetLocaleCurrencyName icu locale nativeName value valueLength w) in
  match file_set_status icu pal locale (CurrencyLongName nameLocale) U_ZERO_ERROR
          valueLength with
  | Some e => s = e
  | None => Some (currency_library_status icu locale nameLocale) = Some s
  end.
Proof.
  cbv zeta. rewrite GetLocaleCurrencyName_unfold. cbv zeta.
  unfold file_set_status, currency_library_status.
  destruct (U_SUCCESS (snd (icu_ucurr_forLocale icu locale 4 U_ZERO_ERROR)));
    simpl negb; cbv iota; simpl andb; [ | reflexivity ].
  destruct (U_SUCCESS (snd (icu_ucurr_getName icu _ _ UCURR_LONG_NAME _)));
    simpl negb; cbv iota; simpl andb; [ | reflexivity ].
  destruct (_ >=? valueLength); reflexivity.
Qed.

Lemma language_status locale status value valueLength w :
  let s := fst (GetLocaleIso639LanguageTwoLetterName icu pal locale value valueLength w) in
  match file_set_status icu pal locale LanguageCode status valueLength with
  | Some e => s = e
  | None => Some (language_library_status icu pal locale) = Some s
  end.
Proof.
  cbv zeta.
  unfold GetLocaleIso639LanguageTwoLetterName, file_set_status, language_library_status,
    language_code, uloc_getLanguage, calloc, free, u_charsToUChars_safe,
    bind, record, poke, ret. simpl.
  destruct (icu_uloc_getLanguage icu locale 0 U_ZERO_ERROR) as [[s0 n0] e0]. simpl.
  destruct (calloc_succeeds pal (int32_add n0 1)); simpl; [ | reflexivity ].
  destruct (icu_uloc_getLanguage icu locale (int32_add n0 1) U_ZERO_ERROR)
    as [[s1 n1] e1]. simpl.
  destruct (U_SUCCESS e1); reflexivity.
Qed.

Lemma country_status locale status value valueLength w :
  let s := fst (GetLocaleIso3166CountryName icu pal locale value valueLength w) in
  match file_set_status icu pal locale CountryCode status valueLength with
  | Some e => s = e
  | None => Some (country_library_status icu pal locale) = Some s
  end.
Proof.
  cbv zeta.
  unfold GetLocaleIso3166CountryName, file_set_status, country_library_status,
    country_code, uloc_getCountry, calloc, free, u_charsToUChars_safe,
    bind, record, poke, ret. simpl.
  destruct (icu_uloc_getCountry icu locale 0 U_ZERO_ERROR) as [[s0 n0] e0]. simpl.
  destruct (calloc_succeeds pal (int32_add n0 1)); simpl; [ | reflexivity ].
  destruct (icu_uloc_getCountry icu locale (int32_add n0 1) U_ZERO_ERROR)
    as [[s1 n1] e1]. simpl.
  destruct (U_SUCCESS e1); reflexivity.
Qed.

Lemma iso3_language_status locale status value valueLength w :
  file_set_status icu pal locale Iso3LanguageCode status valueLength
  = Some (fst (GetLocaleIso639LanguageThreeLetterName icu pal locale value valueLength w)).
Proof.
  unfold GetLocaleIso639LanguageThreeLetterName, file_set_status, uloc_getISO3Language,
    u_charsToUChars_safe, bind, record, poke, ret. simpl.
  destruct (icu_uloc_getISO3Language icu locale); reflexivity.
Qed.

Lemma iso3_country_status locale status value valueLength w :
  file_set_status icu pal locale Iso3CountryCode status valueLength
  = Some (fst (GetLocaleIso3166CountryCode icu pal locale value valueLength w)).
Proof.
  unfold GetLocaleIso3166CountryCode, file_set_status, uloc_getISO3Country,
    u_charsToUChars_safe, bind, record, poke, ret. simpl.
  destruct (int32_wrap _ =? 0); reflexivity.
Qed.

Lemma parent_status locale status value valueLength w :
  let s := fst (GetLocaleInfoString_switch icu pal locale ParentName status value
                  valueLength w) in
  match file_set_status icu pal locale ParentLocale status valueLength with
  | Some e => s = e
  | None => Some (snd (icu_uloc_getParent icu locale ULOC_FULLNAME_CAPACITY status)) = Some s
  end.
Proof.
  cbv zeta.
  unfold GetLocaleInfoString_switch, file_set_status, parent_locale, uloc_getParent,
    FixupLocaleName, u_charsToUChars_safe, bind, record, poke, peek, ret. simpl.
  destruct (icu_uloc_getParent icu locale ULOC_FULLNAME_CAPACITY status) as [tmp e].
  simpl. destruct (U_SUCCESS e); simpl; [ | reflexivity ].
  destruct (U_SUCCESS (snd (pal_u_charsToUChars_safe pal (cstring tmp) valueLength)));
    reflexivity.
Qed.

(** The status the switch leaves for a supported field: the one the file sets
    itself where it does, the one the last library call left otherwise. *)
Lemma switch_status locale f q status value valueLength w :
  - 2 ^ 31 + 9 <= valueLength < 2 ^ 31 ->
  query_of_field pal locale f = Some q ->
  let s := fst (GetLocaleInfoString_switch icu pal locale f status value valueLength w) in
  match file_set_status icu pal locale q status valueLength with
  | Some e => s = e
  | None => final_library_status icu pal locale q status valueLength = Some s
  end.
Proof.
  intros Hrange Hq. cbv zeta.
  destruct f; simpl in Hq; inversion Hq; subst q; clear Hq;
    try exact (parent_status locale status value valueLength w);
    try exact (language_status locale status value valueLength w);
    try exact (country_status locale status value valueLength w);
    try (rewrite (iso3_language_status locale status value valueLength w); reflexivity);
    try (rewrite (iso3_country_status locale status value valueLength w); reflexivity);
    try exact (currency_status locale false value valueLength w);
    try exact (currency_status locale true value valueLength w);
    cbn [file_set_status final_library_status GetLocaleInfoString_switch];
    try reflexivity;
    try (f_equal; symmetry; apply symbol_status);
    try (f_equal; symmetry; exact (am_pm_status locale true value valueLength w));
    try (f_equal; symmetry; exact (am_pm_status locale false value valueLength w)).
  f_equal.
  change (digits_library_status icu locale digit_symbols 0 status valueLength
          = fst (GetLocaleInfoString_switch icu pal locale Digits status value valueLength w)).
  rewrite GetLocaleInfoString_switch_Digits by assumption.
  symmetry. apply digits_status.
Qed.

(** ** X8: the [Digits] case returns what its last query returns *)

Lemma Digits_in_order_step locale value valueLength symbol rest i status w :
  U_FAILURE status = false ->
  Digits_in_order icu locale (symbol :: rest) i status value valueLength w
  = Digits_in_order icu locale rest (i + 1)
      (fst (GetLocaleInfoDecimalFormatSymbol icu locale symbol (value + i)
              (valueLength - i) w))
      value valueLength
      (snd (GetLocaleInfoDecimalFormatSymbol icu locale symbol (value + i)
              (valueLength - i) w)).
Proof.
  intros Hst. cbn [Digits_in_order]. rewrite Hst. unfold bind.
  destruct (GetLocaleInfoDecimalFormatSymbol icu locale symbol (value + i)
              (valueLength - i) w); reflexivity.
Qed.

Lemma Digits_in_order_nil locale value valueLength i status w :
  Digits_in_order icu locale [] i status value valueLength w = (status, w).
Proof. reflexivity. Qed.

Lemma Digits_in_order_last_query locale value valueLength :
  forall symbols i status w,
    symbols <> [] ->
    U_FAILURE status = false ->
    exists k,
      (k < List.length symbols)%nat /\
      U_FAILURE (fst (Digits_in_order icu locale (firstn k symbols) i status
                        value valueLength w)) = false /\
      Digits_in_order icu locale symbols i status value valueLength w
      = GetLocaleInfoDecimalFormatSymbol icu locale (nth k symbols 0)
          (value + (i + Z.of_nat k)) (valueLength - (i + Z.of_nat k))
          (snd (Digits_in_order icu locale (firstn k symbols) i status
                  value valueLength w)) /\
      (S k = List.length symbols \/
       U_FAILURE (fst (Digits_in_order icu locale symbols i status value valueLength w))
       = true).
Proof.
  induction symbols as [|symbol rest IH]; intros i status w Hne Hst; [ congruence | ].
  rewrite (Digits_in_order_step locale value valueLength symbol rest i status w Hst).
  destruct (GetLocaleInfoDecimalFormatSymbol icu locale symbol (value + i)
              (valueLength - i) w) as [status' w1] eqn:Hq.
  cbn [fst snd].
  assert (Hhere : (status', w1)
                  = GetLocaleInfoDecimalFormatSymbol icu locale symbol
                      (value + (i + Z.of_nat 0)) (valueLength - (i + Z.of_nat 0)) w).
  { simpl Z.of_nat. rewrite Z.add_0_r. now rewrite Hq. }
  destruct rest as [|symbol' rest'].
  - exists O. cbn [firstn nth List.length]. rewrite !Digits_in_order_nil. cbn [fst snd].
    repeat split; auto.
  - destruct (U_FAILURE status') eqn:Hst'.
    + rewrite Digits_in_order_failure by assumption.
      exists O. cbn [firstn nth]. rewrite !Digits_in_order_nil. cbn [fst snd].
      repeat split; auto; simpl; lia.
    + destruct (IH (i + 1) status' w1 ltac:(discriminate) Hst')
        as [k [Hk [Hpre [Hres Hlast]]]].
      exists (S k).
      change (firstn (S k) (symbol :: symbol' :: rest'))
        with (symbol :: firstn k (symbol' :: rest')).
      change (nth (S k) (symbol :: symbol' :: rest') 0)
        with (nth k (symbol' :: rest') 0).
      rewrite (Digits_in_order_step locale value valueLength symbol _ i status w Hst).
      rewrite Hq. cbn [fst snd].
      split; [ simpl in *; lia | ].
      split; [ exact Hpre | ].
      split.
      * rewrite Hres. replace (i + 1 + Z.of_nat k) with (i + Z.of_nat (S k)) by lia.
        reflexivity.
      * destruct Hlast as [Hlast | Hlast]; [ left; simpl in *; lia | right; exact Hlast ].
Qed.

(** X8. Entered with a status that is not a failure, the [Digits] case returns
    (status, buffer and log) what the query of one digit [k] returns when it
    is run in the state the queries of the digits before it leave: the buffer
    with their stores, digit [j] at offset [j], and the log with their calls,
    none of them having failed.  Either [k] is the last digit, 9, or that
    query failed and no digit after it was queried. *)
Theorem Digits_result_is_last_query :
  forall locale status value valueLength w,
    let r := GetLocaleInfoString_switch icu pal locale Digits status value valueLength w in
    let fmt := fst (icu_unum_open icu UNUM_DECIMAL locale U_ZERO_ERROR) in
    - 2 ^ 31 + 9 <= valueLength < 2 ^ 31 ->
    U_FAILURE status = false ->
    exists k,
      (k < 10)%nat /\
      U_FAILURE (digits_library_status icu locale (firstn k digit_symbols) 0 status
                   valueLength) = false /\
      r = GetLocaleInfoDecimalFormatSymbol icu locale (nth k digit_symbols 0)
            (value + Z.of_nat k) (valueLength - Z.of_nat k)
            (mkWorld
               (digit_stores icu locale (firstn k digit_symbols) 0 value valueLength (out w))
               (calls w
                  ++ digit_queries locale fmt value valueLength 0
                       (firstn k digit_symbols))) /\
      (k = 9%nat \/ U_FAILURE (fst r) = true).
Proof.
  intros locale status value valueLength w r fmt Hrange Hst. subst r.
  rewrite GetLocaleInfoString_switch_Digits by assumption.
  destruct (Digits_in_order_last_query locale value valueLength digit_symbols 0 status w
              ltac:(discriminate) Hst) as [k [Hk [Hpre [Hres Hlast]]]].
  exists k. change (List.length digit_symbols) with 10%nat in *.
  split; [ exact Hk | ].
  split; [ rewrite <- (digits_status locale value valueLength _ 0 status w); exact Hpre | ].
  split.
  - rewrite Hres. f_equal.
    pose proof (Digits_in_order_success locale value valueLength
                  (firstn k digit_symbols) 0 status w
                  (U_FAILURE_false_SUCCESS _ Hpre)) as Hout.
    pose proof (Digits_in_order_success_calls locale value valueLength
                  (firstn k digit_symbols) 0 status w
                  (U_FAILURE_false_SUCCESS _ Hpre)) as Hcalls.
    destruct (snd (Digits_in_order icu locale (firstn k digit_symbols) 0 status
                     value valueLength w)) as [b' l'].
    simpl in Hout, Hcalls. subst b' l'. reflexivity.
  - destruct Hlast as [Hlast | Hlast]; [ left; lia | right; exact Hlast ].
Qed.

(** ** C1: the flag, the status of the library and the statuses of the file *)

(** C1 (amended). When the locale name does not canonicalize both functions
    return 0.  When it does, and the field is a supported one, the value
    [GlobalizationNative_GetLocaleInfoString] returns is the success flag (1
    for a status that is at most [U_ZERO_ERROR], 0 otherwise) of the status
    the last library call of the field's query left, unchanged, except on
    the paths where the file sets a status itself ([file_set_status]: the
    currency name that does not fit, the failed [calloc], the empty ISO-3
    code, what [u_charsToUChars_safe] returns): there it is the success flag
    of that status.  For a field that is not supported it is 0.  The value
    [GlobalizationNative_GetLocaleTimeFormat] returns is the success flag of
    the status [udat_open], or after it [udat_toPattern], left. *)
Theorem flag_of_library_status_or_file_status :
  forall localeName f shortFormat value valueLength w,
    let g := pal_GetLocale pal localeName ULOC_FULLNAME_CAPACITY false U_ZERO_ERROR in
    let r := fst (GlobalizationNative_GetLocaleInfoString icu pal localeName f
                    value valueLength w) in
    let r' := fst (GlobalizationNative_GetLocaleTimeFormat icu pal localeName
                     shortFormat value valueLength w) in
    - 2 ^ 31 + 9 <= valueLength < 2 ^ 31 ->
    (U_FAILURE (snd g) = true -> r = 0 /\ r' = 0) /\
    (U_FAILURE (snd g) = false ->
     (forall q,
         query_of_field pal (fst g) f = Some q ->
         match file_set_status icu pal (fst g) q (snd g) valueLength with
         | Some e => is_flag_of r e
         | None =>
             exists status,
               final_library_status icu pal (fst g) q (snd g) valueLength = Some status /\
               is_flag_of r status
         end) /\
     (query_of_field pal (fst g) f = None -> r = 0) /\
     is_flag_of r'
       (time_format_library_status icu (fst g) shortFormat (snd g) valueLength)).
Proof.
  intros localeName f shortFormat value valueLength w g r r' Hrange.
  subst r r'. rewrite GetLocaleInfoString_unfold, GetLocaleTimeFormat_unfold.
  cbv zeta. fold g. split; intros Hg; rewrite Hg.
  - split; reflexivity.
  - split; [ | split ].
    + intros q Hq. simpl fst.
      pose proof (switch_status (fst g) f q (snd g) value valueLength
                    (mkWorld (out w) (calls w ++ [Call_GetLocale localeName]))
                    Hrange Hq) as Hs.
      cbv zeta in Hs.
      destruct (file_set_status icu pal (fst g) q (snd g) valueLength) as [e|].
      * rewrite Hs. apply is_flag_of_UErrorCodeToBool.
      * eexists. split; [ exact Hs | apply is_flag_of_UErrorCodeToBool ].
    + intros Hq. destruct f; simpl in Hq; try discriminate Hq. reflexivity.
    + unfold time_format_library_status.
      destruct (U_FAILURE (snd (icu_udat_open icu _ UDAT_NONE (fst g) (snd g))));
        simpl fst; apply is_flag_of_UErrorCodeToBool.
Qed.

(** * Calls that see neither the buffer nor the past *)

Lemma apply_stores_app (ws1 ws2 : list (Z * list UChar)) (b : list UChar) :
  apply_stores (ws1 ++ ws2) b = apply_stores ws2 (apply_stores ws1 b).
Proof. unfold apply_stores. apply fold_left_app. Qed.

Lemma blind_ret {A : Type} (a : A) : blind (ret a).
Proof. exists a, [], []. intros b h. unfold ret. simpl. now rewrite app_nil_r. Qed.

Lemma blind_bind {A B : Type} (m : M A) (k : A -> M B) :
  blind m -> (forall a, blind (k a)) -> blind (bind m k).
Proof.
  intros [a [ws1 [l1 Hm]]] Hk. destruct (Hk a) as [a2 [ws2 [l2 Hk2]]].
  exists a2, (ws1 ++ ws2), (l1 ++ l2). intros b h.
  unfold bind. rewrite Hm, Hk2, apply_stores_app, app_assoc. reflexivity.
Qed.

Lemma blind_record (c : Call) : blind (record c).
Proof. exists tt, [], [c]. intros b h. reflexivity. Qed.

Lemma blind_poke (p : Z) (data : list UChar) : blind (poke p data).
Proof.
  exists tt, [(p, data)], []. intros b h. unfold poke. simpl. now rewrite app_nil_r.
Qed.

#[local] Hint Resolve blind_ret blind_record blind_poke : framed.

Ltac blind_step :=
  match goal with
  | |- blind (bind _ _) => apply blind_bind; [ | intros ? ]
  | |- blind (if ?c then _ else _) => destruct c
  | |- blind (match ?x with _ => _ end) => destruct x
  | |- blind _ => solve [ auto with framed ]
  end.

Ltac blind_tac := repeat blind_step.

Lemma blind_GetLocale n c k e : blind (GetLocale pal n c k e).
Proof. unfold GetLocale. blind_tac. Qed.

Lemma blind_GetLocaleInfoDecimalFormatSymbol locale symbol value valueLength :
  blind (GetLocaleInfoDecimalFormatSymbol icu locale symbol value valueLength).
Proof.
  unfold GetLocaleInfoDecimalFormatSymbol, unum_open, unum_getSymbol, unum_close.
  blind_tac.
Qed.
#[local] Hint Resolve blind_GetLocale blind_GetLocaleInfoDecimalFormatSymbol : framed.

Lemma blind_GetDigitSymbol locale previousStatus symbol digit value valueLength :
  blind (GetDigitSymbol icu locale previousStatus symbol digit value valueLength).
Proof. unfold GetDigitSymbol. blind_tac. Qed.
#[local] Hint Resolve blind_GetDigitSymbol : framed.

Lemma blind_Digits_loop fuel : forall locale symbol status value valueLength,
  blind (Digits_loop icu fuel locale symbol status value valueLength).
Proof. induction fuel as [|fuel IH]; intros; simpl; blind_tac. Qed.
#[local] Hint Resolve blind_Digits_loop : framed.

Lemma blind_GetLocaleInfoAmPm locale am value valueLength :
  blind (GetLocaleInfoAmPm icu locale am value valueLength).
Proof.
  unfold GetLocaleInfoAmPm, udat_open, udat_getSymbols, udat_close. blind_tac.
Qed.

Lemma blind_u_charsToUChars_safe str value valueLength :
  blind (u_charsToUChars_safe pal str value valueLength).
Proof. unfold u_charsToUChars_safe. blind_tac. Qed.
#[local] Hint Resolve blind_GetLocaleInfoAmPm blind_u_charsToUChars_safe : framed.

Lemma blind_GetLocaleIso639LanguageTwoLetterName locale value valueLength :
  blind (GetLocaleIso639LanguageTwoLetterName icu pal locale value valueLength).
Proof.
  unfold GetLocaleIso639LanguageTwoLetterName, uloc_getLanguage, calloc, free.
  blind_tac.
Qed.

Lemma blind_GetLocaleIso639LanguageThreeLetterName locale value valueLength :
  blind (GetLocaleIso639LanguageThreeLetterName icu pal locale value valueLength).
Proof.
  unfold GetLocaleIso639LanguageThreeLetterName, uloc_getISO3Language. blind_tac.
Qed.

Lemma blind_GetLocaleIso3166CountryName locale value valueLength :
  blind (GetLocaleIso3166CountryName icu pal locale value valueLength).
Proof.
  unfold GetLocaleIso3166CountryName, uloc_getCountry, calloc, free. blind_tac.
Qed.

Lemma blind_GetLocaleIso3166CountryCode locale value valueLength :
  blind (GetLocaleIso3166CountryCode icu pal locale value valueLength).
Proof. unfold GetLocaleIso3166CountryCode, uloc_getISO3Country. blind_tac. Qed.

Lemma blind_GetLocaleCurrencyName locale nativeName value valueLength :
  blind (GetLocaleCurrencyName icu locale nativeName value valueLength).
Proof.
  unfold GetLocaleCurrencyName, ucurr_forLocale, ucurr_getName, u_strncpy_to.
  blind_tac.
Qed.
#[local] Hint Resolve blind_GetLocaleIso639LanguageTwoLetterName
  blind_GetLocaleIso639LanguageThreeLetterName blind_GetLocaleIso3166CountryName
  blind_GetLocaleIso3166CountryCode blind_GetLocaleCurrencyName : framed.

Lemma blind_GetLocaleInfoString_switch locale f status value valueLength :
  f <> ParentName ->
  blind (GetLocaleInfoString_switch icu pal locale f status value valueLength).
Proof.
  intros Hf.
  destruct f; try congruence; unfold GetLocaleInfoString_switch;
    try solve [ auto with framed ];
    unfold DetectDefaultLocaleName, uloc_getDisplayName, uloc_getDisplayLanguage,
      uloc_getDisplayCountry; blind_tac.
Qed.

(** [FixupLocaleName], called on a terminated string that was just stored
    inside the buffer, stores what it makes of that string alone. *)
Lemma store_self {A : Type} (t : list A) : store 0 t t = t.
Proof. induction t as [|x t IH]; simpl; [ reflexivity | now rewrite IH ]. Qed.

Lemma store_tail {A : Type} (a t : list A) : store (List.length a) t (a ++ t) = a ++ t.
Proof.
  induction a as [|x a IH]; simpl; [ apply store_self | now rewrite IH ].
Qed.

Lemma fixup_of_stored_string (D b : list UChar) (value valueLength : Z) :
  FixupLocaleName_is_local pal ->
  In 0 D ->
  0 <= value ->
  value + Z.of_nat (List.length D) <= Z.of_nat (List.length b) ->
  store_at value
    (pal_FixupLocaleName pal (window value (store_at value D b)) valueLength)
    (store_at value D b)
  = store_at value (pal_FixupLocaleName pal D valueLength) (store_at value D b).
Proof.
  intros Hlocal Hnul Hvalue Hfits.
  unfold FixupLocaleName_is_local in Hlocal. unfold UChar in *.
  unfold store_at, window. destruct (Z.ltb_spec value 0); [ lia | ].
  set (p := Z.to_nat value).
  assert (Hp : (p + List.length D <= List.length b)%nat) by lia.
  set (T := skipn (p + List.length D) b).
  assert (Hb1 : store p D b = firstn p b ++ D ++ T) by (apply store_in_bounds; exact Hp).
  assert (Hlenp : List.length (firstn p b) = p) by (rewrite length_firstn; lia).
  assert (Hwin : skipn p (store p D b) = D ++ T).
  { rewrite Hb1, skipn_app, Hlenp, Nat.sub_diag. simpl.
    rewrite skipn_all2 by lia. reflexivity. }
  rewrite Hwin.
  destruct (Hlocal D T valueLength Hnul) as [HF Hlen].
  rewrite HF.
  set (F := pal_FixupLocaleName pal D valueLength : list Z) in *.
  clearbody F. unfold UChar in *.
  rewrite (store_app (store p D b) p F T).
  assert (HsF : store p F (store p D b) = (firstn p b ++ F) ++ T).
  { rewrite store_in_bounds by (rewrite store_length; lia).
    rewrite Hb1 at 1 2. rewrite firstn_app, Hlenp, Nat.sub_diag. simpl.
    rewrite firstn_all2 by lia. rewrite app_nil_r.
    rewrite skipn_app, Hlenp.
    rewrite skipn_all2 by lia. simpl.
    replace (p + List.length F - p)%nat with (List.length D) by lia.
    rewrite skipn_app, Nat.sub_diag. simpl.
    rewrite skipn_all2 by lia. simpl.
    rewrite <- app_assoc. reflexivity. }
  rewrite HsF.
  replace (p + List.length F)%nat with (List.length (firstn p b ++ F))
    by (rewrite length_app; lia).
  apply store_tail.
Qed.

(** ** C6: a call depends on its arguments and on the library only *)

(** C6. With the library and the helpers fixed, what a call does is fixed by
    its arguments: whatever the output buffer holds when it is made and
    whatever calls were made before it, a call of
    [GlobalizationNative_GetLocaleInfoString] or of
    [GlobalizationNative_GetLocaleTimeFormat] returns the same value, makes
    the same calls and makes the same stores into the buffer ([blind]).  For
    [ParentName], whose case calls [FixupLocaleName] on the buffer, the value
    and the calls are the same in any case; the stores are the same when
    [FixupLocaleName] works on the string at [value] alone, that string was
    stored terminated, and the buffer has [valueLength] cells from [value]
    on. *)
Theorem a_call_sees_neither_buffer_nor_past :
  forall localeName f shortFormat value valueLength,
    (f <> ParentName ->
     blind (GlobalizationNative_GetLocaleInfoString icu pal localeName f value valueLength)) /\
    blind (GlobalizationNative_GetLocaleTimeFormat icu pal localeName shortFormat
             value valueLength) /\
    (exists a l,
        forall b h,
          fst (GlobalizationNative_GetLocaleInfoString icu pal localeName ParentName
                 value valueLength (mkWorld b h)) = a /\
          calls (snd (GlobalizationNative_GetLocaleInfoString icu pal localeName ParentName
                        value valueLength (mkWorld b h))) = h ++ l) /\
    (FixupLocaleName_is_local pal ->
     conversion_is_terminated pal ->
     0 <= value ->
     exists a ws l,
       forall b h,
         value + valueLength <= Z.of_nat (List.length b) ->
         GlobalizationNative_GetLocaleInfoString icu pal localeName ParentName
           value valueLength (mkWorld b h)
         = (a, mkWorld (apply_stores ws b) (h ++ l))).
Proof.
  intros localeName f shortFormat value valueLength.
  split; [ | split; [ | split ] ].
  - intros Hf. unfold GlobalizationNative_GetLocaleInfoString.
    apply blind_bind; [ apply blind_GetLocale | intros [locale status] ].
    destruct (U_FAILURE status); [ apply blind_ret | ].
    apply blind_bind; [ now apply blind_GetLocaleInfoString_switch | intros ? ].
    apply blind_ret.
  - unfold GlobalizationNative_GetLocaleTimeFormat, udat_open, udat_toPattern, udat_close.
    blind_tac.
  - unfold GlobalizationNative_GetLocaleInfoString, GetLocaleInfoString_switch, GetLocale,
      uloc_getParent, FixupLocaleName, u_charsToUChars_safe, bind, record, poke, peek, ret.
    simpl.
    destruct (pal_GetLocale pal localeName ULOC_FULLNAME_CAPACITY false U_ZERO_ERROR)
      as [locale status]. simpl.
    destruct (U_FAILURE status); simpl.
    { do 2 eexists. intros b h. split; reflexivity. }
    destruct (icu_uloc_getParent icu locale ULOC_FULLNAME_CAPACITY status) as [tmp e].
    simpl. destruct (U_SUCCESS e); simpl.
    + destruct (U_SUCCESS (snd (pal_u_charsToUChars_safe pal (cstring tmp) valueLength)));
        simpl; do 2 eexists; intros b h; rewrite <- !app_assoc; split; reflexivity.
    + do 2 eexists. intros b h. rewrite <- !app_assoc. split; reflexivity.
  - intros Hlocal Hterm Hvalue.
    unfold GlobalizationNative_GetLocaleInfoString, GetLocaleInfoString_switch, GetLocale,
      uloc_getParent, FixupLocaleName, u_charsToUChars_safe, bind, record, poke, peek, ret.
    simpl.
    destruct (pal_GetLocale pal localeName ULOC_FULLNAME_CAPACITY false U_ZERO_ERROR)
      as [locale status]. simpl.
    destruct (U_FAILURE status); simpl.
    { exists 0, [], [Call_GetLocale localeName]. intros b h _. reflexivity. }
    destruct (icu_uloc_getParent icu locale ULOC_FULLNAME_CAPACITY status) as [tmp e].
    simpl. destruct (U_SUCCESS e); simpl.
    + destruct (U_SUCCESS (snd (pal_u_charsToUChars_safe pal (cstring tmp) valueLength)))
        eqn:Hconv; simpl.
      * destruct (Hterm _ _ Hconv) as [Hnul Hlen].
        eexists _,
          [(value, fst (pal_u_charsToUChars_safe pal (cstring tmp) valueLength));
           (value, pal_FixupLocaleName pal
                     (fst (pal_u_charsToUChars_safe pal (cstring tmp) valueLength))
                     valueLength)], _.
        intros b h Hroom. rewrite <- !app_assoc.
        unfold apply_stores. cbn [fold_left fst snd].
        rewrite <- (fixup_of_stored_string _ b value valueLength Hlocal Hnul Hvalue)
          by lia.
        reflexivity.
      * eexists _,
          [(value, fst (pal_u_charsToUChars_safe pal (cstring tmp) valueLength))], _.
        intros b h _. rewrite <- !app_assoc. reflexivity.
    + eexists _, [], _. intros b h _. rewrite <- !app_assoc. reflexivity.
Qed.

End Properties.

(** * Concrete runs

    The properties with a premise, applied to the library model of [Demo];
    and the runs that show where a statement of the specification has to be
    amended. *)

Lemma GetLocale_failure_returns_at_once_witness :
  let name := repeat 97 200 in
  GlobalizationNative_GetLocaleInfoString Demo.icu Demo.pal name DecimalSeparator 0 8
    (Demo.fresh 8)
  = (0, mkWorld (repeat 65535 8) [Call_GetLocale name]) /\
  GlobalizationNative_GetLocaleTimeFormat Demo.icu Demo.pal name 1 0 8 (Demo.fresh 8)
  = (0, mkWorld (repeat 65535 8) [Call_GetLocale name]).
Proof.
  exact (proj2 (GetLocale_failure_returns_at_once Demo.icu Demo.pal (repeat 97 200)
                  DecimalSeparator 1 0 8 (Demo.fresh 8)) eq_refl).
Defined.

Lemma opened_formatter_is_closed_witness :
  calls (snd (GetLocaleInfoDecimalFormatSymbol Demo.icu "en_US"
                UNUM_DECIMAL_SEPARATOR_SYMBOL 0 0 (Demo.fresh 8)))
  = [Call_unum_open UNUM_DECIMAL "en_US" 100; Call_unum_getSymbol 100 0 0 0;
     Call_unum_close 100] /\
  calls (snd (GetLocaleInfoAmPm Demo.icu "fr_FR" false 0 8 (Demo.fresh 8)))
  = [Call_udat_open UDAT_DEFAULT UDAT_DEFAULT "fr_FR" 200;
     Call_udat_getSymbols 200 UDAT_AM_PMS 1 0 8; Call_udat_close 200] /\
  calls (snd (GlobalizationNative_GetLocaleTimeFormat Demo.icu Demo.pal
                (Demo.ustr "fr-FR") 1 0 2 (Demo.fresh 8)))
  = [Call_GetLocale (Demo.ustr "fr-FR"); Call_udat_open UDAT_SHORT UDAT_NONE "fr_FR" 200;
     Call_udat_toPattern 200 false 0 2; Call_udat_close 200].
Proof.
  destruct (opened_formatter_is_closed Demo.icu Demo.pal) as [Hnum [Hampm Htime]].
  split; [ | split ].
  - exact (Hnum "en_US"%string 0 0 0 (Demo.fresh 8) eq_refl).
  - exact (Hampm "fr_FR"%string false 0 8 (Demo.fresh 8) eq_refl).
  - exact (Htime (Demo.ustr "fr-FR") 1 0 2 (Demo.fresh 8) eq_refl eq_refl).
Defined.

Lemma unlisted_field_is_unsupported_witness :
  GetLocaleInfoString_final_status Demo.icu Demo.pal (Demo.ustr "en-US")
    (UnlistedLocaleStringData 999) 0 8 (Demo.fresh 8) = U_UNSUPPORTED_ERROR /\
  GlobalizationNative_GetLocaleInfoString Demo.icu Demo.pal (Demo.ustr "en-US")
    (UnlistedLocaleStringData 999) 0 8 (Demo.fresh 8)
  = (0, mkWorld (repeat 65535 8) [Call_GetLocale (Demo.ustr "en-US")]).
Proof.
  exact (unlisted_field_is_unsupported Demo.icu Demo.pal (Demo.ustr "en-US") 999 0 8
           (Demo.fresh 8) eq_refl).
Defined.

Lemma GetLocaleCurrencyName_overflow_iff_witness :
  let fits := GetLocaleCurrencyName Demo.icu "fr_FR" true 0 12 (Demo.fresh 12) in
  let tight := GetLocaleCurrencyName Demo.icu "fr_FR" true 0 4 (Demo.fresh 12) in
  ((fst fits = U_BUFFER_OVERFLOW_ERROR <-> 4 >= 12) /\
   (UErrorCodeToBool (fst fits) = 0 <-> 4 >= 12) /\
   (4 < 12 ->
    fst fits = U_ZERO_ERROR /\
    List.length (u_cstring (Demo.ustr "euro")) = 4%nat /\
    out (snd fits) = store_at 0 (Demo.ustr "euro" ++ [0]) (repeat 65535 12) /\
    (0 + 12 <= 12 -> out (snd fits) = Demo.ustr "euro" ++ 0 :: repeat 65535 7))) /\
  (fst tight = U_BUFFER_OVERFLOW_ERROR <-> 4 >= 4).
Proof.
  split.
  - exact (GetLocaleCurrencyName_overflow_iff Demo.icu "fr_FR"%string true 0 12
             (Demo.fresh 12) eq_refl eq_refl eq_refl ltac:(lia)).
  - exact (proj1 (GetLocaleCurrencyName_overflow_iff Demo.icu "fr_FR"%string true 0 4
                    (Demo.fresh 12) eq_refl eq_refl eq_refl ltac:(lia))).
Defined.

Lemma temporary_buffer_status_and_release_witness :
  (let r := GetLocaleIso639LanguageTwoLetterName Demo.icu Demo.pal "fr_FR" 0 8
              (Demo.fresh 8) in
   fst r = U_ZERO_ERROR /\
   calls (snd r)
   = [Call_uloc_getLanguage "fr_FR" 0; Call_calloc 3 true; Call_uloc_getLanguage "fr_FR" 3;
      Call_u_charsToUChars_safe "fr" 0 8; Call_free]) /\
  GetLocaleIso3166CountryName Demo.icu Demo.pal_no_memory "fr_FR" 0 8 (Demo.fresh 8)
  = (U_MEMORY_ALLOCATION_ERROR,
     mkWorld (repeat 65535 8) [Call_uloc_getCountry "fr_FR" 0; Call_calloc 3 false]).
Proof.
  split.
  - exact (proj2 (proj1 (temporary_buffer_status_and_release Demo.icu Demo.pal
                           "fr_FR"%string 0 8 (Demo.fresh 8))) eq_refl).
  - exact (proj1 (proj2 (temporary_buffer_status_and_release Demo.icu Demo.pal_no_memory
                           "fr_FR"%string 0 8 (Demo.fresh 8))) eq_refl).
Defined.

(** C8 as the specification states it does not hold: here the allocation of
    the temporary buffer succeeds, the library's second [uloc_getLanguage]
    call reports a memory failure of its own, and the function returns it. *)
Lemma memory_failure_without_failed_allocation :
  let length :=
    int32_add (snd (fst (icu_uloc_getLanguage Demo.icu_exhausted "en_US" 0 U_ZERO_ERROR))) 1 in
  let r := GetLocaleIso639LanguageTwoLetterName Demo.icu_exhausted Demo.pal "en_US" 0 8
             (Demo.fresh 8) in
  ~ (fst r = U_MEMORY_ALLOCATION_ERROR <-> calloc_succeeds Demo.pal length = false).
Proof.
  cbv zeta. intros [H _]. specialize (H eq_refl). vm_compute in H. discriminate H.
Qed.

Lemma Digits_queried_in_order_witness :
  GetDigitSymbol Demo.icu "en_US" U_BUFFER_OVERFLOW_ERROR UNUM_NINE_DIGIT_SYMBOL 9 0 3
    (Demo.fresh 3)
  = (U_BUFFER_OVERFLOW_ERROR, Demo.fresh 3) /\
  GetLocaleInfoString_switch Demo.icu Demo.pal "en_US" Digits U_ZERO_ERROR 0 3 (Demo.fresh 3)
  = Digits_in_order Demo.icu "en_US" digit_symbols 0 U_ZERO_ERROR 0 3 (Demo.fresh 3).
Proof.
  destruct (Digits_queried_in_order Demo.icu Demo.pal) as [Hshort Horder].
  split.
  - exact (Hshort "en_US"%string U_BUFFER_OVERFLOW_ERROR UNUM_NINE_DIGIT_SYMBOL 9 0 3
             (Demo.fresh 3) eq_refl).
  - exact (Horder "en_US"%string U_ZERO_ERROR 0 3 (Demo.fresh 3) ltac:(lia)).
Defined.

(** The run of the [Digits] case into a buffer of three cells: the query for
    digit 3 is the first to fail (no cell is left), and it is the last call. *)
Example Digits_three_cells :
  GlobalizationNative_GetLocaleInfoString Demo.icu Demo.pal (Demo.ustr "en-US") Digits 0 3
    (Demo.fresh 3)
  = (0, mkWorld [48; 49; 50]
          [Call_GetLocale (Demo.ustr "en-US");
           Call_unum_open 1 "en_US" 100; Call_unum_getSymbol 100 4 0 3; Call_unum_close 100;
           Call_unum_open 1 "en_US" 100; Call_unum_getSymbol 100 18 1 2; Call_unum_close 100;
           Call_unum_open 1 "en_US" 100; Call_unum_getSymbol 100 19 2 1; Call_unum_close 100;
           Call_unum_open 1 "en_US" 100; Call_unum_getSymbol 100 20 3 0; Call_unum_close 100]).
Proof. vm_compute. reflexivity. Qed.

(** The library model keeps the two contracts of section [Answers]. *)
Lemma Demo_chars_widened :
  forall str valueLength,
    U_SUCCESS (snd (pal_u_charsToUChars_safe Demo.pal str valueLength)) = true ->
    fst (pal_u_charsToUChars_safe Demo.pal str valueLength) = widen str ++ [0].
Proof.
  intros str valueLength. simpl. unfold Demo.charsToUChars_safe.
  destruct (_ >=? valueLength); simpl; [ discriminate | reflexivity ].
Qed.

Lemma u_cstring_idempotent (s : list UChar) : u_cstring (u_cstring s) = u_cstring s.
Proof.
  induction s as [|c s IH]; simpl; [ reflexivity | ].
  destruct (c =? 0) eqn:Hc; simpl; [ reflexivity | ]. now rewrite Hc, IH.
Qed.

Lemma Demo_currency_name_length :
  forall currency locale status,
    U_SUCCESS (snd (icu_ucurr_getName Demo.icu currency locale UCURR_LONG_NAME status)) = true ->
    u_strlen (fst (fst (icu_ucurr_getName Demo.icu currency locale UCURR_LONG_NAME status)))
    = snd (fst (icu_ucurr_getName Demo.icu currency locale UCURR_LONG_NAME status)).
Proof.
  intros currency locale status.
  change (icu_ucurr_getName Demo.icu) with Demo.getName. unfold Demo.getName.
  destruct (U_FAILURE status) eqn:Hst; cbn [fst snd].
  - intros Hs. apply U_FAILURE_SUCCESS_false in Hst. congruence.
  - destruct (Demo.currencyName locale currency Demo.currencyNames) as [v|] eqn:Hv;
      cbn [fst snd].
    + intros _. unfold Demo.currencyNames in Hv. simpl in Hv.
      repeat match type of Hv with
             | (if ?c then _ else _) = _ => destruct c
             end;
        inversion Hv; subst v; reflexivity.
    + intros _. unfold u_strlen. now rewrite u_cstring_idempotent.
Qed.

Lemma Demo_one_unit_digits :
  one_unit_digits Demo.icu "en_US" digit_symbols 0 12.
Proof.
  unfold digit_symbols. cbn [map seq one_unit_digits].
  repeat (split; [ eexists; split; cycle 1; [ vm_compute; reflexivity | discriminate ] | ]).
  exact I.
Qed.

Lemma buffer_holds_library_answer_witness :
  out (snd (GlobalizationNative_GetLocaleInfoString Demo.icu Demo.pal (Demo.ustr "fr-FR")
              DecimalSeparator 0 8 (Demo.fresh 8)))
  = [44; 0; 65535; 65535; 65535; 65535; 65535; 65535] /\
  out (snd (GlobalizationNative_GetLocaleInfoString Demo.icu Demo.pal (Demo.ustr "fr-FR")
              CurrencyNativeName 0 8 (Demo.fresh 8)))
  = Demo.ustr "euro" ++ [0; 65535; 65535; 65535] /\
  out (snd (GlobalizationNative_GetLocaleInfoString Demo.icu Demo.pal
              (Demo.ustr "zh-Hans-CN") ParentName 0 12 (Demo.fresh 12)))
  = Demo.ustr "zh-Hans" ++ [0; 65535; 65535; 65535; 65535] /\
  out (snd (GlobalizationNative_GetLocaleInfoString Demo.icu Demo.pal (Demo.ustr "en-US")
              Digits 0 12 (Demo.fresh 12)))
  = Demo.ustr "0123456789" ++ [0; 65535].
Proof.
  split; [ | split; [ | split ] ].
  - exact (buffer_holds_library_answer Demo.icu Demo.pal Demo_chars_widened
             Demo_currency_name_length (Demo.ustr "fr-FR") DecimalSeparator
             (NumberSymbol UNUM_DECIMAL_SEPARATOR_SYMBOL) 0 8 (Demo.fresh 8)
             ltac:(lia) ltac:(lia) eq_refl ltac:(discriminate) eq_refl).
  - exact (buffer_holds_library_answer Demo.icu Demo.pal Demo_chars_widened
             Demo_currency_name_length (Demo.ustr "fr-FR") CurrencyNativeName
             (CurrencyLongName "fr_FR") 0 8 (Demo.fresh 8)
             ltac:(lia) ltac:(lia) eq_refl ltac:(discriminate) eq_refl).
  - exact (buffer_holds_library_answer Demo.icu Demo.pal Demo_chars_widened
             Demo_currency_name_length (Demo.ustr "zh-Hans-CN") ParentName
             ParentLocale 0 12 (Demo.fresh 12)
             ltac:(lia) ltac:(lia) eq_refl ltac:(discriminate) eq_refl).
  - exact (buffer_holds_library_answer Demo.icu Demo.pal Demo_chars_widened
             Demo_currency_name_length (Demo.ustr "en-US") Digits
             DigitSymbols 0 12 (Demo.fresh 12)
             ltac:(lia) ltac:(lia) eq_refl (fun _ => Demo_one_unit_digits) eq_refl).
Defined.

(** C3 as the specification states it does not hold for [ParentName]: the
    library answers [zh_Hans] for the parent of [zh_Hans_CN], the call
    succeeds, and the buffer holds [zh-Hans]. *)
Lemma parent_name_is_not_the_library_answer :
  let name := Demo.ustr "zh-Hans-CN" in
  let g := pal_GetLocale Demo.pal name ULOC_FULLNAME_CAPACITY false U_ZERO_ERROR in
  let r := GlobalizationNative_GetLocaleInfoString Demo.icu Demo.pal name ParentName 0 12
             (Demo.fresh 12) in
  let a := library_answer Demo.icu (fst g) ParentLocale (snd g) 0 12 (out (Demo.fresh 12)) in
  query_of_field Demo.pal (fst g) ParentName = Some ParentLocale /\
  fst r = 1 /\
  a = Demo.ustr "zh_Hans" ++ [0; 65535; 65535; 65535; 65535] /\
  out (snd r) = Demo.ustr "zh-Hans" ++ [0; 65535; 65535; 65535; 65535] /\
  out (snd r) <> a.
Proof.
  cbv zeta. repeat split; try reflexivity.
  vm_compute. discriminate.
Qed.

(** ** Runs for the status of a call *)

Lemma flag_of_library_status_or_file_status_witness :
  let name := Demo.ustr "fr-FR" in
  is_flag_of
    (fst (GlobalizationNative_GetLocaleInfoString Demo.icu Demo.pal name CurrencyNativeName
            0 4 (Demo.fresh 8)))
    U_BUFFER_OVERFLOW_ERROR /\
  (exists status,
      final_library_status Demo.icu Demo.pal "fr_FR" (CurrencyLongName "fr_FR")
        U_ZERO_ERROR 12 = Some status /\
      is_flag_of
        (fst (GlobalizationNative_GetLocaleInfoString Demo.icu Demo.pal name
                CurrencyNativeName 0 12 (Demo.fresh 12)))
        status) /\
  is_flag_of
    (fst (GlobalizationNative_GetLocaleTimeFormat Demo.icu Demo.pal name 1 0 12
            (Demo.fresh 12)))
    (time_format_library_status Demo.icu "fr_FR" 1 U_ZERO_ERROR 12).
Proof.
  cbv zeta. split; [ | split ].
  - exact (proj1 (proj2 (flag_of_library_status_or_file_status Demo.icu Demo.pal
                           (Demo.ustr "fr-FR") CurrencyNativeName 1 0 4 (Demo.fresh 8)
                           ltac:(lia)) eq_refl)
             (CurrencyLongName "fr_FR") eq_refl).
  - exact (proj1 (proj2 (flag_of_library_status_or_file_status Demo.icu Demo.pal
                           (Demo.ustr "fr-FR") CurrencyNativeName 1 0 12 (Demo.fresh 12)
                           ltac:(lia)) eq_refl)
             (CurrencyLongName "fr_FR") eq_refl).
  - exact (proj2 (proj2 (proj2 (flag_of_library_status_or_file_status Demo.icu Demo.pal
                                  (Demo.ustr "fr-FR") CurrencyNativeName 1 0 12
                                  (Demo.fresh 12) ltac:(lia)) eq_refl))).
Defined.

(** C1 as the specification states it does not hold: asked for the native
    currency name of [fr-FR] with room for four units, the library answers
    both of its calls with [U_ZERO_ERROR] (the currency is [EUR], its name
    [euro], four units long), so the final library status is a success
    status; the file finds that the name and its terminator do not fit, sets
    [U_BUFFER_OVERFLOW_ERROR] itself and returns 0. *)
Lemma file_made_overflow_is_not_a_library_status :
  let name := Demo.ustr "fr-FR" in
  let g := pal_GetLocale Demo.pal name ULOC_FULLNAME_CAPACITY false U_ZERO_ERROR in
  let c := icu_ucurr_forLocale Demo.icu "fr_FR" 4 U_ZERO_ERROR in
  let n := icu_ucurr_getName Demo.icu (fst c) "fr_FR" UCURR_LONG_NAME (snd c) in
  let r := fst (GlobalizationNative_GetLocaleInfoString Demo.icu Demo.pal name
                  CurrencyNativeName 0 4 (Demo.fresh 8)) in
  g = ("fr_FR"%string, U_ZERO_ERROR) /\
  snd c = U_ZERO_ERROR /\
  n = (Demo.ustr "euro", 4, U_ZERO_ERROR) /\
  calls (snd (GlobalizationNative_GetLocaleInfoString Demo.icu Demo.pal name
                CurrencyNativeName 0 4 (Demo.fresh 8)))
  = [Call_GetLocale name; Call_ucurr_forLocale "fr_FR" 4;
     Call_ucurr_getName (fst c) "fr_FR" UCURR_LONG_NAME] /\
  final_library_status Demo.icu Demo.pal (fst g) (CurrencyLongName "fr_FR") (snd g) 4
  = Some U_ZERO_ERROR /\
  r = 0 /\
  ~ (r = 1 <-> U_ZERO_ERROR <= U_ZERO_ERROR).
Proof.
  cbv zeta. repeat split; try reflexivity.
  intros [_ H]. specialize (H (Z.le_refl _)). vm_compute in H. discriminate H.
Qed.

(** ** Runs for the independence of a call *)

(** The library model keeps the two contracts of the [ParentName] case. *)
Lemma Demo_fixup_is_local : FixupLocaleName_is_local Demo.pal.
Proof.
  intros s t n. cbn [pal_FixupLocaleName Demo.pal]. generalize (Z.to_nat n) as k.
  induction s as [|c s IH]; intros k Hin; [ destruct Hin | ].
  destruct k as [|k]; cbn [Demo.fixup app]; [ split; reflexivity | ].
  destruct (c =? 0) eqn:Hc; [ split; reflexivity | ].
  destruct Hin as [H0 | Hin]; [ subst c; discriminate Hc | ].
  destruct (IH k Hin) as [IH1 IH2]. rewrite IH1.
  split; [ reflexivity | cbn [List.length]; now rewrite IH2 ].
Qed.

Lemma widen_length (str : string) : List.length (widen str) = String.length str.
Proof.
  unfold widen. rewrite length_map.
  induction str as [|c str IH]; simpl; [ reflexivity | now rewrite IH ].
Qed.

Lemma Demo_conversion_is_terminated : conversion_is_terminated Demo.pal.
Proof.
  intros str n. cbn [pal_u_charsToUChars_safe Demo.pal]. unfold Demo.charsToUChars_safe.
  destruct (Z.of_nat (String.length str) >=? n) eqn:Hfit; cbn [fst snd];
    [ discriminate | intros _ ].
  split.
  - apply in_or_app. right. left. reflexivity.
  - rewrite length_app. unfold Demo.ustr. rewrite widen_length. cbn [List.length].
    rewrite Z.geb_leb in Hfit. apply Z.leb_gt in Hfit. lia.
Qed.

Lemma a_call_sees_neither_buffer_nor_past_witness :
  blind (GlobalizationNative_GetLocaleInfoString Demo.icu Demo.pal (Demo.ustr "fr-FR")
           CurrencyNativeName 0 12) /\
  blind (GlobalizationNative_GetLocaleTimeFormat Demo.icu Demo.pal (Demo.ustr "fr-FR")
           1 0 12) /\
  (exists a ws l,
      forall b h,
        0 + 12 <= Z.of_nat (List.length b) ->
        GlobalizationNative_GetLocaleInfoString Demo.icu Demo.pal (Demo.ustr "zh-Hans-CN")
          ParentName 0 12 (mkWorld b h)
        = (a, mkWorld (apply_stores ws b) (h ++ l))).
Proof.
  split; [ | split ].
  - exact (proj1 (a_call_sees_neither_buffer_nor_past Demo.icu Demo.pal
                    (Demo.ustr "fr-FR") CurrencyNativeName 1 0 12)
             ltac:(discriminate)).
  - exact (proj1 (proj2 (a_call_sees_neither_buffer_nor_past Demo.icu Demo.pal
                           (Demo.ustr "fr-FR") CurrencyNativeName 1 0 12))).
  - exact (proj2 (proj2 (proj2 (a_call_sees_neither_buffer_nor_past Demo.icu Demo.pal
                                  (Demo.ustr "zh-Hans-CN") ParentName 1 0 12)))
             Demo_fixup_is_local Demo_conversion_is_terminated ltac:(lia)).
Defined.

(** The parent name asked for after a [Digits] query that has filled the
    buffer, and asked for in a fresh buffer: the same value, the same twelve
    cells. *)
Example ParentName_after_Digits :
  let digits := GlobalizationNative_GetLocaleInfoString Demo.icu Demo.pal
                  (Demo.ustr "en-US") Digits 0 12 (Demo.fresh 12) in
  let after := GlobalizationNative_GetLocaleInfoString Demo.icu Demo.pal
                 (Demo.ustr "zh-Hans-CN") ParentName 0 8 (snd digits) in
  let alone := GlobalizationNative_GetLocaleInfoString Demo.icu Demo.pal
                 (Demo.ustr "zh-Hans-CN") ParentName 0 8 (Demo.fresh 12) in
  out (snd digits) = Demo.ustr "0123456789" ++ [0; 65535] /\
  fst after = 1 /\ fst alone = 1 /\
  out (snd after) = Demo.ustr "zh-Hans" ++ [0] ++ Demo.ustr "89" ++ [0; 65535] /\
  out (snd alone) = Demo.ustr "zh-Hans" ++ [0; 65535; 65535; 65535; 65535] /\
  firstn 8 (out (snd after)) = firstn 8 (out (snd alone)).
Proof. vm_compute. repeat split; reflexivity. Qed.

(** [blind] tells computations apart: a store of one cell is either the same
    for every buffer or leaves the cell as it is, and [FixupLocaleName] run
    on its own, which rewrites the cell it reads, is neither. *)
Lemma store_at_one_cell (p : Z) (data : list UChar) :
  (forall x, store_at p data [x] = [x]) \/ (exists c, forall x, store_at p data [x] = [c]).
Proof.
  unfold store_at. destruct (p <? 0); [ left; reflexivity | ].
  destruct (Z.to_nat p) as [|k].
  - destruct data as [|d data]; [ left; reflexivity | right; exists d; reflexivity ].
  - left. reflexivity.
Qed.

Lemma apply_stores_one_cell (ws : list (Z * list UChar)) :
  (forall x, apply_stores ws [x] = [x]) \/ (exists c, forall x, apply_stores ws [x] = [c]).
Proof.
  induction ws as [|[p data] ws IH]; [ left; reflexivity | ].
  unfold apply_stores in *. cbn [fold_left fst snd].
  destruct (store_at_one_cell p data) as [Hkeep | [c Hset]].
  - destruct IH as [IH | [c' IH]].
    + left. intros x. now rewrite Hkeep, IH.
    + right. exists c'. intros x. now rewrite Hkeep, IH.
  - destruct IH as [IH | [c' IH]].
    + right. exists c. intros x. now rewrite Hset, IH.
    + right. exists c'. intros x. now rewrite Hset, IH.
Qed.

Example FixupLocaleName_alone_is_not_blind :
  ~ blind (FixupLocaleName Demo.pal 0 4).
Proof.
  intros [a [ws [l H]]].
  assert (E1 : apply_stores ws [95] = [45]).
  { change (out (snd (a, mkWorld (apply_stores ws [95]) ([] ++ l))) = [45]).
    rewrite <- (H [95] []). reflexivity. }
  assert (E2 : apply_stores ws [0] = [0]).
  { change (out (snd (a, mkWorld (apply_stores ws [0]) ([] ++ l))) = [0]).
    rewrite <- (H [0] []). reflexivity. }
  destruct (apply_stores_one_cell ws) as [Hkeep | [c Hset]].
  - rewrite Hkeep in E1. discriminate E1.
  - rewrite Hset in E1, E2. congruence.
Qed.

(** ** Runs for the digits of a locale *)

(** A library whose digit symbols are two units long each: with room for all
    twenty units and a terminator the call returns 1, and the buffer holds
    the first unit of each of the ten symbols, the second unit of the last
    one and its terminator; the ten symbols themselves are not in it. *)
Example Digits_two_unit_symbols_overlap :
  let r := GlobalizationNative_GetLocaleInfoString icu_wide_digits Demo.pal
             (Demo.ustr "en-US") Digits 0 21 (Demo.fresh 21) in
  let a := library_answer icu_wide_digits "en_US" DigitSymbols U_ZERO_ERROR 0 21
             (out (Demo.fresh 21)) in
  fst r = 1 /\
  out (snd r) = repeat 55349 10 ++ [57303; 0] ++ repeat 65535 9 /\
  a = [55349; 57294; 55349; 57295; 55349; 57296; 55349; 57297; 55349; 57298;
       55349; 57299; 55349; 57300; 55349; 57301; 55349; 57302; 55349; 57303; 0] /\
  out (snd r) <> a /\
  ~ one_unit_digits icu_wide_digits "en_US" digit_symbols 0 21.
Proof.
  cbv zeta. split; [ reflexivity | ].
  split; [ vm_compute; reflexivity | ].
  split; [ vm_compute; reflexivity | ].
  split; [ vm_compute; discriminate | ].
  intros [[d [_ Hd]] _]. vm_compute in Hd. discriminate Hd.
Qed.

(** ** Runs for the further properties *)

(** The discipline of [hold_step] sees a formatter that is left open, a close
    of a handle that is not held, and a buffer that is not freed. *)
Example held_after_sees_a_leak :
  held_after Demo.icu [Call_unum_open UNUM_DECIMAL "en_US" 100;
                       Call_unum_getSymbol 100 0 0 8]
  = Some (NumberFormatter 100, false) /\
  held_after Demo.icu [Call_unum_open UNUM_DECIMAL "en_US" 100; Call_unum_close 200] = None /\
  held_after Demo.icu [Call_unum_close 100] = None /\
  held_after Demo.icu [Call_calloc 3 true] = Some (NoFormatter, true) /\
  held_after Demo.icu [Call_calloc 3 false; Call_free] = None.
Proof. repeat split; reflexivity. Qed.

Lemma failed_open_is_the_last_call_witness :
  GetLocaleInfoDecimalFormatSymbol Demo.icu "xx" UNUM_PERCENT_SYMBOL 0 8 (Demo.fresh 8)
  = (Demo.U_MISSING_RESOURCE_ERROR,
     mkWorld (repeat 65535 8) [Call_unum_open UNUM_DECIMAL "xx" 0]) /\
  GetLocaleInfoAmPm Demo.icu "xx" true 0 8 (Demo.fresh 8)
  = (Demo.U_MISSING_RESOURCE_ERROR,
     mkWorld (repeat 65535 8) [Call_udat_open UDAT_DEFAULT UDAT_DEFAULT "xx" 0]) /\
  GlobalizationNative_GetLocaleTimeFormat Demo.icu Demo.pal (Demo.ustr "xx") 0 0 8
    (Demo.fresh 8)
  = (0, mkWorld (repeat 65535 8)
          [Call_GetLocale (Demo.ustr "xx"); Call_udat_open UDAT_MEDIUM UDAT_NONE "xx" 0]).
Proof.
  destruct (failed_open_is_the_last_call Demo.icu Demo.pal) as [Hnum [Hampm Htime]].
  split; [ | split ].
  - exact (Hnum "xx"%string UNUM_PERCENT_SYMBOL 0 8 (Demo.fresh 8) eq_refl).
  - exact (Hampm "xx"%string true 0 8 (Demo.fresh 8) eq_refl).
  - exact (Htime (Demo.ustr "xx") 0 0 8 (Demo.fresh 8) eq_refl eq_refl).
Defined.

Lemma empty_iso3_code_is_rejected_witness :
  GetLocaleIso639LanguageThreeLetterName Demo.icu Demo.pal "xx" 0 8 (Demo.fresh 8)
  = (U_ILLEGAL_ARGUMENT_ERROR,
     mkWorld (repeat 65535 8) [Call_uloc_getISO3Language "xx"]) /\
  GetLocaleIso3166CountryCode Demo.icu Demo.pal "xx" 0 8 (Demo.fresh 8)
  = (U_ILLEGAL_ARGUMENT_ERROR,
     mkWorld (repeat 65535 8) [Call_uloc_getISO3Country "xx"]) /\
  GetLocaleIso3166CountryCode Demo.icu Demo.pal "fr_FR" 0 8 (Demo.fresh 8)
  = (U_ZERO_ERROR,
     mkWorld (Demo.ustr "FRA" ++ [0; 65535; 65535; 65535; 65535])
       [Call_uloc_getISO3Country "fr_FR"; Call_u_charsToUChars_safe "FRA" 0 8]).
Proof.
  split; [ | split ].
  - exact (proj1 (proj1 (empty_iso3_code_is_rejected Demo.icu Demo.pal "xx"%string 0 8
                           (Demo.fresh 8))) eq_refl).
  - exact (proj1 (proj2 (empty_iso3_code_is_rejected Demo.icu Demo.pal "xx"%string 0 8
                           (Demo.fresh 8))) eq_refl).
  - exact (proj2 (proj2 (empty_iso3_code_is_rejected Demo.icu Demo.pal "fr_FR"%string 0 8
                           (Demo.fresh 8)))
             ltac:(discriminate) ltac:(vm_compute; reflexivity)).
Defined.

Lemma GetLocaleCurrencyName_all_or_nothing_witness :
  out (snd (GetLocaleCurrencyName Demo.icu "fr_FR" false 0 4 (Demo.fresh 8)))
  = repeat 65535 8 /\
  GetLocaleCurrencyName Demo.icu "xx" true 0 8 (Demo.fresh 8)
  = (Demo.U_MISSING_RESOURCE_ERROR,
     mkWorld (repeat 65535 8) [Call_ucurr_forLocale "xx" 4]).
Proof.
  split.
  - exact (proj1 (GetLocaleCurrencyName_all_or_nothing Demo.icu "fr_FR"%string false 0 4
                    (Demo.fresh 8)) eq_refl).
  - exact (proj1 (proj2 (GetLocaleCurrencyName_all_or_nothing Demo.icu "xx"%string true 0 8
                           (Demo.fresh 8))) eq_refl).
Defined.

Lemma ParentName_fixup_only_on_success_witness :
  out (snd (GetLocaleInfoString_switch Demo.icu Demo.pal "zh_Hans_CN" ParentName
              U_ILLEGAL_ARGUMENT_ERROR 0 8 (Demo.fresh 8)))
  = repeat 65535 8 /\
  calls_since (Demo.fresh 8)
    (snd (GetLocaleInfoString_switch Demo.icu Demo.pal "zh_Hans_CN" ParentName
            U_ZERO_ERROR 0 4 (Demo.fresh 8)))
  = [Call_uloc_getParent "zh_Hans_CN" ULOC_FULLNAME_CAPACITY;
     Call_u_charsToUChars_safe "zh_Hans" 0 4].
Proof.
  split.
  - exact (proj2 (proj2 (proj2 (ParentName_fixup_only_on_success Demo.icu Demo.pal
                                  "zh_Hans_CN"%string U_ILLEGAL_ARGUMENT_ERROR 0 8
                                  (Demo.fresh 8)))) eq_refl).
  - exact (proj1 (proj2 (ParentName_fixup_only_on_success Demo.icu Demo.pal
                           "zh_Hans_CN"%string U_ZERO_ERROR 0 4 (Demo.fresh 8)))).
Defined.

Lemma success_status_on_entry_is_dropped_witness :
  GetLocaleInfoString_switch Demo.icu Demo.pal "en_US" Digits U_USING_DEFAULT_WARNING 0 12
    (Demo.fresh 12)
  = GetLocaleInfoString_switch Demo.icu Demo.pal "en_US" Digits U_ZERO_ERROR 0 12
      (Demo.fresh 12).
Proof.
  exact (success_status_on_entry_is_dropped Demo.icu Demo.pal "en_US"%string Digits
           U_USING_DEFAULT_WARNING U_ZERO_ERROR 0 12 (Demo.fresh 12)
           eq_refl eq_refl eq_refl).
Defined.

Lemma Digits_success_makes_ten_queries_witness :
  let r := GetLocaleInfoString_switch Demo.icu Demo.pal "en_US" Digits U_ZERO_ERROR 0 12
             (Demo.fresh 12) in
  calls (snd r) = flat_map (digit_query "en_US" 100 0 12) digit_offsets /\
  List.length (flat_map (digit_query "en_US" 100 0 12) digit_offsets) = 30%nat.
Proof.
  exact (Digits_success_makes_ten_queries Demo.icu Demo.pal "en_US"%string U_ZERO_ERROR 0 12
           (Demo.fresh 12) ltac:(lia) eq_refl).
Defined.

Lemma Digits_result_is_last_query_witness :
  let r := GetLocaleInfoString_switch Demo.icu Demo.pal "en_US" Digits U_ZERO_ERROR 0 3
             (Demo.fresh 3) in
  exists k,
    (k < 10)%nat /\
    U_FAILURE (digits_library_status Demo.icu "en_US" (firstn k digit_symbols) 0
                 U_ZERO_ERROR 3) = false /\
    r = GetLocaleInfoDecimalFormatSymbol Demo.icu "en_US" (nth k digit_symbols 0)
          (0 + Z.of_nat k) (3 - Z.of_nat k)
          (mkWorld
             (digit_stores Demo.icu "en_US" (firstn k digit_symbols) 0 0 3
                (out (Demo.fresh 3)))
             (calls (Demo.fresh 3)
                ++ digit_queries "en_US" 100 0 3 0 (firstn k digit_symbols))) /\
    (k = 9%nat \/ U_FAILURE (fst r) = true).
Proof.
  exact (Digits_result_is_last_query Demo.icu Demo.pal "en_US"%string U_ZERO_ERROR 0 3
           (Demo.fresh 3) ltac:(lia) eq_refl).
Defined.

Lemma GetLocaleTimeFormat_pattern_witness :
  out (snd (GlobalizationNative_GetLocaleTimeFormat Demo.icu Demo.pal (Demo.ustr "fr-FR")
              1 0 8 (Demo.fresh 8)))
  = Demo.ustr "HH:mm" ++ [0; 65535; 65535] /\
  GlobalizationNative_GetLocaleTimeFormat Demo.icu Demo.pal (Demo.ustr "fr-FR")
    (-7) 0 8 (Demo.fresh 8)
  = GlobalizationNative_GetLocaleTimeFormat Demo.icu Demo.pal (Demo.ustr "fr-FR")
      1 0 8 (Demo.fresh 8) /\
  out (snd (GlobalizationNative_GetLocaleTimeFormat Demo.icu Demo.pal (Demo.ustr "xx")
              1 0 8 (Demo.fresh 8)))
  = repeat 65535 8.
Proof.
  split; [ | split ].
  - exact (proj1 (GetLocaleTimeFormat_pattern Demo.icu Demo.pal (Demo.ustr "fr-FR") 1 0 8
                    (Demo.fresh 8)) eq_refl).
  - exact (proj2 (proj2 (GetLocaleTimeFormat_pattern Demo.icu Demo.pal (Demo.ustr "fr-FR")
                           1 0 8 (Demo.fresh 8)))
             (-7) ltac:(split; intros; discriminate)).
  - exact (proj2 (proj1 (proj2 (GetLocaleTimeFormat_pattern Demo.icu Demo.pal
                                  (Demo.ustr "xx") 1 0 8 (Demo.fresh 8)))
                    (or_intror eq_refl))).
Defined.

Lemma default_locale_and_allocator_matter_for_two_fields_each_witness :
  GlobalizationNative_GetLocaleInfoString Demo.icu (with_default_locale Demo.pal "fr_FR")
    (Demo.ustr "en-US") EnglishDisplayName 0 30 (Demo.fresh 30)
  = GlobalizationNative_GetLocaleInfoString Demo.icu Demo.pal
      (Demo.ustr "en-US") EnglishDisplayName 0 30 (Demo.fresh 30) /\
  GlobalizationNative_GetLocaleInfoString Demo.icu (with_allocator Demo.pal (fun _ => false))
    (Demo.ustr "en-US") Iso639LanguageThreeLetterName 0 30 (Demo.fresh 30)
  = GlobalizationNative_GetLocaleInfoString Demo.icu Demo.pal
      (Demo.ustr "en-US") Iso639LanguageThreeLetterName 0 30 (Demo.fresh 30).
Proof.
  split.
  - exact (proj1 (default_locale_and_allocator_matter_for_two_fields_each Demo.icu Demo.pal
                    (Demo.ustr "en-US") EnglishDisplayName 0 0 30 (Demo.fresh 30)
                    "fr_FR"%string (fun _ => false)) eq_refl).
  - exact (proj1 (proj2 (default_locale_and_allocator_matter_for_two_fields_each Demo.icu
                           Demo.pal (Demo.ustr "en-US") Iso639LanguageThreeLetterName 0 0 30
                           (Demo.fresh 30) "fr_FR"%string (fun _ => false))) eq_refl).
Defined.

(** The two fields that ask for the default locale do depend on it. *)
Example LocalizedDisplayName_depends_on_default_locale :
  GlobalizationNative_GetLocaleInfoString Demo.icu (with_default_locale Demo.pal "en")
    (Demo.ustr "fr-FR") LocalizedDisplayName 0 30 (Demo.fresh 30)
  <> GlobalizationNative_GetLocaleInfoString Demo.icu Demo.pal
       (Demo.ustr "fr-FR") LocalizedDisplayName 0 30 (Demo.fresh 30).
Proof. vm_compute. discriminate. Qed.
